(** * Booking-webhook mailer: a shallow embedding and its properties

    The development follows the four TypeScript sources:
    - the webhook receiver (signature check, trigger classification,
      field extraction, the three per-trigger handlers);
    - [ics-builder.ts] (UTC date arrays, [buildIcsString]);
    - the Postmark wrapper ([sendPostmarkEmail]);
    - the symmetric-encryption helper ([symmetricEncrypt],
      [symmetricDecrypt]), and the two-factor setup route of the same file
      ([postHandler]), which stores what the helper encrypts.

    Modelling conventions.
    - A JavaScript string is a Rocq [string] holding its UTF-8 bytes.  The
      upper case of the ASCII letters and the whitespace class are written
      out; the case mapping of the runtime outside ASCII is a [Variable].
      Only the encryption helper, whose round trip depends on it, uses
      UTF-16 code units.
    - Payloads are taken at their declared TypeScript types: an optional
      field is an [option]; a [number] is an integer [Z], added and printed
      as the double it is (exactly so up to 2^53).  What [JSON.parse]
      returns is such a payload, [null], or a value whose trigger is not a
      string.
    - Calls into the runtime or into third-party packages (HMAC, JSON
      parsing, [Date] parsing, the [ics] package, [fetch], AES) are
      [Variable]s of the enclosing [Section]; every call that matters to a
      property is also recorded in an event trace. *)

From Stdlib Require Import ZArith List String Ascii Bool Lia DecimalString.
From Stdlib.Strings Require Import Byte.
Import ListNotations.

Local Open Scope string_scope.

(* ================================================================== *)
(** ** JavaScript values used by the sources *)
(* ================================================================== *)

Module JS.

(** The double-quote character (template literals of the sources contain
    it). *)
Definition dquote : string := String (ascii_of_nat 34) EmptyString.

(** Truthiness of a [string | undefined]: [undefined] and the empty string
    are falsy. *)
Definition str_truthy (s : string) : bool :=
  match s with
  | EmptyString => false
  | String _ _ => true
  end.

Definition truthy (o : option string) : bool :=
  match o with
  | Some s => str_truthy s
  | None => false
  end.

(** A thrown value: an [Error] with its message. *)
Inductive Error := mkError (message : string).

(** The value of [x] on the branch where [x] is truthy. *)
Definition present (o : option string) : option string :=
  if truthy o then o else None.

(** [a || b] on [string | undefined]: the left operand when it is truthy. *)
Definition or_else (a b : option string) : option string :=
  if truthy a then a else b.

(** [a || "literal"]: the chain ends in a string. *)
Definition or_default (a : option string) (d : string) : string :=
  match a with
  | Some s => if str_truthy s then s else d
  | None => d
  end.

(** *** Upper-casing and whitespace

    A string is held as its UTF-8 bytes, so an ASCII character is one byte
    below 128 and every other character is a sequence of bytes from 128
    on. *)

Definition is_ascii_char (c : ascii) : bool := (nat_of_ascii c <? 128)%nat.

(** [toUpperCase] on an ASCII character. *)
Definition upper_ascii (c : ascii) : ascii :=
  let n := nat_of_ascii c in
  if (97 <=? n)%nat && (n <=? 122)%nat then ascii_of_nat (n - 32) else c.

Section UpperCase.

(** [String.prototype.toUpperCase] on text that has no ASCII character: the
    Unicode case mapping of the runtime.  It maps each character by itself,
    so the upper case of a string is made of the upper case of its ASCII
    characters and of the runs of other characters between them. *)
Variable upper_non_ascii : string -> string.

Definition upper_run (run : string) : string :=
  match run with
  | EmptyString => EmptyString
  | String _ _ => upper_non_ascii run
  end.

(** [toUpperCase_from run s]: the upper case of [run ++ s], where [run] is
    the run of non-ASCII bytes read so far. *)
Fixpoint toUpperCase_from (run : string) (s : string) : string :=
  match s with
  | EmptyString => upper_run run
  | String c s' =>
      if is_ascii_char c
      then upper_run run ++ String (upper_ascii c) (toUpperCase_from "" s')
      else toUpperCase_from (run ++ String c "") s'
  end.

(** [String.prototype.toUpperCase]. *)
Definition toUpperCase (s : string) : string := toUpperCase_from "" s.

End UpperCase.

(** The ASCII part of the class [\s]: TAB, LF, VT, FF, CR and SPACE. *)
Definition is_whitespace (c : ascii) : bool :=
  let n := nat_of_ascii c in
  ((9 <=? n)%nat && (n <=? 13)%nat) || (n =? 32)%nat.

(** The two bytes after the first one (0 where there is none). *)
Definition next_two (rest : string) : nat * nat :=
  match rest with
  | String c1 (String c2 _) => (nat_of_ascii c1, nat_of_ascii c2)
  | String c1 EmptyString => (nat_of_ascii c1, 0%nat)
  | EmptyString => (0%nat, 0%nat)
  end.

(** The number of bytes of the whitespace character at the head of [s], 0
    when the head is none.  The class [\s] is the ASCII whitespace and
    U+00A0, U+1680, U+2000 to U+200A, U+2028, U+2029, U+202F, U+205F,
    U+3000 and U+FEFF; in UTF-8 these are C2 A0, E1 9A 80, E2 80 80 to
    E2 80 8A, E2 80 A8, E2 80 A9, E2 80 AF, E2 81 9F, E3 80 80 and
    EF BB BF. *)
Definition whitespace_length (s : string) : nat :=
  match s with
  | EmptyString => 0
  | String c rest =>
      if is_whitespace c then 1
      else
        let b0 := nat_of_ascii c in
        let (b1, b2) := next_two rest in
        if (b0 =? 194) && (b1 =? 160) then 2
        else if (b0 =? 225) && (b1 =? 154) && (b2 =? 128) then 3
        else if (b0 =? 226) && (b1 =? 128)
                && (((128 <=? b2) && (b2 <=? 138))
                    || (b2 =? 168) || (b2 =? 169) || (b2 =? 175))
        then 3
        else if (b0 =? 226) && (b1 =? 129) && (b2 =? 159) then 3
        else if (b0 =? 227) && (b1 =? 128) && (b2 =? 128) then 3
        else if (b0 =? 239) && (b1 =? 187) && (b2 =? 191) then 3
        else 0
  end%nat.

(** [s.replace(/\s+/g, "_")]: every maximal run of whitespace becomes one
    underscore.  [in_run] says that the previous character was whitespace,
    [skip] counts the bytes still to pass of the whitespace character that
    is being read. *)
Fixpoint replace_ws_from (in_run : bool) (skip : nat) (s : string) : string :=
  match s with
  | EmptyString => EmptyString
  | String c s' =>
      match skip with
      | S k => replace_ws_from in_run k s'
      | O =>
          match whitespace_length s with
          | O => String c (replace_ws_from false 0 s')
          | S k =>
              if in_run then replace_ws_from true k s'
              else String "_"%char (replace_ws_from true k s')
          end
      end
  end.

Definition replace_ws_runs (s : string) : string := replace_ws_from false 0 s.

(** The two functions on ASCII text, where each character is one byte and
    the case mapping of the runtime is not needed. *)
Fixpoint ascii_toUpperCase (s : string) : string :=
  match s with
  | EmptyString => EmptyString
  | String c s' => String (upper_ascii c) (ascii_toUpperCase s')
  end.

Fixpoint ascii_replace_ws_from (in_run : bool) (s : string) : string :=
  match s with
  | EmptyString => EmptyString
  | String c s' =>
      if is_whitespace c
      then (if in_run then ascii_replace_ws_from true s'
            else String "_"%char (ascii_replace_ws_from true s'))
      else String c (ascii_replace_ws_from false s')
  end.

Definition ascii_replace_ws_runs (s : string) : string :=
  ascii_replace_ws_from false s.

(** Every character of [s] is an ASCII character. *)
Fixpoint is_ascii (s : string) : bool :=
  match s with
  | EmptyString => true
  | String c s' => is_ascii_char c && is_ascii s'
  end.

(** [s.startsWith(sub)]: the test [includes] makes at each position. *)
Fixpoint startsWith (s sub : string) {struct sub} : bool :=
  match sub with
  | EmptyString => true
  | String b sub' =>
      match s with
      | EmptyString => false
      | String a s' => Ascii.eqb a b && startsWith s' sub'
      end
  end.

(** [s.includes(sub)]. *)
Fixpoint includes (s sub : string) : bool :=
  if startsWith s sub then true
  else match s with
       | EmptyString => false
       | String _ s' => includes s' sub
       end.

(** *** Numbers

    A [number] that holds an integer is modelled by that integer.  Up to
    2^53 in magnitude every integer is a number; beyond, the numbers are
    the integers [m * 2^e] with [m] below 2^53. *)

(** The number nearest to an integer, ties to the even significand (below
    the overflow threshold of 2^1024). *)
Definition round_to_double (z : Z) : Z :=
  let a := Z.abs z in
  if (a <? 2 ^ 53)%Z then z
  else
    let ulp := (2 ^ (Z.log2 a - 52))%Z in
    let q := (a / ulp)%Z in
    let r := (a mod ulp)%Z in
    let q' :=
      if (2 * r <? ulp)%Z then q
      else if (ulp <? 2 * r)%Z then (q + 1)%Z
      else if Z.even q then q else (q + 1)%Z in
    (Z.sgn z * (q' * ulp))%Z.

(** [a + b] on numbers: the exact sum, rounded. *)
Definition number_add (a b : Z) : Z := round_to_double (a + b).

Definition decimal (n : Z) : string := NilZero.string_of_int (Z.to_int n).

Definition decimal_length (n : Z) : Z := Z.of_nat (String.length (decimal n)).

Fixpoint zeros (n : nat) : string :=
  match n with
  | O => EmptyString
  | S k => String "0"%char (zeros k)
  end.

(** The decimals of [k] digits next to the positive number [x] of [n0]
    digits, when one of them reads back as [x]: its digits [s], their number
    and the number of digits before the decimal point.  Of two that read
    back as [x] the nearer is taken, the even one when they are as near. *)
Definition digits_at (x n0 k : Z) : option (Z * Z * Z) :=
  if (n0 <? k)%Z then None
  else
    let p := (10 ^ (n0 - k))%Z in
    let lo := (x / p)%Z in
    let hi := (lo + 1)%Z in
    let pick (s : Z) :=
      if (s =? 10 ^ k)%Z then Some (1, 1, n0 + 1)%Z else Some (s, k, n0) in
    match (round_to_double (lo * p) =? x)%Z, (round_to_double (hi * p) =? x)%Z with
    | true, true =>
        if (x - lo * p <? hi * p - x)%Z then pick lo
        else if (hi * p - x <? x - lo * p)%Z then pick hi
        else if Z.even lo then pick lo else pick hi
    | true, false => pick lo
    | false, true => pick hi
    | false, false => None
    end.

(** The shortest decimal that reads back as the positive number [x]: at
    most 17 digits are needed. *)
Definition shortest_digits (x : Z) : Z * Z * Z :=
  let n0 := decimal_length x in
  let try_k (k : nat) (later : option (Z * Z * Z)) :=
    match digits_at x n0 (Z.of_nat k) with
    | Some d => Some d
    | None => later
    end in
  match fold_right try_k None (seq 1 17) with
  | Some d => d
  | None => (x, n0, n0)
  end.

(** [Number::toString] on an integer: its digits up to 2^53; beyond, the
    shortest decimal that reads back as the number, written in full up to
    21 digits and with an exponent from there on. *)
Definition Number_toString (z : Z) : string :=
  if (z =? 0)%Z then "0"
  else
    let a := Z.abs z in
    (if (z <? 0)%Z then "-" else "")
    ++ (if (a <? 2 ^ 53)%Z then decimal a
        else
          let '(s, k, n) := shortest_digits a in
          if (n <=? 21)%Z then decimal s ++ zeros (Z.to_nat (n - k))
          else
            match decimal s with
            | EmptyString => EmptyString
            | String d EmptyString => String d ("e+" ++ decimal (n - 1))
            | String d rest => String d ("." ++ rest ++ "e+" ++ decimal (n - 1))
            end).

(** [String(x)] for [x : string | number | undefined]. *)
Definition String_of (x : option (string + Z)) : string :=
  match x with
  | None => "undefined"
  | Some (inl s) => s
  | Some (inr n) => Number_toString n
  end.

(** What [includes] decides: [sub] occurs in [s]. *)
Definition occurs_in (sub s : string) : Prop :=
  exists pre post, s = pre ++ sub ++ post.

End JS.

(* ================================================================== *)
(** ** Trigger classification (webhook receiver) *)
(* ================================================================== *)

Module Trigger.
Import JS.

Inductive TriggerType :=
| BOOKING_CREATED
| BOOKING_RESCHEDULED
| BOOKING_CANCELLED
| unknown.

Definition TriggerType_eqb (a b : TriggerType) : bool :=
  match a, b with
  | BOOKING_CREATED, BOOKING_CREATED
  | BOOKING_RESCHEDULED, BOOKING_RESCHEDULED
  | BOOKING_CANCELLED, BOOKING_CANCELLED
  | unknown, unknown => true
  | _, _ => false
  end.

Section Classifier.

(** The case mapping of the runtime outside ASCII, see [JS.toUpperCase]. *)
Variable upper_non_ascii : string -> string.

(** The string the classifier inspects:
    [trigger.toUpperCase().replace(/\s+/g, "_")]. *)
Definition normal_form (trigger : string) : string :=
  replace_ws_runs (toUpperCase upper_non_ascii trigger).

Definition normalizeTrigger (trigger : option string) : TriggerType :=
  if negb (truthy trigger) then unknown
  else
    match trigger with
    | None => unknown
    | Some tr =>
        let t := normal_form tr in
        if includes t "CREATED" || String.eqb t "BOOKING_CREATED"
        then BOOKING_CREATED
        else if includes t "RESCHEDULED" || String.eqb t "BOOKING_RESCHEDULED"
        then BOOKING_RESCHEDULED
        else if includes t "CANCEL" || String.eqb t "BOOKING_CANCELLED"
        then BOOKING_CANCELLED
        else unknown
    end.

End Classifier.

End Trigger.

(* ================================================================== *)
(** ** Time values and the UTC getters of [Date] *)
(* ================================================================== *)

(** A [Date] wraps a time value: milliseconds since 1970-01-01T00:00:00Z,
    or NaN (an invalid date).  The getters follow the abstract operations of
    the language standard (Day, TimeWithinDay, DayFromYear, YearFromTime,
    MonthFromTime, DateFromTime, HourFromTime, MinFromTime); a getter of an
    invalid date answers NaN.  A [JSnum] is the number a getter returns. *)
Module DateTime.

Local Open Scope Z_scope.

Inductive Date :=
| ValidDate (t : Z)
| InvalidDate.

Inductive JSnum :=
| Num (z : Z)
| NaN.

Definition msPerDay : Z := 86400000.
Definition msPerHour : Z := 3600000.
Definition msPerMinute : Z := 60000.
Definition msPerSecond : Z := 1000.

Definition Day (t : Z) : Z := t / msPerDay.
Definition TimeWithinDay (t : Z) : Z := t mod msPerDay.

Definition is_leap (y : Z) : bool :=
  (y mod 4 =? 0) && (negb (y mod 100 =? 0) || (y mod 400 =? 0)).

Definition DaysInYear (y : Z) : Z := if is_leap y then 366 else 365.

Definition DayFromYear (y : Z) : Z :=
  365 * (y - 1970) + (y - 1969) / 4 - (y - 1901) / 100 + (y - 1601) / 400.

(** The year of a day number: the largest [y] with [DayFromYear y <= d].
    It is computed from the mean year length (365.2425 days) and corrected
    by at most one year. *)
Definition YearFromDay (d : Z) : Z :=
  let y := d * 10000 / 3652425 + 1970 in
  if d <? DayFromYear y then y - 1
  else if DayFromYear y + DaysInYear y <=? d then y + 1
  else y.

Definition YearFromTime (t : Z) : Z := YearFromDay (Day t).

Definition InLeapYear (t : Z) : Z :=
  if is_leap (YearFromTime t) then 1 else 0.

Definition DayWithinYear (t : Z) : Z := Day t - DayFromYear (YearFromTime t).

(** Month number, 0 for January. *)
Definition MonthFromTime (t : Z) : Z :=
  let d := DayWithinYear t in
  let l := InLeapYear t in
  if d <? 31 then 0
  else if d <? 59 + l then 1
  else if d <? 90 + l then 2
  else if d <? 120 + l then 3
  else if d <? 151 + l then 4
  else if d <? 181 + l then 5
  else if d <? 212 + l then 6
  else if d <? 243 + l then 7
  else if d <? 273 + l then 8
  else if d <? 304 + l then 9
  else if d <? 334 + l then 10
  else 11.

(** Day of the month, from 1. *)
Definition DateFromTime (t : Z) : Z :=
  let d := DayWithinYear t in
  let l := InLeapYear t in
  match MonthFromTime t with
  | 0 => d + 1
  | 1 => d - 30
  | 2 => d - 58 - l
  | 3 => d - 89 - l
  | 4 => d - 119 - l
  | 5 => d - 150 - l
  | 6 => d - 180 - l
  | 7 => d - 211 - l
  | 8 => d - 242 - l
  | 9 => d - 272 - l
  | 10 => d - 303 - l
  | _ => d - 333 - l
  end.

Definition HourFromTime (t : Z) : Z := (t / msPerHour) mod 24.
Definition MinFromTime (t : Z) : Z := (t / msPerMinute) mod 60.

Definition getter (f : Z -> Z) (date : Date) : JSnum :=
  match date with
  | ValidDate t => Num (f t)
  | InvalidDate => NaN
  end.

Definition getUTCFullYear : Date -> JSnum := getter YearFromTime.
Definition getUTCMonth : Date -> JSnum := getter MonthFromTime.
Definition getUTCDate : Date -> JSnum := getter DateFromTime.
Definition getUTCHours : Date -> JSnum := getter HourFromTime.
Definition getUTCMinutes : Date -> JSnum := getter MinFromTime.

(** [x + 1] on a number. *)
Definition succ_num (x : JSnum) : JSnum :=
  match x with
  | Num z => Num (z + 1)
  | NaN => NaN
  end.

(** The other direction, used to name instants by their civil fields.
    [days_before_month y m] is the number of days of year [y] before the
    first of month [m] (0 for January). *)
Definition days_before_month (y m : Z) : Z :=
  let l := if is_leap y then 1 else 0 in
  match m with
  | 0 => 0
  | 1 => 31
  | 2 => 59 + l
  | 3 => 90 + l
  | 4 => 120 + l
  | 5 => 151 + l
  | 6 => 181 + l
  | 7 => 212 + l
  | 8 => 243 + l
  | 9 => 273 + l
  | 10 => 304 + l
  | _ => 334 + l
  end.

Definition days_in_month (y m : Z) : Z :=
  match m with
  | 1 => if is_leap y then 29 else 28
  | 3 | 5 | 8 | 10 => 30
  | _ => 31
  end.

(** MakeDay, MakeTime and MakeDate of the language standard, for a month
    number in 0..11. *)
Definition MakeDay (year month date : Z) : Z :=
  DayFromYear year + days_before_month year month + date - 1.

Definition MakeTime (hour min sec ms : Z) : Z :=
  hour * msPerHour + min * msPerMinute + sec * msPerSecond + ms.

Definition MakeDate (day time : Z) : Z := day * msPerDay + time.

(** A civil date and time of day, with a 1-indexed month, read at an offset
    of [offset_min] minutes east of UTC (as in an ISO-8601 string that ends
    in [+hh:mm] or [-hh:mm]; [Z] is offset 0). *)
Record Civil := mkCivil {
  c_year : Z;
  c_month : Z;
  c_day : Z;
  c_hour : Z;
  c_minute : Z;
  c_second : Z;
  c_ms : Z
}.

Definition valid_civil (c : Civil) : Prop :=
  1 <= c_month c <= 12 /\
  1 <= c_day c <= days_in_month (c_year c) (c_month c - 1) /\
  0 <= c_hour c < 24 /\
  0 <= c_minute c < 60 /\
  0 <= c_second c < 60 /\
  0 <= c_ms c < 1000.

Definition instant_of (c : Civil) (offset_min : Z) : Z :=
  MakeDate (MakeDay (c_year c) (c_month c - 1) (c_day c))
           (MakeTime (c_hour c) (c_minute c) (c_second c) (c_ms c))
  - offset_min * msPerMinute.

End DateTime.

(* ================================================================== *)
(** ** Data of the invite builder and of the email wrapper *)
(* ================================================================== *)

Module Ics.
Import JS DateTime.

(** [EventStatus] of the [ics] package. *)
Inductive EventStatus := TENTATIVE | CONFIRMED | CANCELLED.

Inductive Method := REQUEST | CANCEL.

Inductive Partstat := ACCEPTED | DECLINED.

Inductive BusyStatus := FREE | BUSY.

Definition Method_to_string (m : Method) : string :=
  match m with
  | REQUEST => "REQUEST"
  | CANCEL => "CANCEL"
  end.

(** [{ name?: string; email: string }]. *)
Record Person := mkPerson {
  name : option string;
  email : string
}.

(** [DateArray]: year, month, day, hour, minute. *)
Definition DateArray : Type := JSnum * JSnum * JSnum * JSnum * JSnum.

Record WebhookIcsParams := mkParams {
  uid : string;
  title : string;
  description : option string;
  start : Date;
  end_ : Date;
  organizer : Person;
  attendee : Person;
  location : option string;
  sequence : option Z;
  status : EventStatus;
  method : Method
}.

(** The attendee object handed to [createEvent]. *)
Record IcsAttendee := mkIcsAttendee {
  att_name : string;
  att_email : string;
  att_partstat : Partstat;
  att_role : string;
  att_rsvp : bool
}.

(** The argument of [createEvent]. *)
Record EventAttributes := mkAttributes {
  ev_uid : string;
  ev_sequence : Z;
  ev_start : DateArray;
  ev_end : DateArray;
  ev_startInputType : string;
  ev_productId : string;
  ev_title : string;
  ev_description : option string;
  ev_organizer_name : string;
  ev_organizer_email : string;
  ev_attendees : list IcsAttendee;
  ev_location : option string;
  ev_method : Method;
  ev_status : EventStatus;
  ev_busyStatus : BusyStatus
}.

(** The [{ error, value }] pair [createEvent] returns. *)
Record CreateEventResult := mkResult {
  error : option Error;
  value : option string
}.

Definition toDateArray (date : Date) : DateArray :=
  (getUTCFullYear date,
   succ_num (getUTCMonth date),
   getUTCDate date,
   getUTCHours date,
   getUTCMinutes date).

Definition EventStatus_eqb (a b : EventStatus) : bool :=
  match a, b with
  | TENTATIVE, TENTATIVE | CONFIRMED, CONFIRMED | CANCELLED, CANCELLED => true
  | _, _ => false
  end.

Definition partstat_of (s : EventStatus) : Partstat :=
  if EventStatus_eqb s CANCELLED then DECLINED else ACCEPTED.

Definition busyStatus_of (s : EventStatus) : BusyStatus :=
  if EventStatus_eqb s CANCELLED then FREE else BUSY.

(** The date array that spells the civil time [c]. *)
Definition fields_of (c : Civil) : DateArray :=
  (Num (c_year c), Num (c_month c), Num (c_day c),
   Num (c_hour c), Num (c_minute c)).

(** The object literal [buildIcsString] passes to [createEvent]. *)
Definition event_attributes (params : WebhookIcsParams) : EventAttributes :=
  let partstat := partstat_of (status params) in
  let busyStatus := busyStatus_of (status params) in
  {| ev_uid := uid params;
     ev_sequence := match sequence params with Some n => n | None => 0%Z end;
     ev_start := toDateArray (start params);
     ev_end := toDateArray (end_ params);
     ev_startInputType := "utc";
     ev_productId := "calcom/webhook-ics";
     ev_title := title params;
     ev_description := description params;
     ev_organizer_name := or_default (name (organizer params)) "Organizer";
     ev_organizer_email := email (organizer params);
     ev_attendees :=
       [ {| att_name := or_default (name (attendee params)) "Attendee";
            att_email := email (attendee params);
            att_partstat := partstat;
            att_role := "REQ-PARTICIPANT";
            att_rsvp := true |} ];
     ev_location := location params;
     ev_method := method params;
     ev_status := status params;
     ev_busyStatus := busyStatus |}.

End Ics.

Module PostmarkData.
Import JS Ics.

Record PostmarkAttachment := mkAttachment {
  Name : string;
  Content : string;
  ContentType : string
}.

Record SendEmailParams := mkSend {
  from : string;
  to : string;
  subject : string;
  htmlBody : string;
  textBody : option string;
  icsContent : option string;
  icsMethod : option Method
}.

Record PostmarkResponse := mkPostmarkResponse {
  MessageID : option string;
  ErrorCode : option Z;
  Message : option string
}.

(** The [message] object; [TextBody] and [Attachments] are keys that are
    set only under a condition. *)
Record PostmarkMessage := mkMessage {
  From : string;
  To : string;
  Subject : string;
  HtmlBody : string;
  MessageStream : string;
  TextBody : option string;
  Attachments : option (list PostmarkAttachment)
}.

(** What the wrapper reads of the [fetch] response: [ok], [status], and the
    parsed body ([None] when [response.json()] rejects). *)
Record FetchResponse := mkFetchResponse {
  ok : bool;
  http_status : Z;
  json : option PostmarkResponse
}.

(** Base64 with padding, as [buffer.toString("base64")]. *)
Definition base64_alphabet : string :=
  "ABCDEFGHIJKLMNOPQRSTUVWXYZabcdefghijklmnopqrstuvwxyz0123456789+/".

Definition base64_digit (n : nat) : ascii :=
  match String.get n base64_alphabet with
  | Some c => c
  | None => "="%char
  end.

Fixpoint base64_encode (bytes : string) : string :=
  match bytes with
  | EmptyString => EmptyString
  | String a EmptyString =>
      let x := nat_of_ascii a in
      String (base64_digit (x / 4))
        (String (base64_digit (x mod 4 * 16)) "==")
  | String a (String b EmptyString) =>
      let x := nat_of_ascii a in
      let y := nat_of_ascii b in
      String (base64_digit (x / 4))
        (String (base64_digit (x mod 4 * 16 + y / 16))
           (String (base64_digit (y mod 16 * 4)) "="))
  | String a (String b (String c rest)) =>
      let x := nat_of_ascii a in
      let y := nat_of_ascii b in
      let z := nat_of_ascii c in
      String (base64_digit (x / 4))
        (String (base64_digit (x mod 4 * 16 + y / 16))
           (String (base64_digit (y mod 16 * 4 + z / 64))
              (String (base64_digit (z mod 64)) (base64_encode rest))))
  end.

(** The MIME type of the attachment:
    text/calendar; method=METHOD; charset=(quote)utf-8(quote). *)
Definition calendar_content_type (m : string) : string :=
  "text/calendar; method=" ++ m ++ "; charset=" ++ dquote ++ "utf-8" ++ dquote.

End PostmarkData.

(* ================================================================== *)
(** ** Effects: exceptions and a trace of the calls that leave the code *)
(* ================================================================== *)

Module Eff.
Import JS Ics PostmarkData.

Inductive Event :=
| ConsoleError (msg : string)
| ConsoleLog (msg : string)
| HmacComputed (secret body : string)
| JsonParseCalled (text : string)
| CreateEventCalled (attrs : EventAttributes)
| RandomUUIDCalled
| FetchCalled (url token : string) (message : PostmarkMessage).

Inductive outcome (A : Type) :=
| Return (a : A)
| Throw (e : Error).

Arguments Return {A} a.
Arguments Throw {A} e.

(** A computation: the events it performed, in order, and how it ended. *)
Definition M (A : Type) : Type := list Event * outcome A.

Definition ret {A} (a : A) : M A := ([], Return a).

Definition throw {A} (e : Error) : M A := ([], Throw e).

Definition emit (ev : Event) : M unit := ([ev], Return tt).

Definition bind {A B} (m : M A) (f : A -> M B) : M B :=
  match m with
  | (tr, Return a) => let (tr', r) := f a in ((tr ++ tr')%list, r)
  | (tr, Throw e) => (tr, Throw e)
  end.

(** [try { m } catch (e) { h e }]. *)
Definition try_catch {A} (m : M A) (h : Error -> M A) : M A :=
  match m with
  | (tr, Throw e) => let (tr', r) := h e in ((tr ++ tr')%list, r)
  | (tr, Return a) => (tr, Return a)
  end.

Definition trace {A} (m : M A) : list Event := fst m.
Definition result {A} (m : M A) : outcome A := snd m.

Declare Scope eff_scope.
Delimit Scope eff_scope with eff.

Notation "x <- c1 ;; c2" := (bind c1 (fun x => c2))
  (at level 61, c1 at next level, right associativity) : eff_scope.
Notation "c1 ;;; c2" := (bind c1 (fun _ => c2))
  (at level 61, right associativity) : eff_scope.

(** Predicates on events, to say what a run did not do. *)
Definition is_create_event (ev : Event) : bool :=
  match ev with CreateEventCalled _ => true | _ => false end.

Definition is_fetch (ev : Event) : bool :=
  match ev with FetchCalled _ _ _ => true | _ => false end.

Definition is_json_parse (ev : Event) : bool :=
  match ev with JsonParseCalled _ => true | _ => false end.

Definition is_random_uuid (ev : Event) : bool :=
  match ev with RandomUUIDCalled => true | _ => false end.

(** The invites a run built: the arguments of its [createEvent] calls. *)
Definition invites (tr : list Event) : list EventAttributes :=
  flat_map (fun ev => match ev with CreateEventCalled a => [a] | _ => [] end) tr.

(** The messages a run submitted to the email provider. *)
Definition emails (tr : list Event) : list PostmarkMessage :=
  flat_map (fun ev => match ev with FetchCalled _ _ m => [m] | _ => [] end) tr.

(** No event of the trace satisfies [p]. *)
Definition never (p : Event -> bool) (tr : list Event) : Prop :=
  existsb p tr = false.

End Eff.

(* ================================================================== *)
(** ** [buildIcsString] *)
(* ================================================================== *)

Module IcsBuilder.
Import JS Ics Eff.
Local Open Scope eff_scope.

Section Builder.

(** [createEvent] of the [ics] package. *)
Variable createEvent : EventAttributes -> CreateEventResult.

Definition buildIcsString (params : WebhookIcsParams) : M string :=
  let attrs := event_attributes params in
  emit (CreateEventCalled attrs) ;;;
  let r := createEvent attrs in
  match error r with
  | Some e => throw e
  | None => ret (or_default (value r) "")
  end.

End Builder.

End IcsBuilder.

(* ================================================================== *)
(** ** [sendPostmarkEmail] *)
(* ================================================================== *)

Module Postmark.
Import JS Ics PostmarkData Eff.
Local Open Scope eff_scope.

(** [process.env], the three keys the sources read. *)
Record Env := mkEnv {
  CAL_WEBHOOK_SECRET : option string;
  POSTMARK_SERVER_API_TOKEN : option string;
  POSTMARK_FROM_EMAIL : option string
}.

Definition postmark_url : string := "https://api.postmarkapp.com/email".

(** [attachments] after the conditional [push]. *)
Definition attachments_of (params : SendEmailParams) : list PostmarkAttachment :=
  match present (icsContent params) with
  | Some doc =>
      let method :=
        match icsMethod params with
        | Some m => Method_to_string m
        | None => "REQUEST"
        end in
      [ {| Name := "invite.ics";
           Content := base64_encode doc;
           ContentType := calendar_content_type method |} ]
  | None => []
  end.

(** The [message] object after the two conditional assignments. *)
Definition message_of (params : SendEmailParams) : PostmarkMessage :=
  let attachments := attachments_of params in
  {| From := from params;
     To := to params;
     Subject := subject params;
     HtmlBody := htmlBody params;
     MessageStream := "outbound";
     TextBody := present (textBody params);
     Attachments :=
       if (0 <? List.length attachments)%nat then Some attachments else None |}.

Section Wrapper.

(** [fetch(url, { method: "POST", headers, body })]: it resolves to a
    response or rejects. *)
Variable fetch : string -> string -> PostmarkMessage -> outcome FetchResponse.

(** [JSON.stringify] of the parsed response body. *)
Variable JSON_stringify : PostmarkResponse -> string.

Definition empty_response : PostmarkResponse :=
  {| MessageID := None; ErrorCode := None; Message := None |}.

Definition send_failed_message (st : Z) (data : PostmarkResponse) : string :=
  "Postmark send failed: " ++ NilZero.string_of_int (Z.to_int st) ++ " - "
  ++ or_default (Message data) (JSON_stringify data).

Definition sendPostmarkEmail (env : Env) (params : SendEmailParams)
  : M PostmarkResponse :=
  match present (POSTMARK_SERVER_API_TOKEN env) with
  | None => throw (mkError "Missing POSTMARK_SERVER_API_TOKEN environment variable")
  | Some token =>
      let message := message_of params in
      emit (FetchCalled postmark_url token message) ;;;
      match fetch postmark_url token message with
      | Throw e => throw e
      | Return response =>
          let data :=
            match json response with
            | Some d => d
            | None => empty_response
            end in
          if negb (ok response)
          then throw (mkError (send_failed_message (http_status response) data))
          else ret data
      end
  end.

End Wrapper.

End Postmark.

(* ================================================================== *)
(** ** The symmetric-encryption helper *)
(* ================================================================== *)

(** Here a string is its sequence of UTF-16 code units, because the helper
    passes text through the UTF-8 encoder and decoder of the runtime, and
    what they do to an unpaired surrogate decides the round trip.  A
    [Buffer] is a list of bytes.  The console output of the two functions is
    left out.  (The module comes before the webhook receiver, which reads
    the request body through the same decoder.) *)
Module Crypto.
Import JS Eff.
Local Open Scope Z_scope.
Local Open Scope list_scope.

Definition ustring : Type := list Z.
Definition Buffer : Type := list Byte.byte.

Definition is_code_unit (u : Z) : Prop := 0 <= u < 65536.

Definition Z_of_byte (b : Byte.byte) : Z := Z.of_N (Byte.to_N b).

Definition byte_of_Z (z : Z) : Byte.byte :=
  match Byte.of_N (Z.to_N z) with
  | Some b => b
  | None => Byte.x00
  end.

(** *** UTF-16 and UTF-8 *)

Definition is_high_surrogate (u : Z) : bool := (0xD800 <=? u) && (u <=? 0xDBFF).
Definition is_low_surrogate (u : Z) : bool := (0xDC00 <=? u) && (u <=? 0xDFFF).

(** [String.prototype.isWellFormed]: no unpaired surrogate. *)
Fixpoint isWellFormed (s : ustring) : bool :=
  match s with
  | [] => true
  | u :: rest =>
      if is_high_surrogate u then
        match rest with
        | l :: rest' => is_low_surrogate l && isWellFormed rest'
        | [] => false
        end
      else if is_low_surrogate u then false
      else isWellFormed rest
  end.

(** The code points of a string; an unpaired surrogate reads as U+FFFD. *)
Fixpoint code_points (s : ustring) : list Z :=
  match s with
  | [] => []
  | u :: rest =>
      if is_high_surrogate u then
        match rest with
        | l :: rest' =>
            if is_low_surrogate l
            then (0x10000 + (u - 0xD800) * 0x400 + (l - 0xDC00)) :: code_points rest'
            else 0xFFFD :: code_points rest
        | [] => [0xFFFD]
        end
      else if is_low_surrogate u then 0xFFFD :: code_points rest
      else u :: code_points rest
  end.

(** A Unicode scalar value: a code point that is not a surrogate. *)
Definition scalar (cp : Z) : Prop :=
  0 <= cp < 0xD800 \/ 0xE000 <= cp <= 0x10FFFF.

(** The UTF-8 bytes of one code point. *)
Definition encode_code_point (cp : Z) : list Z :=
  if cp <? 0x80 then [cp]
  else if cp <? 0x800 then [0xC0 + cp / 64; 0x80 + cp mod 64]
  else if cp <? 0x10000
  then [0xE0 + cp / 4096; 0x80 + (cp / 64) mod 64; 0x80 + cp mod 64]
  else [0xF0 + cp / 262144; 0x80 + (cp / 4096) mod 64;
        0x80 + (cp / 64) mod 64; 0x80 + cp mod 64].

(** A string to bytes under the encoding [utf8]. *)
Definition utf8_encode (s : ustring) : Buffer :=
  map byte_of_Z (flat_map encode_code_point (code_points s)).

(** The UTF-8 decoder, a state machine over bytes: either between code
    points, or inside one, with the bits read so far, the number of
    continuation bytes still needed, and the range allowed for the next
    byte.  An error emits U+FFFD; a byte that cannot continue a sequence is
    read again as a first byte. *)
Inductive decoder_state :=
| Idle
| Pending (cp : Z) (needed : nat) (lower upper : Z).

Definition first_byte (b : Z) : decoder_state * list Z :=
  if b <=? 0x7F then (Idle, [b])
  else if (0xC2 <=? b) && (b <=? 0xDF) then (Pending (b mod 32) 1 0x80 0xBF, [])
  else if (0xE0 <=? b) && (b <=? 0xEF)
  then (Pending (b mod 16) 2
          (if b =? 0xE0 then 0xA0 else 0x80)
          (if b =? 0xED then 0x9F else 0xBF), [])
  else if (0xF0 <=? b) && (b <=? 0xF4)
  then (Pending (b mod 8) 3
          (if b =? 0xF0 then 0x90 else 0x80)
          (if b =? 0xF4 then 0x8F else 0xBF), [])
  else (Idle, [0xFFFD]).

Definition decode_step (st : decoder_state) (b : Z) : decoder_state * list Z :=
  match st with
  | Idle => first_byte b
  | Pending cp needed lower upper =>
      if (lower <=? b) && (b <=? upper)
      then
        let cp' := cp * 64 + b mod 64 in
        match needed with
        | S (S n) => (Pending cp' (S n) 0x80 0xBF, [])
        | _ => (Idle, [cp'])
        end
      else
        let (st', out) := first_byte b in (st', 0xFFFD :: out)
  end.

Fixpoint decode_from (st : decoder_state) (bytes : list Z) : list Z :=
  match bytes with
  | [] =>
      match st with
      | Idle => []
      | Pending _ _ _ _ => [0xFFFD]
      end
  | b :: rest =>
      let (st', out) := decode_step st b in
      out ++ decode_from st' rest
  end.

(** The code units of one code point. *)
Definition code_units_of (cp : Z) : list Z :=
  if cp <? 0x10000 then [cp]
  else [0xD800 + (cp - 0x10000) / 0x400; 0xDC00 + (cp - 0x10000) mod 0x400].

(** Bytes to a string under the encoding [utf8]. *)
Definition utf8_decode (buf : Buffer) : ustring :=
  flat_map code_units_of (decode_from Idle (map Z_of_byte buf)).

(** *** Hexadecimal *)

Definition hex_digit (n : Z) : Z := if n <? 10 then 48 + n else 87 + n.

(** [buf.toString("hex")]. *)
Definition hex_encode (buf : Buffer) : ustring :=
  flat_map (fun b => [hex_digit (Z_of_byte b / 16); hex_digit (Z_of_byte b mod 16)]) buf.

Definition hex_value (c : Z) : option Z :=
  if (48 <=? c) && (c <=? 57) then Some (c - 48)
  else if (97 <=? c) && (c <=? 102) then Some (c - 87)
  else if (65 <=? c) && (c <=? 70) then Some (c - 55)
  else None.

(** [Buffer.from(s, "hex")]: pairs of digits, up to the first pair that is
    not one. *)
Fixpoint hex_decode (s : ustring) : Buffer :=
  match s with
  | c1 :: c2 :: rest =>
      match hex_value c1, hex_value c2 with
      | Some h, Some l => byte_of_Z (16 * h + l) :: hex_decode rest
      | _, _ => []
      end
  | _ => []
  end.

(** *** [split] and [join] on the colon *)

Definition colon : Z := 58.

(** [s.split(":")]. *)
Fixpoint split_colon (s : ustring) : list ustring :=
  match s with
  | [] => [[]]
  | c :: rest =>
      if c =? colon then [] :: split_colon rest
      else
        match split_colon rest with
        | h :: t => (c :: h) :: t
        | [] => [[c]]
        end
  end.

(** [parts.join(":")]. *)
Fixpoint join_colon (parts : list ustring) : ustring :=
  match parts with
  | [] => []
  | [p] => p
  | p :: ps => p ++ colon :: join_colon ps
  end.

(** *** The two functions *)

Definition IV_LENGTH : nat := 16.

Definition invalid_key_length (n : nat) : Error :=
  mkError ("Invalid key length: expected 32 bytes, got "
           ++ NilZero.string_of_uint (Nat.to_uint n))%string.

(** What [decipher.update(data, "hex", "utf8")] throws on a [data] of odd
    length [n], before it deciphers anything. *)
Definition invalid_hex_length (n : nat) : Error :=
  mkError ("The argument 'encoding' is invalid for data of length "
           ++ NilZero.string_of_uint (Nat.to_uint n) ++ ". Received 'hex'")%string.

Section Helper.

(** [Buffer.from(key, "base64")]. *)
Variable base64_decode : ustring -> Buffer.

(** [crypto.randomBytes(n)]. *)
Variable randomBytes : nat -> Buffer.

(** [createCipheriv("aes256", key, iv)] followed by [update] and [final]:
    the ciphertext, or the error one of the three calls throws. *)
Variable aes256_encrypt : Buffer -> Buffer -> Buffer -> outcome Buffer.

(** [createDecipheriv("aes256", key, iv)] followed by [update] and [final]:
    the plaintext, or the error one of the three calls throws. *)
Variable aes256_decrypt : Buffer -> Buffer -> Buffer -> outcome Buffer.

Definition symmetricEncrypt (text key : ustring) : outcome ustring :=
  let _key := base64_decode key in
  if negb (List.length _key =? 32)%nat
  then Throw (invalid_key_length (List.length _key))
  else
    let iv := randomBytes IV_LENGTH in
    match aes256_encrypt _key iv (utf8_encode text) with
    | Throw e => Throw e
    | Return ciphered =>
        Return (hex_encode iv ++ colon :: hex_encode ciphered)
    end.

(** The initialization vector is read with [Buffer.from], which stops at
    the first pair that is not hexadecimal; the rest of the text goes to
    [decipher.update], which refuses a hex text of odd length.  (With a
    vector that is not of 16 bytes [createDecipheriv] has thrown before.) *)
Definition symmetricDecrypt (text key : ustring) : outcome ustring :=
  let _key := base64_decode key in
  if negb (List.length _key =? 32)%nat
  then Throw (invalid_key_length (List.length _key))
  else
    let components := split_colon text in
    let iv_from_ciphertext := hex_decode (hd [] components) in
    let ciphered := join_colon (tl components) in
    if (List.length iv_from_ciphertext =? IV_LENGTH)%nat
       && Nat.odd (List.length ciphered)
    then Throw (invalid_hex_length (List.length ciphered))
    else
      match aes256_decrypt _key iv_from_ciphertext (hex_decode ciphered) with
      | Throw e => Throw e
      | Return deciphered => Return (utf8_decode deciphered)
      end.

(** What the two runtime calls are relied on for: [randomBytes n] yields
    [n] bytes, and under a 32-byte key and a 16-byte initialization vector
    the cipher succeeds and the decipher recovers the plaintext from its
    result. *)
Definition random_source : Prop :=
  forall n, List.length (randomBytes n) = n.

Definition cipher_inverts : Prop :=
  forall key iv plaintext,
    List.length key = 32%nat -> List.length iv = 16%nat ->
    exists ciphertext,
      aes256_encrypt key iv plaintext = Return ciphertext /\
      aes256_decrypt key iv ciphertext = Return plaintext.

End Helper.

End Crypto.

(* ================================================================== *)
(** ** The webhook receiver *)
(* ================================================================== *)

Module Payload.
Import Ics.

(** [BookingPayload]: every key is optional. *)
Record BookingPayload := mkBooking {
  title : option string;
  startTime : option string;
  endTime : option string;
  attendees : option (list Person);
  attendeesList : option (list Person);
  organizer : option Person;
  hostEmail : option string;
  hostName : option string;
  organizerName : option string;
  location : option string;
  meetingUrl : option string;
  videoCallUrl : option string;
  conferenceUrl : option string;
  bookingUid : option string;
  uid : option string;
  bookingId : option (string + Z);
  description : option string;
  bookingUrl : option string;
  rescheduleUrl : option string;
  cancelUrl : option string;
  iCalSequence : option Z;
  iCalUID : option string
}.

(** [WebhookPayload]: the three trigger keys, a nested [payload], and the
    booking keys of the event object itself ([own]). *)
Record WebhookPayload := mkWebhook {
  triggerEvent : option string;
  event : option string;
  type : option string;
  payload : option BookingPayload;
  own : BookingPayload
}.

End Payload.

Module Webhook.
Import JS DateTime Trigger Eff Postmark.
Local Open Scope eff_scope.

(** What the receiver reads of the request: the method, the
    [x-cal-signature-256] header, and the chunks of the body stream. *)
Record Request := mkRequest {
  method : string;
  x_cal_signature_256 : option string;
  chunks : list string
}.

Inductive ResponseBody :=
| ErrorJson (error : string)
| IgnoredJson (ignored : option string)
| SkippedJson (skipped : string)
| HandledJson (trigger : TriggerType).

(** [res.status(code).json(body)]. *)
Record Response := mkResponse {
  status : Z;
  body : ResponseBody
}.

Definition respond (code : Z) (b : ResponseBody) : M Response :=
  ret {| status := code; body := b |}.

(** [crypto.timingSafeEqual] on two buffers of one length: are the bytes
    equal.  (How long the comparison takes is not modelled.) *)
Definition crypto_timingSafeEqual (a b : string) : bool := String.eqb a b.

Definition timingSafeEqual (a b : string) : bool :=
  if negb (String.length a =? String.length b)%nat then false
  else crypto_timingSafeEqual a b.

(** [buffer.toString("utf8")]: the text the bytes spell in UTF-8, held as
    its own UTF-8 bytes.  Well-formed bytes come back as they are; every
    ill-formed sequence comes back as the three bytes of U+FFFD. *)
Definition utf8_text (bytes : string) : string :=
  string_of_list_byte
    (Crypto.utf8_encode (Crypto.utf8_decode (list_byte_of_string bytes))).

(** The chunks of the stream, concatenated and decoded as UTF-8. *)
Definition readRawBody (req : Request) : string :=
  utf8_text (String.concat "" (chunks req)).

(** What [JSON.parse] returns when it does not throw: [null]; a value whose
    trigger, the first truthy one of its keys [triggerEvent], [event] and
    [type], is not a string; or a value read at the declared type
    [WebhookPayload] (a number, a string or an array has none of its
    keys). *)
Inductive Parsed :=
| ParsedNull
| ParsedNonStringTrigger
| ParsedEvent (ev : Payload.WebhookPayload).

(** The two errors the receiver raises on a body that is not of the
    declared type, with the messages of the runtime. *)
Definition TypeError (message : string) : Error := mkError message.

Definition null_event_error : Error :=
  TypeError "Cannot read properties of null (reading 'triggerEvent')".

Definition trigger_not_a_string_error : Error :=
  TypeError "trigger.toUpperCase is not a function".

Definition buildLocationHtml (location : option string) : string :=
  match present location with
  | None => ""
  | Some l =>
      "<p style=" ++ dquote ++ "margin: 8px 0; color: #4b5563;" ++ dquote
      ++ "><strong>Where:</strong> <a href=" ++ dquote ++ l ++ dquote
      ++ " style=" ++ dquote ++ "color: #2563eb;" ++ dquote ++ ">"
      ++ l ++ "</a></p>"
  end.

Definition buildCancelLinkHtml (cancelUrl : option string) : string :=
  match present cancelUrl with
  | None => ""
  | Some u =>
      "<p style=" ++ dquote ++ "margin-top: 24px;" ++ dquote
      ++ "><a href=" ++ dquote ++ u ++ dquote
      ++ " style=" ++ dquote ++ "color: #dc2626; font-size: 14px;" ++ dquote
      ++ ">Need to cancel?</a></p>"
  end.

Definition buildRescheduleLinkHtml (rescheduleUrl : option string) : string :=
  match present rescheduleUrl with
  | None => ""
  | Some u =>
      "<p style=" ++ dquote ++ "margin-top: 24px;" ++ dquote
      ++ "><a href=" ++ dquote ++ u ++ dquote
      ++ " style=" ++ dquote ++ "color: #2563eb;" ++ dquote
      ++ ">Book a new time</a></p>"
  end.

(** The three HTML bodies; the static markup of each template literal is
    the [Variable] [render] below, applied to the values of its holes in
    the order of the source. *)
Inductive Template := ConfirmedHtml | RescheduledHtml | CancelledHtml.

(** [payload.iCalSequence || 0]. *)
Definition sequence_or_zero (x : option Z) : Z :=
  match x with
  | Some n => if (n =? 0)%Z then 0%Z else n
  | None => 0%Z
  end.

(** [payload.attendees || payload.attendeesList || []]: an array, even an
    empty one, is truthy. *)
Definition attendees_of (p : Payload.BookingPayload) : list Ics.Person :=
  match Payload.attendees p with
  | Some l => l
  | None =>
      match Payload.attendeesList p with
      | Some l => l
      | None => []
      end
  end.

(** [attendees[0]], kept when [attendee?.email] is truthy. *)
Definition first_attendee (p : Payload.BookingPayload) : option Ics.Person :=
  match attendees_of p with
  | a :: _ => if str_truthy (Ics.email a) then Some a else None
  | [] => None
  end.

(** [payload.hostEmail || payload.organizer?.email]. *)
Definition hostEmail_of (p : Payload.BookingPayload) : option string :=
  or_else (Payload.hostEmail p) (option_map Ics.email (Payload.organizer p)).

(** [payload.organizerName || payload.hostName || payload.organizer?.name]. *)
Definition hostName_of (p : Payload.BookingPayload) : option string :=
  or_else (or_else (Payload.organizerName p) (Payload.hostName p))
          (match Payload.organizer p with
           | Some o => Ics.name o
           | None => None
           end).

(** The location chain, ending in the empty string. *)
Definition location_of (p : Payload.BookingPayload) : string :=
  or_default
    (or_else (or_else (or_else (Payload.location p) (Payload.meetingUrl p))
                      (Payload.videoCallUrl p))
             (Payload.conferenceUrl p))
    "".

(** The trigger chain [event.triggerEvent || event.event || event.type]. *)
Definition trigger_field (ev : Payload.WebhookPayload) : option string :=
  or_else (or_else (Payload.triggerEvent ev) (Payload.event ev))
          (Payload.type ev).

(** [event.payload || event]. *)
Definition booking_of (ev : Payload.WebhookPayload) : Payload.BookingPayload :=
  match Payload.payload ev with
  | Some p => p
  | None => Payload.own ev
  end.

Section Receiver.

(** The case mapping of the runtime outside ASCII, see [JS.toUpperCase]. *)
Variable upper_non_ascii : string -> string.

Local Abbreviation normalizeTrigger := (Trigger.normalizeTrigger upper_non_ascii).

(** [crypto.createHmac("sha256", secret).update(body).digest("hex")]. *)
Variable hmac_sha256_hex : string -> string -> string.

(** [JSON.parse], [None] when it throws. *)
Variable JSON_parse : string -> option Parsed.

(** [new Date(string)]. *)
Variable Date_of_string : string -> Date.

(** [date.toLocaleString("en-US", { ..., timeZone })]. *)
Variable toLocaleString : Date -> string -> string.

(** [crypto.randomUUID()]. *)
Variable randomUUID : string.

Variable createEvent : Ics.EventAttributes -> Ics.CreateEventResult.
Variable fetch :
  string -> string -> PostmarkData.PostmarkMessage ->
  outcome PostmarkData.FetchResponse.
Variable JSON_stringify : PostmarkData.PostmarkResponse -> string.

(** The static markup of the HTML bodies, see [Template]. *)
Variable render : Template -> list string -> string.

Definition formatDateTime (date : Date) : string := toLocaleString date "UTC".

(** The booking identifier chain
    [iCalUID || bookingUid || uid || String(bookingId) || randomUUID()];
    the last operand is a call, so it is an event when it is reached. *)
Definition bookingUid_of (p : Payload.BookingPayload) : M string :=
  let s :=
    or_default
      (or_else (or_else (Payload.iCalUID p) (Payload.bookingUid p))
               (Payload.uid p))
      (String_of (Payload.bookingId p)) in
  if str_truthy s then ret s
  else emit RandomUUIDCalled ;;; ret randomUUID.

Definition title_or_meeting (p : Payload.BookingPayload) : string :=
  or_default (Payload.title p) "Meeting".

Definition with_whom (hostName : option string) (hostEmail : string) : string :=
  or_default hostName hostEmail.

Definition handleBookingCreated (env : Env)
    (payload : Payload.BookingPayload) (startTime endTime : Date)
    (attendee : Ics.Person) (hostEmail : string) (hostName : option string)
    (location bookingUid : string) (sequence : Z) (from : string) : M unit :=
  icsContent <-
    IcsBuilder.buildIcsString createEvent
      {| Ics.uid := bookingUid;
         Ics.title := title_or_meeting payload;
         Ics.description := Payload.description payload;
         Ics.start := startTime;
         Ics.end_ := endTime;
         Ics.organizer := {| Ics.name := hostName; Ics.email := hostEmail |};
         Ics.attendee :=
           {| Ics.name := Ics.name attendee; Ics.email := Ics.email attendee |};
         Ics.location := Some location;
         Ics.sequence := Some sequence;
         Ics.status := Ics.CONFIRMED;
         Ics.method := Ics.REQUEST |} ;;
  let htmlBody :=
    render ConfirmedHtml
      [ title_or_meeting payload;
        formatDateTime startTime;
        buildLocationHtml (Some location);
        with_whom hostName hostEmail;
        buildCancelLinkHtml (Payload.cancelUrl payload) ] in
  sendPostmarkEmail fetch JSON_stringify env
    {| PostmarkData.from := from;
       PostmarkData.to := Ics.email attendee;
       PostmarkData.subject := "Confirmed: " ++ title_or_meeting payload;
       PostmarkData.htmlBody := htmlBody;
       PostmarkData.textBody := None;
       PostmarkData.icsContent := Some icsContent;
       PostmarkData.icsMethod := Some Ics.REQUEST |} ;;;
  emit (ConsoleLog ("Sent booking confirmation to " ++ Ics.email attendee
                    ++ " for " ++ bookingUid)).

Definition handleBookingRescheduled (env : Env)
    (payload : Payload.BookingPayload) (startTime endTime : Date)
    (attendee : Ics.Person) (hostEmail : string) (hostName : option string)
    (location bookingUid : string) (sequence : Z) (from : string) : M unit :=
  icsContent <-
    IcsBuilder.buildIcsString createEvent
      {| Ics.uid := bookingUid;
         Ics.title := title_or_meeting payload;
         Ics.description := Payload.description payload;
         Ics.start := startTime;
         Ics.end_ := endTime;
         Ics.organizer := {| Ics.name := hostName; Ics.email := hostEmail |};
         Ics.attendee :=
           {| Ics.name := Ics.name attendee; Ics.email := Ics.email attendee |};
         Ics.location := Some location;
         Ics.sequence := Some (number_add sequence 1);
         Ics.status := Ics.CONFIRMED;
         Ics.method := Ics.REQUEST |} ;;
  let htmlBody :=
    render RescheduledHtml
      [ title_or_meeting payload;
        formatDateTime startTime;
        buildLocationHtml (Some location);
        with_whom hostName hostEmail;
        buildCancelLinkHtml (Payload.cancelUrl payload) ] in
  sendPostmarkEmail fetch JSON_stringify env
    {| PostmarkData.from := from;
       PostmarkData.to := Ics.email attendee;
       PostmarkData.subject := "Rescheduled: " ++ title_or_meeting payload;
       PostmarkData.htmlBody := htmlBody;
       PostmarkData.textBody := None;
       PostmarkData.icsContent := Some icsContent;
       PostmarkData.icsMethod := Some Ics.REQUEST |} ;;;
  emit (ConsoleLog ("Sent reschedule notification to " ++ Ics.email attendee
                    ++ " for " ++ bookingUid)).

Definition handleBookingCancelled (env : Env)
    (payload : Payload.BookingPayload) (startTime endTime : Date)
    (attendee : Ics.Person) (hostEmail : string) (hostName : option string)
    (location bookingUid : string) (sequence : Z) (from : string) : M unit :=
  icsContent <-
    IcsBuilder.buildIcsString createEvent
      {| Ics.uid := bookingUid;
         Ics.title := title_or_meeting payload;
         Ics.description := Payload.description payload;
         Ics.start := startTime;
         Ics.end_ := endTime;
         Ics.organizer := {| Ics.name := hostName; Ics.email := hostEmail |};
         Ics.attendee :=
           {| Ics.name := Ics.name attendee; Ics.email := Ics.email attendee |};
         Ics.location := Some location;
         Ics.sequence := Some (number_add sequence 1);
         Ics.status := Ics.CANCELLED;
         Ics.method := Ics.CANCEL |} ;;
  let htmlBody :=
    render CancelledHtml
      [ title_or_meeting payload;
        formatDateTime startTime;
        with_whom hostName hostEmail;
        buildRescheduleLinkHtml (Payload.rescheduleUrl payload) ] in
  sendPostmarkEmail fetch JSON_stringify env
    {| PostmarkData.from := from;
       PostmarkData.to := Ics.email attendee;
       PostmarkData.subject := "Cancelled: " ++ title_or_meeting payload;
       PostmarkData.htmlBody := htmlBody;
       PostmarkData.textBody := None;
       PostmarkData.icsContent := Some icsContent;
       PostmarkData.icsMethod := Some Ics.CANCEL |} ;;;
  emit (ConsoleLog ("Sent cancellation notification to " ++ Ics.email attendee
                    ++ " for " ++ bookingUid)).

(** The [try] block of [handler]: one of the three handlers, by trigger. *)
Definition dispatch (env : Env) (trigger : TriggerType)
    (payload : Payload.BookingPayload) (startTime endTime : Date)
    (attendee : Ics.Person) (hostEmail : string) (hostName : option string)
    (location bookingUid : string) (sequence : Z) (from : string) : M unit :=
  match trigger with
  | BOOKING_CREATED =>
      handleBookingCreated env payload startTime endTime attendee hostEmail
        hostName location bookingUid sequence from
  | BOOKING_RESCHEDULED =>
      handleBookingRescheduled env payload startTime endTime attendee hostEmail
        hostName location bookingUid sequence from
  | BOOKING_CANCELLED =>
      handleBookingCancelled env payload startTime endTime attendee hostEmail
        hostName location bookingUid sequence from
  | unknown => ret tt
  end.

(** The shape the three handlers share: build the invite of [params], send
    the email [email_of icsContent], log [line]. *)
Definition notify (env : Env) (params : Ics.WebhookIcsParams)
    (email_of : string -> PostmarkData.SendEmailParams) (line : string)
  : M unit :=
  icsContent <- IcsBuilder.buildIcsString createEvent params ;;
  sendPostmarkEmail fetch JSON_stringify env (email_of icsContent) ;;;
  emit (ConsoleLog line).

(** [handler], after the signature has been accepted and the body parsed,
    from the classification of the trigger on. *)
Definition process_event (env : Env) (ev : Payload.WebhookPayload)
  : M Response :=
  let trigger := normalizeTrigger (trigger_field ev) in
  if TriggerType_eqb trigger unknown
  then respond 200 (IgnoredJson (trigger_field ev))
  else
    let payload := booking_of ev in
    let startTime := option_map Date_of_string (present (Payload.startTime payload)) in
    let endTime := option_map Date_of_string (present (Payload.endTime payload)) in
    match startTime, endTime with
    | Some startTime, Some endTime =>
        match first_attendee payload with
        | None => respond 200 (SkippedJson "no attendee email")
        | Some attendee =>
            let hostEmail := hostEmail_of payload in
            let hostName := hostName_of payload in
            match present hostEmail with
            | None => respond 200 (SkippedJson "no host email")
            | Some hostEmail =>
                let location := location_of payload in
                bookingUid <- bookingUid_of payload ;;
                let sequence := sequence_or_zero (Payload.iCalSequence payload) in
                match present (POSTMARK_FROM_EMAIL env) with
                | None =>
                    emit (ConsoleError "POSTMARK_FROM_EMAIL not configured") ;;;
                    respond 500 (ErrorJson "Server configuration error")
                | Some from =>
                    try_catch
                      (dispatch env trigger payload startTime endTime
                         attendee hostEmail hostName location bookingUid
                         sequence from ;;;
                       respond 200 (HandledJson trigger))
                      (fun _ =>
                         emit (ConsoleError "Error processing webhook:") ;;;
                         respond 500 (ErrorJson "Failed to process webhook"))
                end
            end
        end
    | _, _ => respond 200 (SkippedJson "missing start/end time")
    end.

Definition handler (env : Env) (req : Request) : M Response :=
  if negb (String.eqb (method req) "POST")
  then respond 405 (ErrorJson "Method Not Allowed")
  else
    match present (CAL_WEBHOOK_SECRET env) with
    | None =>
        emit (ConsoleError "CAL_WEBHOOK_SECRET not configured") ;;;
        respond 500 (ErrorJson "Server configuration error")
    | Some secret =>
        let rawBody := readRawBody req in
        let receivedSig := or_default (x_cal_signature_256 req) "" in
        emit (HmacComputed secret rawBody) ;;;
        let computedSig := hmac_sha256_hex secret rawBody in
        if negb (str_truthy receivedSig)
           || negb (timingSafeEqual receivedSig computedSig)
        then
          emit (ConsoleError "Invalid webhook signature") ;;;
          respond 401 (ErrorJson "Invalid signature")
        else
          emit (JsonParseCalled rawBody) ;;;
          match JSON_parse rawBody with
          | None => respond 400 (ErrorJson "Invalid JSON")
          | Some ParsedNull => throw null_event_error
          | Some ParsedNonStringTrigger => throw trigger_not_a_string_error
          | Some (ParsedEvent ev) => process_event env ev
          end
    end.

(** *** Vocabulary for the properties of the receiver *)

(** The request is a POST whose signature header is present and equal to
    the digest of the raw body under the configured secret. *)
Definition authenticated (env : Env) (req : Request) : Prop :=
  method req = "POST" /\
  exists secret,
    present (CAL_WEBHOOK_SECRET env) = Some secret /\
    present (x_cal_signature_256 req)
    = Some (hmac_sha256_hex secret (readRawBody req)).

(** The body parses, to the value [ev] of the declared type. *)
Definition parses_to (req : Request) (ev : Payload.WebhookPayload) : Prop :=
  JSON_parse (readRawBody req) = Some (ParsedEvent ev).

(** The body parses to a value on which the receiver raises a [TypeError]
    before it enters its [try] block: [null], whose keys cannot be read, or
    a value whose trigger has no [toUpperCase]. *)
Definition parses_to_untyped (req : Request) : Prop :=
  JSON_parse (readRawBody req) = Some ParsedNull \/
  JSON_parse (readRawBody req) = Some ParsedNonStringTrigger.

(** The trigger of [ev] is one of the three recognized ones. *)
Definition recognized (ev : Payload.WebhookPayload) : Prop :=
  normalizeTrigger (trigger_field ev) <> unknown.

(** One of the four required extracted fields is missing. *)
Definition missing_required_field (p : Payload.BookingPayload) : Prop :=
  present (Payload.startTime p) = None \/
  present (Payload.endTime p) = None \/
  first_attendee p = None \/
  present (hostEmail_of p) = None.

(** The reasons a skip can give. *)
Definition skip_reasons : list string :=
  ["missing start/end time"; "no attendee email"; "no host email"].

(** All four are there. *)
Definition has_required_fields (p : Payload.BookingPayload) : Prop :=
  present (Payload.startTime p) <> None /\
  present (Payload.endTime p) <> None /\
  first_attendee p <> None /\
  present (hostEmail_of p) <> None.

End Receiver.

End Webhook.

(* ================================================================== *)
(** ** Sample inputs *)
(* ================================================================== *)

(** Concrete requests, payloads and stand-ins for the runtime calls, on
    which the properties below are instantiated.  The stand-ins fix the
    answers of the runtime on the sample inputs only: [stub_hmac] is not
    SHA-256 (the receiver does nothing with a digest but compare it with
    the header), and [parse] knows the sample bodies. *)
Module Samples.
Import JS DateTime Eff.

Definition quoted (s : string) : string := dquote ++ s ++ dquote.

Definition secret : string := "whsec_test".

Definition env_full : Postmark.Env :=
  {| Postmark.CAL_WEBHOOK_SECRET := Some secret;
     Postmark.POSTMARK_SERVER_API_TOKEN := Some "pm-token";
     Postmark.POSTMARK_FROM_EMAIL := Some "bookings@example.com" |}.

(** Only the webhook secret is configured. *)
Definition env_secret_only : Postmark.Env :=
  {| Postmark.CAL_WEBHOOK_SECRET := Some secret;
     Postmark.POSTMARK_SERVER_API_TOKEN := None;
     Postmark.POSTMARK_FROM_EMAIL := None |}.

(** Text outside ASCII is left as it is. *)
Definition upper_stub (s : string) : string := s.

(** The two bytes of U+017F, the long s, whose upper case is S; and a case
    mapping that knows this letter only. *)
Definition long_s : string :=
  String (ascii_of_nat 197) (String (ascii_of_nat 191) EmptyString).

Definition upper_long_s (run : string) : string :=
  if String.eqb run long_s then "S" else run.

Definition stub_hmac (key body : string) : string :=
  "0f" ++ NilZero.string_of_uint (Nat.to_uint (String.length key + String.length body)).

Definition guest : Ics.Person :=
  {| Ics.name := Some "Guest"; Ics.email := "guest@example.com" |}.

Definition empty_booking : Payload.BookingPayload :=
  {| Payload.title := None; Payload.startTime := None; Payload.endTime := None;
     Payload.attendees := None; Payload.attendeesList := None;
     Payload.organizer := None; Payload.hostEmail := None;
     Payload.hostName := None; Payload.organizerName := None;
     Payload.location := None; Payload.meetingUrl := None;
     Payload.videoCallUrl := None; Payload.conferenceUrl := None;
     Payload.bookingUid := None; Payload.uid := None;
     Payload.bookingId := None; Payload.description := None;
     Payload.bookingUrl := None; Payload.rescheduleUrl := None;
     Payload.cancelUrl := None; Payload.iCalSequence := None;
     Payload.iCalUID := None |}.

(** A booking with the four required fields, a revision number, and no
    identifier of any kind. *)
Definition booking : Payload.BookingPayload :=
  {| Payload.title := Some "Intro call";
     Payload.startTime := Some "2024-01-01T15:00:00Z";
     Payload.endTime := Some "2024-01-01T15:30:00Z";
     Payload.attendees := Some [guest]; Payload.attendeesList := None;
     Payload.organizer := None; Payload.hostEmail := Some "host@example.com";
     Payload.hostName := None; Payload.organizerName := None;
     Payload.location := None; Payload.meetingUrl := None;
     Payload.videoCallUrl := None; Payload.conferenceUrl := None;
     Payload.bookingUid := None; Payload.uid := None;
     Payload.bookingId := None; Payload.description := None;
     Payload.bookingUrl := None; Payload.rescheduleUrl := None;
     Payload.cancelUrl := None; Payload.iCalSequence := Some 3%Z;
     Payload.iCalUID := None |}.

(** The same booking without its attendees. *)
Definition booking_without_attendee : Payload.BookingPayload :=
  {| Payload.title := Some "Intro call";
     Payload.startTime := Some "2024-01-01T15:00:00Z";
     Payload.endTime := Some "2024-01-01T15:30:00Z";
     Payload.attendees := None; Payload.attendeesList := None;
     Payload.organizer := None; Payload.hostEmail := Some "host@example.com";
     Payload.hostName := None; Payload.organizerName := None;
     Payload.location := None; Payload.meetingUrl := None;
     Payload.videoCallUrl := None; Payload.conferenceUrl := None;
     Payload.bookingUid := None; Payload.uid := None;
     Payload.bookingId := None; Payload.description := None;
     Payload.bookingUrl := None; Payload.rescheduleUrl := None;
     Payload.cancelUrl := None; Payload.iCalSequence := Some 3%Z;
     Payload.iCalUID := None |}.

Definition event_of (trigger : string) (p : Payload.BookingPayload)
  : Payload.WebhookPayload :=
  {| Payload.triggerEvent := Some trigger;
     Payload.event := None;
     Payload.type := None;
     Payload.payload := Some p;
     Payload.own := empty_booking |}.

(** The body [{(q)triggerEvent(q):(q)PING(q)}], where (q) is the quote. *)
Definition ping_body : string :=
  "{" ++ quoted "triggerEvent" ++ ":" ++ quoted "PING" ++ "}".

Definition ping_event : Payload.WebhookPayload :=
  {| Payload.triggerEvent := Some "PING";
     Payload.event := None;
     Payload.type := None;
     Payload.payload := None;
     Payload.own := empty_booking |}.

(** Bodies named by what they hold; [parse] below gives their content. *)
Definition created_body : string :=
  "{" ++ quoted "triggerEvent" ++ ":" ++ quoted "BOOKING_CREATED" ++ ","
  ++ quoted "payload" ++ ":{" ++ quoted "title" ++ ":" ++ quoted "Intro call"
  ++ "," ++ quoted "startTime" ++ ":" ++ quoted "2024-01-01T15:00:00Z"
  ++ "," ++ quoted "endTime" ++ ":" ++ quoted "2024-01-01T15:30:00Z"
  ++ "," ++ quoted "attendees" ++ ":[{" ++ quoted "name" ++ ":" ++ quoted "Guest"
  ++ "," ++ quoted "email" ++ ":" ++ quoted "guest@example.com" ++ "}]"
  ++ "," ++ quoted "hostEmail" ++ ":" ++ quoted "host@example.com"
  ++ "," ++ quoted "iCalSequence" ++ ":3}}".

Definition no_attendee_body : string :=
  "{" ++ quoted "triggerEvent" ++ ":" ++ quoted "BOOKING_CREATED" ++ ","
  ++ quoted "payload" ++ ":{" ++ quoted "title" ++ ":" ++ quoted "Intro call"
  ++ "," ++ quoted "startTime" ++ ":" ++ quoted "2024-01-01T15:00:00Z"
  ++ "," ++ quoted "endTime" ++ ":" ++ quoted "2024-01-01T15:30:00Z"
  ++ "," ++ quoted "hostEmail" ++ ":" ++ quoted "host@example.com"
  ++ "," ++ quoted "iCalSequence" ++ ":3}}".

(** The body [null], and the body [{(q)triggerEvent(q):5}]. *)
Definition null_body : string := "null".

Definition numeric_trigger_body : string :=
  "{" ++ quoted "triggerEvent" ++ ":5}".

Definition parse (text : string) : option Webhook.Parsed :=
  if String.eqb text ping_body then Some (Webhook.ParsedEvent ping_event)
  else if String.eqb text created_body
  then Some (Webhook.ParsedEvent (event_of "BOOKING_CREATED" booking))
  else if String.eqb text no_attendee_body
  then Some (Webhook.ParsedEvent
               (event_of "BOOKING_CREATED" booking_without_attendee))
  else if String.eqb text null_body then Some Webhook.ParsedNull
  else if String.eqb text numeric_trigger_body
  then Some Webhook.ParsedNonStringTrigger
  else None.

Definition date_of_string (s : string) : Date :=
  if String.eqb s "2024-01-01T15:00:00Z" then ValidDate 1704121200000
  else if String.eqb s "2024-01-01T15:30:00Z" then ValidDate 1704123000000
  else InvalidDate.

Definition toLocaleString (d : Date) (tz : string) : string := "".

Definition randomUUID : string := "00000000-0000-4000-8000-000000000000".

(** [createEvent] succeeding, and failing validation. *)
Definition createEvent_ok (a : Ics.EventAttributes) : Ics.CreateEventResult :=
  {| Ics.error := None; Ics.value := Some "BEGIN:VCALENDAR" |}.

Definition createEvent_invalid (a : Ics.EventAttributes) : Ics.CreateEventResult :=
  {| Ics.error := Some (mkError "ValidationError"); Ics.value := None |}.

Definition fetch_ok (url token : string) (m : PostmarkData.PostmarkMessage)
  : outcome PostmarkData.FetchResponse :=
  Return {| PostmarkData.ok := true;
            PostmarkData.http_status := 200;
            PostmarkData.json :=
              Some {| PostmarkData.MessageID := Some "m-1";
                      PostmarkData.ErrorCode := Some 0%Z;
                      PostmarkData.Message := Some "OK" |} |}.

Definition stringify (r : PostmarkData.PostmarkResponse) : string := "{}".

Definition render (t : Webhook.Template) (holes : list string) : string :=
  String.concat "" holes.

(** Nothing is configured. *)
Definition env_none : Postmark.Env :=
  {| Postmark.CAL_WEBHOOK_SECRET := None;
     Postmark.POSTMARK_SERVER_API_TOKEN := None;
     Postmark.POSTMARK_FROM_EMAIL := None |}.

(** The receiver on the stand-ins. *)
Definition handler : Postmark.Env -> Webhook.Request -> M Webhook.Response :=
  Webhook.handler upper_stub stub_hmac parse date_of_string toLocaleString randomUUID
    createEvent_ok fetch_ok stringify render.

(** The three handlers on the sample booking, at sequence number [N]. *)
Definition created_at (N : Z) : M unit :=
  Webhook.handleBookingCreated toLocaleString createEvent_ok fetch_ok stringify
    render env_full booking (date_of_string "2024-01-01T15:00:00Z")
    (date_of_string "2024-01-01T15:30:00Z") guest "host@example.com" None ""
    "booking-1" N "bookings@example.com".

Definition rescheduled_at (N : Z) : M unit :=
  Webhook.handleBookingRescheduled toLocaleString createEvent_ok fetch_ok stringify
    render env_full booking (date_of_string "2024-01-01T15:00:00Z")
    (date_of_string "2024-01-01T15:30:00Z") guest "host@example.com" None ""
    "booking-1" N "bookings@example.com".

Definition cancelled_at (N : Z) : M unit :=
  Webhook.handleBookingCancelled toLocaleString createEvent_ok fetch_ok stringify
    render env_full booking (date_of_string "2024-01-01T15:00:00Z")
    (date_of_string "2024-01-01T15:30:00Z") guest "host@example.com" None ""
    "booking-1" N "bookings@example.com".

(** A POST of [body], signed under [secret]. *)
Definition signed (body : string) : Webhook.Request :=
  {| Webhook.method := "POST";
     Webhook.x_cal_signature_256 := Some (stub_hmac secret body);
     Webhook.chunks := [body] |}.

(** The one byte FF, which no UTF-8 text contains, and the three bytes of
    U+FFFD, as which it is read. *)
Definition ill_formed_body : string := String (ascii_of_nat 255) EmptyString.

Definition replacement_text : string :=
  String (ascii_of_nat 239)
    (String (ascii_of_nat 191) (String (ascii_of_nat 189) EmptyString)).

(** A POST of [body] that carries the digest of [text]. *)
Definition signed_as (text body : string) : Webhook.Request :=
  {| Webhook.method := "POST";
     Webhook.x_cal_signature_256 := Some (stub_hmac secret text);
     Webhook.chunks := [body] |}.

(** A POST of [body] with a wrong signature, and one with none. *)
Definition forged (body : string) : Webhook.Request :=
  {| Webhook.method := "POST";
     Webhook.x_cal_signature_256 := Some "deadbeef";
     Webhook.chunks := [body] |}.

Definition unsigned (body : string) : Webhook.Request :=
  {| Webhook.method := "POST";
     Webhook.x_cal_signature_256 := None;
     Webhook.chunks := [body] |}.

(** 15:00 and 15:30 UTC on 2024-01-01, and the same two instants as read
    on a clock five hours behind UTC and on one an hour ahead. *)
Definition utc_1500 : Civil := mkCivil 2024 1 1 15 0 0 0.
Definition utc_1530 : Civil := mkCivil 2024 1 1 15 30 0 0.
Definition new_york_1000 : Civil := mkCivil 2024 1 1 10 0 0 0.
Definition paris_1630 : Civil := mkCivil 2024 1 1 16 30 0 0.

(** An email with a calendar document and no method, and one without a
    document. *)
Definition email_with_invite : PostmarkData.SendEmailParams :=
  {| PostmarkData.from := "bookings@example.com";
     PostmarkData.to := "guest@example.com";
     PostmarkData.subject := "Confirmed: Intro call";
     PostmarkData.htmlBody := "<p>See you there</p>";
     PostmarkData.textBody := None;
     PostmarkData.icsContent := Some "BEGIN:VCALENDAR";
     PostmarkData.icsMethod := None |}.

Definition email_without_invite : PostmarkData.SendEmailParams :=
  {| PostmarkData.from := "bookings@example.com";
     PostmarkData.to := "guest@example.com";
     PostmarkData.subject := "Hello";
     PostmarkData.htmlBody := "<p>Hello</p>";
     PostmarkData.textBody := None;
     PostmarkData.icsContent := None;
     PostmarkData.icsMethod := Some Ics.CANCEL |}.

Definition get_request : Webhook.Request :=
  {| Webhook.method := "GET";
     Webhook.x_cal_signature_256 := None;
     Webhook.chunks := [] |}.

(** The parameters of an invite from 15:00 to 15:30 UTC on 2024-01-01. *)
Definition invite_params (st : Ics.EventStatus) (m : Ics.Method)
  : Ics.WebhookIcsParams :=
  {| Ics.uid := "booking-1";
     Ics.title := "Intro call";
     Ics.description := None;
     Ics.start := ValidDate 1704121200000;
     Ics.end_ := ValidDate 1704123000000;
     Ics.organizer := {| Ics.name := None; Ics.email := "host@example.com" |};
     Ics.attendee := guest;
     Ics.location := None;
     Ics.sequence := Some 0%Z;
     Ics.status := st;
     Ics.method := m |}.

End Samples.

(** Stand-ins for the runtime calls of the encryption helper.  [base64]
    knows one key, the encoding of 32 zero bytes; [cipher] and [decipher]
    are not AES: they reverse the bytes, which is all the properties below
    ask of a cipher (that deciphering undoes enciphering). *)
Module CryptoSamples.
Import Eff Crypto.
Local Open Scope Z_scope.
Local Open Scope list_scope.

(** The code units of 43 letters A and an equals sign. *)
Definition key : ustring := repeat 65 43 ++ [61].

(** The empty key, which decodes to no bytes. *)
Definition short_key : ustring := [].

Definition base64 (k : ustring) : Buffer :=
  if list_eq_dec Z.eq_dec k key then repeat Byte.x00 32 else [].

Definition random (n : nat) : Buffer := repeat Byte.x2a n.

Definition cipher (k iv plaintext : Buffer) : outcome Buffer :=
  Return (rev plaintext).

Definition decipher (k iv ciphertext : Buffer) : outcome Buffer :=
  Return (rev ciphertext).

Definition encrypt : ustring -> ustring -> outcome ustring :=
  symmetricEncrypt base64 random cipher.

Definition decrypt : ustring -> ustring -> outcome ustring :=
  symmetricDecrypt base64 decipher.

(** The text [hello], and an unpaired high surrogate. *)
Definition hello : ustring := [104; 101; 108; 108; 111].
Definition lone_surrogate : ustring := [0xD800].

End CryptoSamples.

(* ================================================================== *)
(** ** Vocabulary for further properties *)
(* ================================================================== *)

(** The inverse of [PostmarkData.base64_encode], to state that the encoding
    loses nothing: [base64_value] is the position of a character in the
    alphabet, [base64_decode] reads groups of four characters, the last of
    which may end in one or two equals signs. *)
Module Base64Inverse.
Import PostmarkData.

Definition base64_value (c : ascii) : option nat :=
  let n := nat_of_ascii c in
  if (65 <=? n)%nat && (n <=? 90)%nat then Some (n - 65)%nat
  else if (97 <=? n)%nat && (n <=? 122)%nat then Some (n - 71)%nat
  else if (48 <=? n)%nat && (n <=? 57)%nat then Some (n + 4)%nat
  else if (n =? 43)%nat then Some 62%nat
  else if (n =? 47)%nat then Some 63%nat
  else None.

Definition is_pad (c : ascii) : bool := Ascii.eqb c "="%char.

Fixpoint base64_decode (s : string) : option string :=
  match s with
  | EmptyString => Some EmptyString
  | String c1 (String c2 (String c3 (String c4 rest))) =>
      match base64_value c1, base64_value c2 with
      | Some v1, Some v2 =>
          let b1 := ascii_of_nat (v1 * 4 + v2 / 16) in
          if is_pad c3
          then
            match rest with
            | EmptyString => if is_pad c4 then Some (String b1 EmptyString) else None
            | _ => None
            end
          else
            match base64_value c3 with
            | Some v3 =>
                let b2 := ascii_of_nat (v2 mod 16 * 16 + v3 / 4) in
                if is_pad c4
                then
                  match rest with
                  | EmptyString => Some (String b1 (String b2 EmptyString))
                  | _ => None
                  end
                else
                  match base64_value c4, base64_decode rest with
                  | Some v4, Some bytes =>
                      Some (String b1
                              (String b2
                                 (String (ascii_of_nat (v3 mod 4 * 64 + v4)) bytes)))
                  | _, _ => None
                  end
            | None => None
            end
      | _, _ => None
      end
  | _ => None
  end.

End Base64Inverse.

(** Vocabulary on code units, to state what the encryption helper does
    to any text. *)
Module CodeUnits.
Import Crypto.
Local Open Scope Z_scope.
Local Open Scope list_scope.

(** [String.prototype.toWellFormed]: every unpaired surrogate becomes
    U+FFFD. *)
Fixpoint toWellFormed (s : ustring) : ustring :=
  match s with
  | [] => []
  | u :: rest =>
      if is_high_surrogate u then
        match rest with
        | l :: rest' =>
            if is_low_surrogate l
            then u :: l :: toWellFormed rest'
            else 0xFFFD :: toWellFormed rest
        | [] => [0xFFFD]
        end
      else if is_low_surrogate u then 0xFFFD :: toWellFormed rest
      else u :: toWellFormed rest
  end.

(** A lower-case hexadecimal digit, as a code unit. *)
Definition is_hex_unit (c : Z) : Prop := 48 <= c <= 57 \/ 97 <= c <= 102.

End CodeUnits.


(** ** The two-factor setup route *)

(** [postHandler] of [two-factor/totp/setup/route.ts].  The calls into the
    session layer, the rate limiter, the database, the password check, the
    one-time-password library and the QR-code library are [Variable]s; the
    ones that are awaited or may throw yield an [outcome].  The trace records
    the console lines of the handler (the fixed text of each, not the value
    printed after it; the lines the encryption helper prints are left out),
    the rate-limit checks and the database updates that were issued. *)
Module TotpSetup.
Import JS Eff Crypto.
Local Open Scope list_scope.

Inductive ErrorCode :=
| InternalServerError
| ThirdPartyIdentityProviderEnabled
| UserMissingPassword
| TwoFactorAlreadyEnabled
| IncorrectPassword.

(** [IdentityProvider]: [CAL], or one of the third-party providers. *)
Inductive IdentityProvider :=
| CAL
| ThirdParty (name : string).

Definition is_CAL (p : IdentityProvider) : bool :=
  match p with
  | CAL => true
  | ThirdParty _ => false
  end.

(** The parsed request body, read at [password]. *)
Record RequestBody := mkBody {
  body_password : option ustring
}.

(** [session.user?.id]. *)
Record SessionUser := mkSessionUser {
  session_user_id : option Z
}.

Record Session := mkSession {
  session_user : option SessionUser
}.

Record Password := mkPassword {
  hash : ustring
}.

(** The columns of the user row the handler reads. *)
Record User := mkUser {
  user_id : Z;
  user_email : ustring;
  username : option ustring;
  identityProvider : IdentityProvider;
  password : option Password;
  twoFactorEnabled : bool
}.

(** The [data] of [prisma.user.update]. *)
Record UpdateData := mkUpdateData {
  data_backupCodes : ustring;
  data_twoFactorEnabled : bool;
  data_twoFactorSecret : ustring
}.

Inductive ResponseBody :=
| MessageBody (message : string)
| ErrorBody (error : ErrorCode)
| SetupBody (secret keyUri dataUri : ustring) (backupCodes : list ustring).

(** [NextResponse.json(body, { status })]; the status is 200 when none is
    given. *)
Record Response := mkResponse {
  status : Z;
  body : ResponseBody
}.

Inductive Effect :=
| Logged (line : string)
| LoggedError (line : string)
| RateLimitChecked (identifier : string)
| UserUpdateIssued (id : Z) (data : UpdateData).

(** A computation of the route: what it did, in order, and how it ended. *)
Definition M (A : Type) : Type := list Effect * outcome A.

Definition ret {A} (a : A) : M A := ([], Return a).
Definition throw {A} (e : Error) : M A := ([], Throw e).
Definition emit (ev : Effect) : M unit := ([ev], Return tt).

(** [await call] and calls that may throw: no effect of their own. *)
Definition await {A} (o : outcome A) : M A := ([], o).

Definition bind {A B} (m : M A) (f : A -> M B) : M B :=
  match m with
  | (tr, Return a) => let (tr', r) := f a in (tr ++ tr', r)
  | (tr, Throw e) => (tr, Throw e)
  end.

Definition try_catch {A} (m : M A) (h : Error -> M A) : M A :=
  match m with
  | (tr, Throw e) => let (tr', r) := h e in (tr ++ tr', r)
  | (tr, Return a) => (tr, Return a)
  end.

Definition effects {A} (m : M A) : list Effect := fst m.
Definition outcome_of {A} (m : M A) : outcome A := snd m.

Declare Scope totp_scope.
Delimit Scope totp_scope with totp.

Notation "x <- c1 ;; c2" := (bind c1 (fun x => c2))
  (at level 61, c1 at next level, right associativity) : totp_scope.
Notation "c1 ;;; c2" := (bind c1 (fun _ => c2))
  (at level 61, right associativity) : totp_scope.

Local Open Scope totp_scope.

Definition console_log (line : string) : M unit := emit (Logged line).
Definition console_error (line : string) : M unit := emit (LoggedError line).

(** The database updates a run issued, and its rate-limit checks. *)
Definition updates (tr : list Effect) : list (Z * UpdateData) :=
  flat_map (fun ev => match ev with UserUpdateIssued i d => [(i, d)] | _ => [] end) tr.

Definition rate_limit_checks (tr : list Effect) : list string :=
  flat_map (fun ev => match ev with RateLimitChecked i => [i] | _ => [] end) tr.

(** The code units of an ASCII string. *)
Definition units (s : string) : ustring :=
  map (fun a => Z.of_nat (nat_of_ascii a)) (list_ascii_of_string s).

(** [n.toString()] and a number inside a template literal. *)
Definition number_to_string (n : Z) : string := NilZero.string_of_int (Z.to_int n).

(** Truthiness of a string value and of a number. *)
Definition nonempty (s : ustring) : bool :=
  match s with
  | [] => false
  | _ :: _ => true
  end.

(** The value of a [string | undefined] on the branch where it is truthy. *)
Definition present_units (o : option ustring) : option ustring :=
  match o with
  | Some s => if nonempty s then Some s else None
  | None => None
  end.

(** [session.user?.id] when it is truthy. *)
Definition session_id (s : Session) : option Z :=
  match session_user s with
  | Some u =>
      match session_user_id u with
      | Some n => if (n =? 0)%Z then None else Some n
      | None => None
      end
  | None => None
  end.

(** [user.password?.hash] when it is truthy. *)
Definition password_hash (u : User) : option ustring :=
  match password u with
  | Some p => present_units (Some (hash p))
  | None => None
  end.

(** [!!user.password?.hash]. *)
Definition has_password_hash (u : User) : bool :=
  match password_hash u with
  | Some _ => true
  | None => false
  end.

(** [user.email || user.username || user.id.toString()]. *)
Definition account_name (u : User) : ustring :=
  if nonempty (user_email u) then user_email u
  else match username u with
       | Some n => if nonempty n then n else units (number_to_string (user_id u))
       | None => units (number_to_string (user_id u))
       end.

Definition rate_limit_identifier (id : Z) : string :=
  ("api:totp-setup:" ++ number_to_string id)%string.

Definition json (b : ResponseBody) (st : Z) : Response :=
  {| status := st; body := b |}.

Section Route.

(** [process.env.CALENDSO_ENCRYPTION_KEY]. *)
Variable CALENDSO_ENCRYPTION_KEY : option ustring.

(** [parseRequestData(req)], awaited. *)
Variable parseRequestData : outcome RequestBody.

(** [getServerSession] on the request rebuilt from headers and cookies. *)
Variable getServerSession : outcome (option Session).

(** [checkRateLimitAndThrowError] for the core limit, by identifier. *)
Variable checkRateLimitAndThrowError : string -> outcome unit.

(** [prisma.user.findUnique] by id, with the password relation. *)
Variable findUnique : Z -> outcome (option User).

Variable verifyPassword : option ustring -> ustring -> outcome bool.

(** [authenticator.generateSecret] and [authenticator.keyuri]. *)
Variable generateSecret : nat -> ustring.
Variable keyuri : ustring -> ustring -> ustring -> ustring.

(** [crypto.randomBytes]: the first argument counts the calls of the
    request, so that each call has its own result. *)
Variable randomBytes : nat -> nat -> Buffer.

(** [JSON.stringify] of an array of strings. *)
Variable JSON_stringify : list ustring -> ustring.

(** The key decoding and the cipher [symmetricEncrypt] runs on. *)
Variable base64_decode : ustring -> Buffer.
Variable aes256_encrypt : Buffer -> Buffer -> Buffer -> outcome Buffer.

(** [prisma.user.update] by id. *)
Variable update : Z -> UpdateData -> outcome unit.

(** [qrcode.toDataURL]. *)
Variable toDataURL : ustring -> outcome ustring.

(** [symmetricEncrypt] at the [n]-th call of the random source. *)
Definition encrypt_at (n : nat) (text key : ustring) : outcome ustring :=
  symmetricEncrypt base64_decode (randomBytes n) aes256_encrypt text key.

(** [Array.from(Array(10), () => crypto.randomBytes(5).toString("hex"))]. *)
Definition generate_backup_codes : list ustring :=
  map (fun k => hex_encode (randomBytes k 5)) (seq 0 10).

(** The inner [try] block and its [catch]. *)
Definition encrypt_and_save (id : Z) (secret : ustring) (backupCodes : list ustring)
    (encryptionKey : ustring) : M unit :=
  try_catch
    (encryptedBackupCodes <- await (encrypt_at 10 (JSON_stringify backupCodes) encryptionKey) ;;
     console_log "[2FA Setup] Backup codes encrypted successfully" ;;;
     encryptedSecret <- await (encrypt_at 11 secret encryptionKey) ;;
     console_log "[2FA Setup] Secret encrypted successfully" ;;;
     let data := {| data_backupCodes := encryptedBackupCodes;
                    data_twoFactorEnabled := false;
                    data_twoFactorSecret := encryptedSecret |} in
     emit (UserUpdateIssued id data) ;;;
     await (update id data) ;;;
     console_log "[2FA Setup] Database updated successfully")
    (fun encryptError =>
       console_error "[2FA Setup] Encryption or DB update failed:" ;;;
       throw encryptError).

(** From the generation of the secret to the response. *)
Definition generate_and_respond (id : Z) (user : User) (encryptionKey : ustring)
    : M Response :=
  console_log "[2FA Setup] Generating secret..." ;;;
  let secret := generateSecret 20 in
  console_log "[2FA Setup] Secret generated, length:" ;;;
  console_log "[2FA Setup] Generating backup codes..." ;;;
  let backupCodes := generate_backup_codes in
  console_log "[2FA Setup] Backup codes generated" ;;;
  console_log "[2FA Setup] Encrypting and saving to database..." ;;;
  encrypt_and_save id secret backupCodes encryptionKey ;;;
  let name := account_name user in
  let keyUri := keyuri name (units "Cal") secret in
  console_log "[2FA Setup] Key URI generated" ;;;
  dataUri <- await (toDataURL keyUri) ;;
  console_log "[2FA Setup] QR code generated" ;;;
  console_log "[2FA Setup] Success! Returning response" ;;;
  ret (json (SetupBody secret keyUri dataUri backupCodes) 200).

(** The checks on the user row, the key and the password. *)
Definition check_user (id : Z) (requestBody : RequestBody) (user : User) : M Response :=
  console_log "[2FA Setup] Identity provider:" ;;;
  console_log "[2FA Setup] Has password hash:" ;;;
  if negb (is_CAL (identityProvider user)) && negb (has_password_hash user)
  then
    console_log "[2FA Setup] ThirdPartyIdentityProviderEnabled error" ;;;
    ret (json (ErrorBody ThirdPartyIdentityProviderEnabled) 400)
  else
    match password_hash user with
    | None =>
        console_log "[2FA Setup] UserMissingPassword error" ;;;
        ret (json (ErrorBody UserMissingPassword) 400)
    | Some passwordHash =>
        if twoFactorEnabled user
        then
          console_log "[2FA Setup] TwoFactorAlreadyEnabled error" ;;;
          ret (json (ErrorBody TwoFactorAlreadyEnabled) 400)
        else
          console_log "[2FA Setup] Encryption key exists:" ;;;
          console_log "[2FA Setup] Encryption key length:" ;;;
          match present_units CALENDSO_ENCRYPTION_KEY with
          | Some encryptionKey =>
              console_log "[2FA Setup] Verifying password..." ;;;
              isCorrectPassword <-
                await (verifyPassword (body_password requestBody) passwordHash) ;;
              console_log "[2FA Setup] Password correct:" ;;;
              if negb isCorrectPassword
              then ret (json (ErrorBody IncorrectPassword) 400)
              else generate_and_respond id user encryptionKey
          | None =>
              console_error
                "[2FA Setup] Missing encryption key; cannot proceed with two factor setup." ;;;
              ret (json (ErrorBody InternalServerError) 500)
          end
    end.

(** The outer [try] block. *)
Definition setup : M Response :=
  requestBody <- await parseRequestData ;;
  console_log "[2FA Setup] Body parsed successfully" ;;;
  session <- await getServerSession ;;
  console_log "[2FA Setup] Session retrieved:" ;;;
  match session with
  | None =>
      console_log "[2FA Setup] No session found" ;;;
      ret (json (MessageBody "Not authenticated") 401)
  | Some session =>
      match session_id session with
      | None =>
          console_error "[2FA Setup] Session is missing a user id." ;;;
          ret (json (ErrorBody InternalServerError) 500)
      | Some id =>
          console_log "[2FA Setup] User ID:" ;;;
          emit (RateLimitChecked (rate_limit_identifier id)) ;;;
          await (checkRateLimitAndThrowError (rate_limit_identifier id)) ;;;
          console_log "[2FA Setup] Rate limit check passed" ;;;
          user <- await (findUnique id) ;;
          console_log "[2FA Setup] User found:" ;;;
          match user with
          | None =>
              console_error "[2FA Setup] Session references user that no longer exists." ;;;
              ret (json (MessageBody "Not authenticated") 401)
          | Some user => check_user id requestBody user
          end
      end
  end.

Definition postHandler : M Response :=
  console_log "[2FA Setup] Starting 2FA setup handler" ;;;
  try_catch setup
    (fun error =>
       console_error "[2FA Setup] Unhandled error:" ;;;
       console_error "[2FA Setup] Error stack:" ;;;
       throw error).

End Route.

End TotpSetup.

(** Stand-ins for the calls of the two-factor setup route, and four
    requests: one that succeeds, one with a wrong password, one under a key
    that decodes to no bytes, and one without a session. *)
Module TotpSamples.
Import JS Eff Crypto TotpSetup.
Local Open Scope list_scope.

Definition alice : User :=
  {| user_id := 7;
     user_email := units "alice@example.com";
     username := None;
     identityProvider := CAL;
     password := Some {| hash := units "$2a$12$hash" |};
     twoFactorEnabled := false |}.

Definition request_body : outcome RequestBody :=
  Return {| body_password := Some (units "secret") |}.

Definition session_of_alice : outcome (option Session) :=
  Return (Some {| session_user := Some {| session_user_id := Some 7%Z |} |}).

Definition no_limit (identifier : string) : outcome unit := Return tt.

Definition find_alice (id : Z) : outcome (option User) :=
  if (id =? 7)%Z then Return (Some alice) else Return None.

Definition accept (plain : option ustring) (hashed : ustring) : outcome bool :=
  Return true.

Definition refuse (plain : option ustring) (hashed : ustring) : outcome bool :=
  Return false.

(** Thirty-two letters A. *)
Definition secret_of (n : nat) : ustring := repeat 65%Z 32.

Definition uri_of (name issuer secret : ustring) : ustring :=
  units "otpauth://totp/" ++ issuer ++ units ":" ++ name ++ units "?secret=" ++ secret.

Definition random_at (call n : nat) : Buffer := repeat Byte.x2a n.

(** The codes, one after the other. *)
Definition stringify (codes : list ustring) : ustring := List.concat codes.

Definition saved (id : Z) (data : UpdateData) : outcome unit := Return tt.

Definition qr (uri : ustring) : outcome ustring := Return (units "data:" ++ uri).

Definition valid_key : option ustring := Some CryptoSamples.key.

(** A key of one letter, which decodes to no bytes. *)
Definition invalid_key : option ustring := Some [65%Z].

Definition run (key : option ustring) (session : outcome (option Session))
    (verify : option ustring -> ustring -> outcome bool) : M Response :=
  postHandler key request_body session no_limit find_alice verify secret_of uri_of
    random_at stringify CryptoSamples.base64 CryptoSamples.cipher saved qr.

Definition successful : M Response := run valid_key session_of_alice accept.
Definition wrong_password : M Response := run valid_key session_of_alice refuse.
Definition under_invalid_key : M Response := run invalid_key session_of_alice accept.
Definition anonymous : M Response := run valid_key (Return None) accept.

End TotpSamples.

(* ================================================================== *)
(** * Properties *)
(* ================================================================== *)

(** ** Strings *)

Module StringFacts.
Import JS Trigger.

Lemma startsWith_app sub post : startsWith (sub ++ post) sub = true.
Proof.
  induction sub as [|c sub IH]; simpl; [reflexivity|].
  now rewrite Ascii.eqb_refl.
Qed.

Lemma startsWith_split sub : forall s, startsWith s sub = true -> exists post, s = sub ++ post.
Proof.
  induction sub as [|c sub IH]; intros s H; simpl in *.
  - now exists s.
  - destruct s as [|d s]; [discriminate|].
    apply andb_prop in H as [E H]. apply Ascii.eqb_eq in E as ->.
    destruct (IH _ H) as [post ->]. now exists post.
Qed.

Lemma includes_occurs s sub : includes s sub = true <-> occurs_in sub s.
Proof.
  split.
  - induction s as [|c s IH]; simpl; intros H.
    + destruct (startsWith "" sub) eqn:P; [|discriminate].
      destruct (startsWith_split _ _ P) as [post E]. exists "", post. exact E.
    + destruct (startsWith (String c s) sub) eqn:P.
      * destruct (startsWith_split _ _ P) as [post E]. exists "", post. exact E.
      * destruct (IH H) as (pre & post & ->). exists (String c pre), post. reflexivity.
  - intros (pre & post & ->). induction pre as [|c pre IH].
    + change ("" ++ sub ++ post) with (sub ++ post).
      destruct (sub ++ post) eqn:E; simpl; rewrite <- E, startsWith_app; reflexivity.
    + change (String c pre ++ sub ++ post) with (String c (pre ++ sub ++ post)).
      cbn [includes]. fold (includes (pre ++ sub ++ post) sub). rewrite IH.
      destruct (startsWith _ sub); reflexivity.
Qed.

Lemma upper_ascii_idem c : upper_ascii (upper_ascii c) = upper_ascii c.
Proof. destruct c as [[] [] [] [] [] [] [] []]; reflexivity. Qed.

Lemma upper_ascii_ws c : is_whitespace (upper_ascii c) = is_whitespace c.
Proof. destruct c as [[] [] [] [] [] [] [] []]; reflexivity. Qed.

Lemma upper_ascii_ascii c : is_ascii_char (upper_ascii c) = is_ascii_char c.
Proof. destruct c as [[] [] [] [] [] [] [] []]; reflexivity. Qed.

(** *** The two functions on ASCII text *)

Lemma ascii_toUpperCase_idem s :
  ascii_toUpperCase (ascii_toUpperCase s) = ascii_toUpperCase s.
Proof. induction s; simpl; [|rewrite upper_ascii_idem, IHs]; reflexivity. Qed.

Lemma ascii_replace_upper_commute s :
  forall b,
    ascii_replace_ws_from b (ascii_toUpperCase s)
    = ascii_toUpperCase (ascii_replace_ws_from b s).
Proof.
  induction s as [|c s IH]; intros b; simpl; [reflexivity|].
  rewrite upper_ascii_ws. destruct (is_whitespace c), b; simpl; rewrite ?IH; reflexivity.
Qed.

Lemma ascii_replace_ws_idem s :
  forall b,
    ascii_replace_ws_from false (ascii_replace_ws_from b s)
    = ascii_replace_ws_from b s.
Proof.
  induction s as [|c s IH]; intros b; simpl; [reflexivity|].
  destruct (is_whitespace c) eqn:W.
  - destruct b; simpl; rewrite ?IH; try reflexivity.
  - simpl. rewrite W, IH. reflexivity.
Qed.

Lemma ascii_toUpperCase_ascii s : is_ascii (ascii_toUpperCase s) = is_ascii s.
Proof.
  induction s as [|c s IH]; simpl; [reflexivity|].
  now rewrite upper_ascii_ascii, IH.
Qed.

Lemma ascii_replace_ws_ascii s :
  forall b, is_ascii s = true -> is_ascii (ascii_replace_ws_from b s) = true.
Proof.
  induction s as [|c s IH]; intros b H; simpl in *; [reflexivity|].
  apply andb_prop in H as [Hc Hs].
  destruct (is_whitespace c), b; simpl; rewrite ?Hc, ?IH; auto.
Qed.

(** *** On ASCII text the functions of the runtime are the ASCII ones *)

Lemma whitespace_length_ascii c rest :
  is_ascii_char c = true ->
  whitespace_length (String c rest) = if is_whitespace c then 1%nat else 0%nat.
Proof.
  intros H. unfold whitespace_length. destruct (is_whitespace c); [reflexivity|].
  destruct (next_two rest) as [b1 b2].
  unfold is_ascii_char in H. apply Nat.ltb_lt in H.
  repeat match goal with
         | |- context [(nat_of_ascii c =? ?k)%nat] =>
             destruct (Nat.eqb_spec (nat_of_ascii c) k); [lia|]
         end.
  reflexivity.
Qed.

Lemma replace_ws_ascii s :
  forall b, is_ascii s = true -> replace_ws_from b 0 s = ascii_replace_ws_from b s.
Proof.
  induction s as [|c s IH]; intros b H; [reflexivity|].
  cbn [is_ascii] in H. apply andb_prop in H as [Hc Hs].
  cbn [replace_ws_from ascii_replace_ws_from].
  rewrite (whitespace_length_ascii c s Hc).
  destruct (is_whitespace c), b; rewrite ?IH by exact Hs; reflexivity.
Qed.

Section CaseMapping.

Variable upper_non_ascii : string -> string.

Local Abbreviation toUpperCase := (JS.toUpperCase upper_non_ascii).
Local Abbreviation normal_form := (Trigger.normal_form upper_non_ascii).
Local Abbreviation normalizeTrigger := (Trigger.normalizeTrigger upper_non_ascii).

Lemma toUpperCase_ascii s : is_ascii s = true -> toUpperCase s = ascii_toUpperCase s.
Proof.
  unfold JS.toUpperCase. induction s as [|c s IH]; intros H; [reflexivity|].
  cbn [is_ascii] in H. apply andb_prop in H as [Hc Hs].
  cbn [toUpperCase_from ascii_toUpperCase]. rewrite Hc, (IH Hs). reflexivity.
Qed.

(** On an ASCII trigger the normal form is the ASCII upper case with its
    whitespace runs replaced. *)
Lemma normal_form_ascii t :
  is_ascii t = true ->
  normal_form t = ascii_replace_ws_runs (ascii_toUpperCase t).
Proof.
  intros H. unfold Trigger.normal_form, replace_ws_runs, ascii_replace_ws_runs.
  rewrite (toUpperCase_ascii t H). apply replace_ws_ascii.
  now rewrite ascii_toUpperCase_ascii.
Qed.

Lemma normal_form_upper t :
  is_ascii t = true -> normal_form (toUpperCase t) = normal_form t.
Proof.
  intros H. rewrite (toUpperCase_ascii t H).
  rewrite !normal_form_ascii by (rewrite ?ascii_toUpperCase_ascii; exact H).
  now rewrite ascii_toUpperCase_idem.
Qed.

Lemma normal_form_replace t :
  is_ascii t = true -> normal_form (replace_ws_runs t) = normal_form t.
Proof.
  intros H. unfold replace_ws_runs at 1. rewrite (replace_ws_ascii t false H).
  rewrite !normal_form_ascii by (try apply ascii_replace_ws_ascii; exact H).
  unfold ascii_replace_ws_runs.
  now rewrite ascii_replace_upper_commute, ascii_replace_ws_idem,
    <- ascii_replace_upper_commute.
Qed.

Lemma toUpperCase_truthy t :
  is_ascii t = true -> str_truthy (toUpperCase t) = str_truthy t.
Proof. intros H. rewrite (toUpperCase_ascii t H). destruct t; reflexivity. Qed.

Lemma replace_ws_truthy t :
  is_ascii t = true -> str_truthy (replace_ws_runs t) = str_truthy t.
Proof.
  intros H. unfold replace_ws_runs. rewrite (replace_ws_ascii t false H).
  destruct t as [|c t]; [reflexivity|].
  simpl. destruct (is_whitespace c); reflexivity.
Qed.

(** The classification depends on the trigger through its normal form (and
    on whether it is empty) only. *)
Lemma normalizeTrigger_normal_form t u :
  str_truthy t = str_truthy u -> normal_form t = normal_form u ->
  normalizeTrigger (Some t) = normalizeTrigger (Some u).
Proof. intros H1 H2. unfold Trigger.normalizeTrigger, truthy. now rewrite H1, H2. Qed.

End CaseMapping.

End StringFacts.

(** ** The effect monad *)

Module EffFacts.
Import JS Eff.

Lemma bind_emit {B} (ev : Event) (k : unit -> M B) :
  bind (emit ev) k = (ev :: trace (k tt), result (k tt)).
Proof. unfold bind, emit, trace, result. destruct (k tt); reflexivity. Qed.

Lemma bind_run {A B} (tr : list Event) (a : A) (k : A -> M B) :
  bind (tr, Return a) k = ((tr ++ trace (k a))%list, result (k a)).
Proof. unfold bind, trace, result. destruct (k a); reflexivity. Qed.

Lemma trace_try_catch {A} (m : M A) (h : Error -> M A) :
  trace (try_catch m h)
  = (trace m ++ match result m with
                | Return _ => []
                | Throw e => trace (h e)
                end)%list.
Proof.
  destruct m as [tr [a|e]]; unfold try_catch, trace, result; simpl.
  - now rewrite app_nil_r.
  - destruct (h e); reflexivity.
Qed.

Lemma result_try_catch {A} (m : M A) (h : Error -> M A) :
  result (try_catch m h)
  = match result m with
    | Return a => Return a
    | Throw e => result (h e)
    end.
Proof.
  destruct m as [tr [a|e]]; unfold try_catch, trace, result; simpl.
  - reflexivity.
  - destruct (h e); reflexivity.
Qed.

Lemma trace_bind {A B} (m : M A) (k : A -> M B) :
  trace (bind m k)
  = (trace m ++ match result m with
                | Return a => trace (k a)
                | Throw _ => []
                end)%list.
Proof.
  destruct m as [tr [a|e]]; unfold bind, trace, result; simpl.
  - destruct (k a); reflexivity.
  - now rewrite app_nil_r.
Qed.

Lemma result_bind {A B} (m : M A) (k : A -> M B) :
  result (bind m k)
  = match result m with
    | Return a => result (k a)
    | Throw e => Throw e
    end.
Proof.
  destruct m as [tr [a|e]]; unfold bind, trace, result; simpl.
  - destruct (k a); reflexivity.
  - reflexivity.
Qed.

Lemma invites_cons ev tr :
  invites (ev :: tr)
  = match ev with
    | CreateEventCalled a => a :: invites tr
    | _ => invites tr
    end.
Proof. destruct ev; reflexivity. Qed.

Lemma invites_app tr1 tr2 : invites (tr1 ++ tr2) = (invites tr1 ++ invites tr2)%list.
Proof. apply flat_map_app. Qed.

Lemma emails_app tr1 tr2 : emails (tr1 ++ tr2) = (emails tr1 ++ emails tr2)%list.
Proof. apply flat_map_app. Qed.

End EffFacts.

(** ** Time values *)

Module DateFacts.
Import DateTime.
Local Open Scope Z_scope.

Lemma DayFromYear_succ y : DayFromYear (y + 1) = DayFromYear y + DaysInYear y.
Proof.
  unfold DayFromYear, DaysInYear, is_leap.
  destruct (Z.eqb_spec (y mod 4) 0), (Z.eqb_spec (y mod 100) 0),
    (Z.eqb_spec (y mod 400) 0); cbn [andb orb negb];
    Z.div_mod_to_equations; lia.
Qed.

Lemma DaysInYear_cases y : DaysInYear y = 365 \/ DaysInYear y = 366.
Proof. unfold DaysInYear. destruct (is_leap y); auto. Qed.

Lemma year_estimate y d :
  DayFromYear y <= d < DayFromYear (y + 1) ->
  y - 1 <= d * 10000 / 3652425 + 1970 <= y + 1.
Proof. unfold DayFromYear. intros H. Z.div_mod_to_equations. lia. Qed.

(** [YearFromDay] finds the year whose days contain [d]. *)
Lemma YearFromDay_correct y d :
  DayFromYear y <= d < DayFromYear (y + 1) -> YearFromDay d = y.
Proof.
  intros H. pose proof (year_estimate y d H) as E.
  unfold YearFromDay. set (y0 := d * 10000 / 3652425 + 1970) in *.
  assert (C : y0 = y - 1 \/ y0 = y \/ y0 = y + 1) by lia.
  pose proof (DayFromYear_succ y) as S1.
  pose proof (DayFromYear_succ (y - 1)) as S0.
  replace (y - 1 + 1) with y in S0 by lia.
  pose proof (DaysInYear_cases y). pose proof (DaysInYear_cases (y - 1)).
  destruct C as [-> | [-> | ->]].
  - destruct (Z.ltb_spec d (DayFromYear (y - 1))); [lia|].
    destruct (Z.leb_spec (DayFromYear (y - 1) + DaysInYear (y - 1)) d); lia.
  - destruct (Z.ltb_spec d (DayFromYear y)); [lia|].
    destruct (Z.leb_spec (DayFromYear y + DaysInYear y) d); lia.
  - destruct (Z.ltb_spec d (DayFromYear (y + 1))); lia.
Qed.

Lemma Day_MakeDate day time :
  0 <= time < msPerDay -> Day (MakeDate day time) = day.
Proof.
  unfold Day, MakeDate, msPerDay. intros H. Z.div_mod_to_equations. lia.
Qed.

Lemma MakeTime_range h m s ms :
  0 <= h < 24 -> 0 <= m < 60 -> 0 <= s < 60 -> 0 <= ms < 1000 ->
  0 <= MakeTime h m s ms < msPerDay.
Proof.
  unfold MakeTime, msPerDay, msPerHour, msPerMinute, msPerSecond. lia.
Qed.

Lemma HourFromTime_MakeDate day h m s ms :
  0 <= h < 24 -> 0 <= m < 60 -> 0 <= s < 60 -> 0 <= ms < 1000 ->
  HourFromTime (MakeDate day (MakeTime h m s ms)) = h.
Proof.
  unfold HourFromTime, MakeDate, MakeTime, msPerDay, msPerHour, msPerMinute,
    msPerSecond. intros. Z.div_mod_to_equations. lia.
Qed.

Lemma MinFromTime_MakeDate day h m s ms :
  0 <= h < 24 -> 0 <= m < 60 -> 0 <= s < 60 -> 0 <= ms < 1000 ->
  MinFromTime (MakeDate day (MakeTime h m s ms)) = m.
Proof.
  unfold MinFromTime, MakeDate, MakeTime, msPerDay, msPerHour, msPerMinute,
    msPerSecond. intros. Z.div_mod_to_equations. lia.
Qed.

Lemma month_cases m :
  0 <= m <= 11 ->
  m = 0 \/ m = 1 \/ m = 2 \/ m = 3 \/ m = 4 \/ m = 5 \/ m = 6 \/ m = 7 \/
  m = 8 \/ m = 9 \/ m = 10 \/ m = 11.
Proof. lia. Qed.

Ltac each_month H :=
  destruct (month_cases _ H) as
    [-> | [-> | [-> | [-> | [-> | [-> | [-> | [-> | [-> | [-> | [-> | ->]]]]]]]]]]].

Lemma MakeDay_in_year y m d :
  0 <= m <= 11 -> 1 <= d <= days_in_month y m ->
  DayFromYear y <= MakeDay y m d < DayFromYear (y + 1).
Proof.
  intros Hm Hd. rewrite DayFromYear_succ. unfold MakeDay, DaysInYear.
  each_month Hm; cbn [days_in_month days_before_month] in *;
    destruct (is_leap y); lia.
Qed.

Section Civil.

Variables y m d : Z.
Hypothesis Hm : 0 <= m <= 11.
Hypothesis Hd : 1 <= d <= days_in_month y m.
Variable time : Z.
Hypothesis Ht : 0 <= time < msPerDay.

Local Abbreviation t := (MakeDate (MakeDay y m d) time).

Lemma YearFromTime_MakeDate : YearFromTime t = y.
Proof.
  unfold YearFromTime. rewrite Day_MakeDate by exact Ht.
  apply YearFromDay_correct, MakeDay_in_year; assumption.
Qed.

Lemma DayWithinYear_MakeDate : DayWithinYear t = days_before_month y m + d - 1.
Proof.
  unfold DayWithinYear. rewrite YearFromTime_MakeDate.
  rewrite Day_MakeDate by exact Ht. unfold MakeDay. lia.
Qed.

Lemma InLeapYear_MakeDate : InLeapYear t = if is_leap y then 1 else 0.
Proof. unfold InLeapYear. now rewrite YearFromTime_MakeDate. Qed.

Lemma MonthFromTime_MakeDate : MonthFromTime t = m.
Proof.
  unfold MonthFromTime. rewrite DayWithinYear_MakeDate, InLeapYear_MakeDate.
  revert Hd. each_month Hm; cbn [days_in_month days_before_month];
    destruct (is_leap y); intros Hd;
    repeat match goal with
           | |- context [?a <? ?b] => destruct (Z.ltb_spec a b); try lia
           end.
Qed.

Lemma DateFromTime_MakeDate : DateFromTime t = d.
Proof.
  unfold DateFromTime.
  rewrite MonthFromTime_MakeDate, DayWithinYear_MakeDate, InLeapYear_MakeDate.
  each_month Hm; cbn [days_before_month]; destruct (is_leap y); lia.
Qed.

End Civil.

(** The getters on some known instants: the epoch, the millisecond before
    it, a leap day of a century year, the last millisecond of a leap day,
    and the first instant of a century year that is not leap. *)
Lemma toDateArray_vectors :
  Ics.toDateArray (ValidDate 0) = (Num 1970, Num 1, Num 1, Num 0, Num 0) /\
  Ics.toDateArray (ValidDate (-1)) = (Num 1969, Num 12, Num 31, Num 23, Num 59) /\
  Ics.toDateArray (ValidDate 951782400000) = (Num 2000, Num 2, Num 29, Num 0, Num 0) /\
  Ics.toDateArray (ValidDate 1709251199999) = (Num 2024, Num 2, Num 29, Num 23, Num 59) /\
  Ics.toDateArray (ValidDate 4102444800000) = (Num 2100, Num 1, Num 1, Num 0, Num 0) /\
  Ics.toDateArray InvalidDate = (NaN, NaN, NaN, NaN, NaN).
Proof. repeat split; reflexivity. Qed.

(** The getters undo [instant_of] at offset 0. *)
Lemma toDateArray_utc (c : Civil) :
  valid_civil c ->
  Ics.toDateArray (ValidDate (instant_of c 0)) = Ics.fields_of c.
Proof.
  intros (Hm & Hd & Hh & Hmi & Hs & Hms).
  assert (Ht : 0 <= MakeTime (c_hour c) (c_minute c) (c_second c) (c_ms c) < msPerDay)
    by now apply MakeTime_range.
  assert (Hm' : 0 <= c_month c - 1 <= 11) by lia.
  unfold instant_of. rewrite Z.mul_0_l, Z.sub_0_r.
  unfold Ics.toDateArray, Ics.fields_of, getUTCFullYear, getUTCMonth, getUTCDate,
    getUTCHours, getUTCMinutes, getter, succ_num.
  rewrite (YearFromTime_MakeDate _ _ _ Hm' Hd _ Ht),
    (MonthFromTime_MakeDate _ _ _ Hm' Hd _ Ht),
    (DateFromTime_MakeDate _ _ _ Hm' Hd _ Ht),
    HourFromTime_MakeDate, MinFromTime_MakeDate by assumption.
  now replace (c_month c - 1 + 1) with (c_month c) by lia.
Qed.

End DateFacts.

(** ** The invite builder *)

Module IcsFacts.
Import JS DateTime Ics Eff.

Lemma buildIcsString_run createEvent params :
  IcsBuilder.buildIcsString createEvent params
  = ([CreateEventCalled (event_attributes params)],
     match error (createEvent (event_attributes params)) with
     | Some e => Throw e
     | None => Return (or_default (value (createEvent (event_attributes params))) "")
     end).
Proof.
  unfold IcsBuilder.buildIcsString. rewrite EffFacts.bind_emit.
  destruct (error _); reflexivity.
Qed.

(** C5. Whatever offset the start and end instants were written at, the
    invite spells them in UTC: when [utc_s] and [utc_e] are the UTC readings
    of the two instants, the attributes handed to [createEvent] hold the
    fields (year, month from 1, day, hour, minute) of [utc_s] and [utc_e],
    marked utc; the attendee is DECLINED and the time FREE for the status
    CANCELLED, ACCEPTED and BUSY for any other status. *)
Theorem invite_encoding (params : WebhookIcsParams)
    (local_s local_e utc_s utc_e : Civil) (offset_s offset_e : Z) :
  valid_civil utc_s -> valid_civil utc_e ->
  start params = ValidDate (instant_of local_s offset_s) ->
  instant_of local_s offset_s = instant_of utc_s 0 ->
  end_ params = ValidDate (instant_of local_e offset_e) ->
  instant_of local_e offset_e = instant_of utc_e 0 ->
  ev_start (event_attributes params) = fields_of utc_s /\
  ev_end (event_attributes params) = fields_of utc_e /\
  ev_startInputType (event_attributes params) = "utc" /\
  map att_partstat (ev_attendees (event_attributes params))
  = [match status params with CANCELLED => DECLINED | _ => ACCEPTED end] /\
  ev_busyStatus (event_attributes params)
  = match status params with CANCELLED => FREE | _ => BUSY end /\
  forall createEvent,
    invites (trace (IcsBuilder.buildIcsString createEvent params))
    = [event_attributes params].
Proof.
  intros Vs Ve Hs Es He Ee.
  assert (S : toDateArray (start params) = fields_of utc_s)
    by (rewrite Hs, Es; now apply DateFacts.toDateArray_utc).
  assert (E : toDateArray (end_ params) = fields_of utc_e)
    by (rewrite He, Ee; now apply DateFacts.toDateArray_utc).
  split; [exact S|]. split; [exact E|]. split; [reflexivity|].
  split; [|split].
  - cbn [event_attributes ev_attendees map att_partstat].
    now destruct (status params).
  - cbn [event_attributes ev_busyStatus]. now destruct (status params).
  - intros createEvent. now rewrite buildIcsString_run.
Qed.

(** C5 on the invite from 15:00 to 15:30 UTC on 2024-01-01, the start
    written at -05:00 and the end at +01:00, confirmed and cancelled. *)
Lemma invite_encoding_witness :
  ev_start (event_attributes (Samples.invite_params CONFIRMED REQUEST))
  = (Num 2024, Num 1, Num 1, Num 15, Num 0) /\
  ev_end (event_attributes (Samples.invite_params CONFIRMED REQUEST))
  = (Num 2024, Num 1, Num 1, Num 15, Num 30) /\
  map att_partstat
    (ev_attendees (event_attributes (Samples.invite_params CANCELLED CANCEL)))
  = [DECLINED] /\
  ev_busyStatus (event_attributes (Samples.invite_params CANCELLED CANCEL)) = FREE.
Proof.
  assert (V : valid_civil Samples.utc_1500 /\ valid_civil Samples.utc_1530)
    by (unfold valid_civil; cbn; lia).
  destruct V as [V1 V2].
  destruct (invite_encoding (Samples.invite_params CONFIRMED REQUEST)
              Samples.new_york_1000 Samples.paris_1630
              Samples.utc_1500 Samples.utc_1530 (-300) 60
              V1 V2 eq_refl eq_refl eq_refl eq_refl) as (S & E & _).
  destruct (invite_encoding (Samples.invite_params CANCELLED CANCEL)
              Samples.new_york_1000 Samples.paris_1630
              Samples.utc_1500 Samples.utc_1530 (-300) 60
              V1 V2 eq_refl eq_refl eq_refl eq_refl) as (_ & _ & _ & P & B & _).
  exact (conj S (conj E (conj P B))).
Defined.

End IcsFacts.

(** ** The email wrapper *)

Module PostmarkFacts.
Import JS Ics PostmarkData Eff Postmark EffFacts.

(** The test vectors of RFC 4648, section 10. *)
Lemma base64_encode_vectors :
  base64_encode "" = "" /\
  base64_encode "f" = "Zg==" /\
  base64_encode "fo" = "Zm8=" /\
  base64_encode "foo" = "Zm9v" /\
  base64_encode "foob" = "Zm9vYg==" /\
  base64_encode "fooba" = "Zm9vYmE=" /\
  base64_encode "foobar" = "Zm9vYmFy".
Proof. repeat split; reflexivity. Qed.

Section WrapperFacts.

Variable fetch : string -> string -> PostmarkMessage -> outcome FetchResponse.
Variable JSON_stringify : PostmarkResponse -> string.

Local Abbreviation sendPostmarkEmail := (Postmark.sendPostmarkEmail fetch JSON_stringify).

Lemma sendPostmarkEmail_emails env params token :
  present (POSTMARK_SERVER_API_TOKEN env) = Some token ->
  trace (sendPostmarkEmail env params)
  = [FetchCalled postmark_url token (message_of params)].
Proof.
  intros H. unfold Postmark.sendPostmarkEmail. rewrite H, bind_emit.
  cbn [trace fst]. f_equal.
  destruct (fetch _ _ _) as [r|e]; [|reflexivity].
  destruct (negb _); reflexivity.
Qed.

(** C8. A call of the wrapper (with the API token configured) submits one
    message.  When a calendar document is present (a non-empty string), the
    message has exactly one attachment: it is named invite.ics, its content
    is the base64 encoding of the document, and its content type is
    text/calendar with the method parameter (REQUEST when none is given)
    and the charset utf-8 in quotes.  When no document is present the
    message has no Attachments key. *)
Theorem calendar_attachment env params token :
  present (POSTMARK_SERVER_API_TOKEN env) = Some token ->
  emails (trace (sendPostmarkEmail env params)) = [message_of params] /\
  (forall doc,
      present (icsContent params) = Some doc ->
      Attachments (message_of params)
      = Some [ {| Name := "invite.ics";
                  Content := base64_encode doc;
                  ContentType :=
                    "text/calendar; method="
                    ++ match icsMethod params with
                       | Some REQUEST => "REQUEST"
                       | Some CANCEL => "CANCEL"
                       | None => "REQUEST"
                       end
                    ++ "; charset=" ++ dquote ++ "utf-8" ++ dquote |} ]) /\
  (present (icsContent params) = None ->
   Attachments (message_of params) = None).
Proof.
  intros H. split; [|split].
  - now rewrite (sendPostmarkEmail_emails env params token H).
  - intros doc Hd. unfold message_of, attachments_of. rewrite Hd.
    cbn [List.length Nat.ltb Nat.leb]. unfold calendar_content_type.
    now destruct (icsMethod params) as [[]|].
  - intros Hd. unfold message_of, attachments_of. now rewrite Hd.
Qed.

End WrapperFacts.

(** C8 on an email with a document and no method, and on one without a
    document. *)
Lemma calendar_attachment_witness :
  Attachments (message_of Samples.email_with_invite)
  = Some [ {| Name := "invite.ics";
              Content := "QkVHSU46VkNBTEVOREFS";
              ContentType :=
                "text/calendar; method=REQUEST; charset="
                ++ dquote ++ "utf-8" ++ dquote |} ] /\
  Attachments (message_of Samples.email_without_invite) = None.
Proof.
  destruct (calendar_attachment Samples.fetch_ok Samples.stringify
              Samples.env_full Samples.email_with_invite "pm-token" eq_refl)
    as (_ & A & _).
  destruct (calendar_attachment Samples.fetch_ok Samples.stringify
              Samples.env_full Samples.email_without_invite "pm-token" eq_refl)
    as (_ & _ & N).
  split.
  - exact (A "BEGIN:VCALENDAR" eq_refl).
  - exact (N eq_refl).
Defined.

End PostmarkFacts.

(** ** Bytes, hexadecimal and UTF-8 *)

Module BufferFacts.
Import JS Eff Crypto.
Local Open Scope Z_scope.
Local Open Scope list_scope.

(** *** Bytes *)

Lemma byte_of_Z_of_byte b : byte_of_Z (Z_of_byte b) = b.
Proof.
  unfold byte_of_Z, Z_of_byte. rewrite N2Z.id, Byte.of_to_N. reflexivity.
Qed.

Lemma Z_of_byte_of_Z z : 0 <= z < 256 -> Z_of_byte (byte_of_Z z) = z.
Proof.
  intros H. unfold byte_of_Z, Z_of_byte.
  destruct (Byte.of_N (Z.to_N z)) as [b|] eqn:E.
  - apply Byte.to_of_N in E. rewrite E. lia.
  - apply Byte.of_N_None_iff in E. lia.
Qed.

Lemma map_Z_of_byte_of_Z l :
  Forall (fun z => 0 <= z < 256) l -> map Z_of_byte (map byte_of_Z l) = l.
Proof.
  induction 1 as [|z l Hz _ IH]; cbn [map]; [reflexivity|].
  now rewrite Z_of_byte_of_Z, IH.
Qed.

(** *** Hexadecimal *)

Lemma hex_decode_pair b rest :
  hex_decode (hex_digit (Z_of_byte b / 16) :: hex_digit (Z_of_byte b mod 16) :: rest)
  = b :: hex_decode rest.
Proof. destruct b; reflexivity. Qed.

Lemma hex_decode_encode buf : hex_decode (hex_encode buf) = buf.
Proof.
  induction buf as [|b buf IH]; [reflexivity|].
  unfold hex_encode in *. cbn [flat_map app].
  now rewrite hex_decode_pair, IH.
Qed.

Lemma hex_encode_even buf : Nat.odd (List.length (hex_encode buf)) = false.
Proof.
  induction buf as [|b buf IH]; [reflexivity|].
  unfold hex_encode in *. cbn [flat_map app List.length].
  now rewrite Nat.odd_succ_succ.
Qed.

Lemma hex_digits_no_colon b :
  hex_digit (Z_of_byte b / 16) <> colon /\ hex_digit (Z_of_byte b mod 16) <> colon.
Proof. destruct b; split; discriminate. Qed.

Lemma hex_encode_no_colon buf : Forall (fun c => c <> colon) (hex_encode buf).
Proof.
  induction buf as [|b buf IH]; [constructor|].
  unfold hex_encode in *. cbn [flat_map app].
  destruct (hex_digits_no_colon b). repeat constructor; assumption.
Qed.

(** *** [split] and [join] *)

Lemma split_colon_no_colon s :
  Forall (fun c => c <> colon) s -> split_colon s = [s].
Proof.
  induction 1 as [|c s Hc _ IH]; [reflexivity|].
  cbn [split_colon]. rewrite IH. destruct (Z.eqb_spec c colon); [contradiction|reflexivity].
Qed.

Lemma split_colon_app a b :
  Forall (fun c => c <> colon) a ->
  split_colon (a ++ colon :: b) = a :: split_colon b.
Proof.
  induction 1 as [|c a Hc _ IH]; cbn [app split_colon].
  - now rewrite Z.eqb_refl.
  - rewrite IH. destruct (Z.eqb_spec c colon); [contradiction|reflexivity].
Qed.

(** The ciphertext format comes apart again. *)
Lemma split_ciphertext iv ct :
  split_colon (hex_encode iv ++ colon :: hex_encode ct)
  = [hex_encode iv; hex_encode ct].
Proof.
  rewrite split_colon_app by apply hex_encode_no_colon.
  now rewrite split_colon_no_colon by apply hex_encode_no_colon.
Qed.

End BufferFacts.

Module Utf8Facts.
Import JS Eff Crypto.
Local Open Scope Z_scope.
Local Open Scope list_scope.

Ltac decide_tests :=
  repeat match goal with
         | |- context [?a <=? ?b] => destruct (Z.leb_spec a b); try lia
         | |- context [?a <? ?b] => destruct (Z.ltb_spec a b); try lia
         | |- context [?a =? ?b] => destruct (Z.eqb_spec a b); try lia
         end.

Lemma decode_from_first b rest :
  decode_from Idle (b :: rest)
  = fst (snd (first_byte b), fst (first_byte b)) ++ decode_from (fst (first_byte b)) rest.
Proof. cbn [decode_from decode_step fst snd]. now destruct (first_byte b). Qed.

Lemma decode_encode_1 cp rest :
  0 <= cp < 0x80 ->
  decode_from Idle (cp :: rest) = cp :: decode_from Idle rest.
Proof.
  intros H. rewrite decode_from_first. unfold first_byte.
  destruct (Z.leb_spec cp 0x7F); [reflexivity|lia].
Qed.

Lemma continuation cp n lo hi x rest :
  0 <= x < 64 -> lo <= 0x80 + x <= hi ->
  decode_from (Pending cp n lo hi) (0x80 + x :: rest)
  = match n with
    | S (S k) => decode_from (Pending (cp * 64 + x) (S k) 0x80 0xBF) rest
    | _ => (cp * 64 + x) :: decode_from Idle rest
    end.
Proof.
  intros Hx Hr. cbn [decode_from decode_step].
  destruct (Z.leb_spec lo (0x80 + x)); [|lia].
  destruct (Z.leb_spec (0x80 + x) hi); [|lia]. cbn [andb].
  replace ((0x80 + x) mod 64) with x by (Z.div_mod_to_equations; lia).
  destruct n as [|[|k]]; reflexivity.
Qed.

Lemma decode_encode_2 cp rest :
  0x80 <= cp < 0x800 ->
  decode_from Idle (0xC0 + cp / 64 :: 0x80 + cp mod 64 :: rest)
  = cp :: decode_from Idle rest.
Proof.
  intros H.
  assert (Hq : 2 <= cp / 64 < 32) by (Z.div_mod_to_equations; lia).
  assert (Hr : 0 <= cp mod 64 < 64) by (Z.div_mod_to_equations; lia).
  rewrite decode_from_first. unfold first_byte.
  destruct (Z.leb_spec (0xC0 + cp / 64) 0x7F); [lia|].
  destruct (Z.leb_spec 0xC2 (0xC0 + cp / 64)); [|lia].
  destruct (Z.leb_spec (0xC0 + cp / 64) 0xDF); [|lia]. cbn [andb app fst snd].
  rewrite continuation by lia.
  replace ((0xC0 + cp / 64) mod 32 * 64 + cp mod 64) with cp
    by (Z.div_mod_to_equations; lia).
  reflexivity.
Qed.

Lemma decode_encode_3 cp rest :
  0x800 <= cp < 0x10000 -> ~ (0xD800 <= cp <= 0xDFFF) ->
  decode_from Idle
    (0xE0 + cp / 4096 :: 0x80 + (cp / 64) mod 64 :: 0x80 + cp mod 64 :: rest)
  = cp :: decode_from Idle rest.
Proof.
  intros H S.
  assert (Hq : 0 <= cp / 4096 < 16) by (Z.div_mod_to_equations; lia).
  assert (Hm : 0 <= (cp / 64) mod 64 < 64) by (Z.div_mod_to_equations; lia).
  assert (Hr : 0 <= cp mod 64 < 64) by (Z.div_mod_to_equations; lia).
  rewrite decode_from_first. unfold first_byte.
  destruct (Z.leb_spec (0xE0 + cp / 4096) 0x7F); [lia|].
  destruct (Z.leb_spec 0xC2 (0xE0 + cp / 4096)); [|lia].
  destruct (Z.leb_spec (0xE0 + cp / 4096) 0xDF); [lia|].
  destruct (Z.leb_spec 0xE0 (0xE0 + cp / 4096)); [|lia].
  destruct (Z.leb_spec (0xE0 + cp / 4096) 0xEF); [|lia]. cbn [andb app fst snd].
  rewrite continuation.
  - rewrite continuation by lia.
    replace (((0xE0 + cp / 4096) mod 16 * 64 + (cp / 64) mod 64) * 64 + cp mod 64)
      with cp by (Z.div_mod_to_equations; lia).
    reflexivity.
  - exact Hm.
  - destruct (Z.eqb_spec (0xE0 + cp / 4096) 0xE0), (Z.eqb_spec (0xE0 + cp / 4096) 0xED);
      Z.div_mod_to_equations; lia.
Qed.

Lemma decode_encode_4 cp rest :
  0x10000 <= cp <= 0x10FFFF ->
  decode_from Idle
    (0xF0 + cp / 262144 :: 0x80 + (cp / 4096) mod 64 :: 0x80 + (cp / 64) mod 64
       :: 0x80 + cp mod 64 :: rest)
  = cp :: decode_from Idle rest.
Proof.
  intros H.
  assert (Hq : 0 <= cp / 262144 <= 4) by (Z.div_mod_to_equations; lia).
  assert (Hp : 0 <= (cp / 4096) mod 64 < 64) by (Z.div_mod_to_equations; lia).
  assert (Hm : 0 <= (cp / 64) mod 64 < 64) by (Z.div_mod_to_equations; lia).
  assert (Hr : 0 <= cp mod 64 < 64) by (Z.div_mod_to_equations; lia).
  rewrite decode_from_first. unfold first_byte.
  destruct (Z.leb_spec (0xF0 + cp / 262144) 0x7F); [lia|].
  destruct (Z.leb_spec 0xC2 (0xF0 + cp / 262144)); [|lia].
  destruct (Z.leb_spec (0xF0 + cp / 262144) 0xDF); [lia|].
  destruct (Z.leb_spec 0xE0 (0xF0 + cp / 262144)); [|lia].
  destruct (Z.leb_spec (0xF0 + cp / 262144) 0xEF); [lia|].
  destruct (Z.leb_spec 0xF0 (0xF0 + cp / 262144)); [|lia].
  destruct (Z.leb_spec (0xF0 + cp / 262144) 0xF4); [|lia]. cbn [andb app fst snd].
  rewrite continuation.
  - rewrite continuation by lia. rewrite continuation by lia.
    replace ((((0xF0 + cp / 262144) mod 8 * 64 + (cp / 4096) mod 64) * 64
              + (cp / 64) mod 64) * 64 + cp mod 64)
      with cp by (Z.div_mod_to_equations; lia).
    reflexivity.
  - exact Hp.
  - destruct (Z.eqb_spec (0xF0 + cp / 262144) 0xF0),
      (Z.eqb_spec (0xF0 + cp / 262144) 0xF4); Z.div_mod_to_equations; lia.
Qed.

(** The decoder reads back what the encoder wrote for one code point. *)
Lemma decode_encode_code_point cp rest :
  scalar cp ->
  decode_from Idle (encode_code_point cp ++ rest) = cp :: decode_from Idle rest.
Proof.
  intros S. unfold encode_code_point.
  destruct (Z.ltb_spec cp 0x80).
  - apply decode_encode_1. unfold scalar in S. lia.
  - destruct (Z.ltb_spec cp 0x800).
    + apply decode_encode_2. lia.
    + destruct (Z.ltb_spec cp 0x10000).
      * apply decode_encode_3; unfold scalar in S; lia.
      * apply decode_encode_4. unfold scalar in S. lia.
Qed.

Lemma encode_code_point_bytes cp :
  0 <= cp <= 0x10FFFF -> Forall (fun z => 0 <= z < 256) (encode_code_point cp).
Proof.
  intros H. unfold encode_code_point.
  destruct (Z.ltb_spec cp 0x80); [|destruct (Z.ltb_spec cp 0x800);
    [|destruct (Z.ltb_spec cp 0x10000)]];
    repeat constructor; Z.div_mod_to_equations; lia.
Qed.

Lemma decode_encode_code_points cps :
  Forall scalar cps ->
  decode_from Idle (flat_map encode_code_point cps) = cps.
Proof.
  induction 1 as [|cp cps Hc _ IH]; [reflexivity|].
  cbn [flat_map]. now rewrite decode_encode_code_point, IH.
Qed.

(** Induction on a well-formed string: it is empty, or starts with a code
    unit that is no surrogate, or with a surrogate pair. *)
Lemma well_formed_ind (P : ustring -> Prop) :
  P [] ->
  (forall u rest,
      is_high_surrogate u = false -> is_low_surrogate u = false ->
      isWellFormed rest = true -> P rest -> P (u :: rest)) ->
  (forall h l rest,
      is_high_surrogate h = true -> is_low_surrogate l = true ->
      isWellFormed rest = true -> P rest -> P (h :: l :: rest)) ->
  forall s, isWellFormed s = true -> P s.
Proof.
  intros H0 H1 H2 s.
  enough (G : forall n s, (List.length s <= n)%nat -> isWellFormed s = true -> P s)
    by (apply (G (List.length s)); lia).
  induction n as [|n IH]; intros [|u rest] L W; try exact H0; cbn [List.length] in L;
    [lia|].
  cbn [isWellFormed] in W.
  destruct (is_high_surrogate u) eqn:Eh.
  - destruct rest as [|l rest]; [discriminate|].
    apply andb_prop in W as [Wl W]. cbn [List.length] in L.
    apply H2; try assumption. apply IH; [lia|assumption].
  - destruct (is_low_surrogate u) eqn:El; [discriminate|].
    apply H1; try assumption. apply IH; [lia|assumption].
Qed.

Lemma surrogate_tests u :
  (is_high_surrogate u = true <-> 0xD800 <= u <= 0xDBFF) /\
  (is_low_surrogate u = true <-> 0xDC00 <= u <= 0xDFFF).
Proof. unfold is_high_surrogate, is_low_surrogate. lia. Qed.

Lemma surrogate_tests_false u :
  is_high_surrogate u = false -> is_low_surrogate u = false ->
  ~ (0xD800 <= u <= 0xDFFF).
Proof. unfold is_high_surrogate, is_low_surrogate. lia. Qed.

(** The code points of a well-formed string are scalar values, and their
    code units are the string. *)
Lemma code_points_well_formed s :
  isWellFormed s = true -> Forall is_code_unit s ->
  Forall scalar (code_points s) /\ flat_map code_units_of (code_points s) = s.
Proof.
  revert s.
  apply (well_formed_ind
           (fun s => Forall is_code_unit s ->
                     Forall scalar (code_points s) /\
                     flat_map code_units_of (code_points s) = s)).
  3: intros h l rest Eh El W IH U.
  2: intros u rest Eh El W IH U.
  1: intros U.
  - split; [constructor|reflexivity].
  - inversion U as [|? ? Hu Ur]; subst. destruct (IH Ur) as [IH1 IH2].
    cbn [code_points]. rewrite Eh, El. cbn [flat_map]. rewrite IH2.
    pose proof (surrogate_tests_false u Eh El). unfold is_code_unit in Hu.
    split.
    + constructor; [unfold scalar; lia|assumption].
    + unfold code_units_of. destruct (Z.ltb_spec u 0x10000); [reflexivity|lia].
  - inversion U as [|? ? Hh Ur']; subst. inversion Ur' as [|? ? Hl Ur]; subst.
    destruct (IH Ur) as [IH1 IH2].
    cbn [code_points]. rewrite Eh, El. cbn [flat_map]. rewrite IH2.
    apply surrogate_tests in Eh. apply surrogate_tests in El.
    split.
    + constructor; [unfold scalar; lia|assumption].
    + unfold code_units_of.
      destruct (Z.ltb_spec (65536 + (h - 55296) * 1024 + (l - 56320)) 65536); [lia|].
      cbn [app]. f_equal; [|f_equal]; Z.div_mod_to_equations; lia.
Qed.

Lemma scalar_range cp : scalar cp -> 0 <= cp <= 0x10FFFF.
Proof. unfold scalar. lia. Qed.

Lemma encode_bytes cps :
  Forall scalar cps ->
  Forall (fun z => 0 <= z < 256) (flat_map encode_code_point cps).
Proof.
  induction 1 as [|cp cps Hc _ IH]; [constructor|].
  cbn [flat_map]. apply Forall_app. split; [|exact IH].
  now apply encode_code_point_bytes, scalar_range.
Qed.

(** Decoding undoes encoding on a well-formed string. *)
Theorem utf8_round_trip s :
  isWellFormed s = true -> Forall is_code_unit s ->
  utf8_decode (utf8_encode s) = s.
Proof.
  intros W U. destruct (code_points_well_formed s W U) as [S E].
  unfold utf8_decode, utf8_encode.
  rewrite BufferFacts.map_Z_of_byte_of_Z by now apply encode_bytes.
  now rewrite decode_encode_code_points.
Qed.

(** An unpaired surrogate is encoded as U+FFFD is. *)
Lemma lone_surrogate_encoding :
  utf8_encode [0xD800] = utf8_encode [0xFFFD] /\
  utf8_decode (utf8_encode [0xD800]) = [0xFFFD].
Proof. split; reflexivity. Qed.

End Utf8Facts.

(** ** The receiver *)

Module WebhookFacts.
Import JS Trigger Eff Postmark Webhook EffFacts IcsFacts.

Lemma present_Some o s : present o = Some s -> o = Some s /\ str_truthy s = true.
Proof.
  unfold present, truthy. destruct o as [x|]; [|discriminate].
  destruct (str_truthy x) eqn:E; [|discriminate]. intros [= ->]. auto.
Qed.

Lemma timingSafeEqual_true a b : timingSafeEqual a b = true <-> a = b.
Proof.
  unfold timingSafeEqual, crypto_timingSafeEqual. split.
  - destruct (negb _); [discriminate|]. apply String.eqb_eq.
  - intros ->. rewrite Nat.eqb_refl. simpl. apply String.eqb_refl.
Qed.

(** Bytes that are the UTF-8 encoding of a string (one without unpaired
    surrogates) are the text they spell. *)
Lemma utf8_text_well_formed s :
  Crypto.isWellFormed s = true -> Forall Crypto.is_code_unit s ->
  utf8_text (string_of_list_byte (Crypto.utf8_encode s))
  = string_of_list_byte (Crypto.utf8_encode s).
Proof.
  intros W U. unfold utf8_text.
  now rewrite list_byte_of_string_of_list_byte, Utf8Facts.utf8_round_trip.
Qed.

Section ReceiverFacts.

Variable upper_non_ascii : string -> string.
Variable hmac_sha256_hex : string -> string -> string.
Variable JSON_parse : string -> option Parsed.
Variable Date_of_string : string -> DateTime.Date.
Variable toLocaleString : DateTime.Date -> string -> string.
Variable randomUUID : string.
Variable createEvent : Ics.EventAttributes -> Ics.CreateEventResult.
Variable fetch :
  string -> string -> PostmarkData.PostmarkMessage ->
  outcome PostmarkData.FetchResponse.
Variable JSON_stringify : PostmarkData.PostmarkResponse -> string.
Variable render : Template -> list string -> string.

Local Abbreviation toUpperCase := (JS.toUpperCase upper_non_ascii).
Local Abbreviation normal_form := (Trigger.normal_form upper_non_ascii).
Local Abbreviation normalizeTrigger := (Trigger.normalizeTrigger upper_non_ascii).
Local Abbreviation recognized := (Webhook.recognized upper_non_ascii).
Local Abbreviation handler :=
  (Webhook.handler upper_non_ascii hmac_sha256_hex JSON_parse Date_of_string
     toLocaleString randomUUID createEvent fetch JSON_stringify render).
Local Abbreviation process_event :=
  (Webhook.process_event upper_non_ascii Date_of_string toLocaleString
     randomUUID createEvent fetch JSON_stringify render).
Local Abbreviation dispatch :=
  (Webhook.dispatch toLocaleString createEvent fetch JSON_stringify render).
Local Abbreviation handleBookingCreated :=
  (Webhook.handleBookingCreated toLocaleString createEvent fetch JSON_stringify render).
Local Abbreviation handleBookingRescheduled :=
  (Webhook.handleBookingRescheduled toLocaleString createEvent fetch JSON_stringify
     render).
Local Abbreviation handleBookingCancelled :=
  (Webhook.handleBookingCancelled toLocaleString createEvent fetch JSON_stringify
     render).
Local Abbreviation notify := (Webhook.notify createEvent fetch JSON_stringify).
Local Abbreviation buildIcsString := (IcsBuilder.buildIcsString createEvent).
Local Abbreviation sendPostmarkEmail := (Postmark.sendPostmarkEmail fetch JSON_stringify).
Local Abbreviation authenticated := (Webhook.authenticated hmac_sha256_hex).
Local Abbreviation parses_to := (Webhook.parses_to JSON_parse).
Local Abbreviation parses_to_untyped := (Webhook.parses_to_untyped JSON_parse).

Lemma handler_rejects env req secret :
  method req = "POST" ->
  present (CAL_WEBHOOK_SECRET env) = Some secret ->
  x_cal_signature_256 req <> Some (hmac_sha256_hex secret (readRawBody req)) ->
  handler env req
  = ([HmacComputed secret (readRawBody req);
      ConsoleError "Invalid webhook signature"],
     Return {| status := 401; body := ErrorJson "Invalid signature" |}).
Proof.
  intros Hm Hs Hsig. unfold Webhook.handler. rewrite Hm, Hs. cbn [String.eqb negb].
  rewrite bind_emit.
  assert (G : negb (str_truthy (or_default (x_cal_signature_256 req) ""))
              || negb (timingSafeEqual (or_default (x_cal_signature_256 req) "")
                         (hmac_sha256_hex secret (readRawBody req))) = true).
  { destruct (x_cal_signature_256 req) as [sig|]; [|reflexivity].
    unfold or_default. destruct (str_truthy sig) eqn:T; [|reflexivity]. rewrite T.
    destruct (timingSafeEqual sig _) eqn:E; [|reflexivity].
    apply timingSafeEqual_true in E. congruence. }
  rewrite G. reflexivity.
Qed.

Lemma handler_accepts env req ev :
  authenticated env req -> parses_to req ev ->
  exists secret,
    present (CAL_WEBHOOK_SECRET env) = Some secret /\
    handler env req
    = (HmacComputed secret (readRawBody req)
         :: JsonParseCalled (readRawBody req)
         :: trace (process_event env ev),
       result (process_event env ev)).
Proof.
  intros (Hm & secret & Hs & Hsig) Hp. exists secret. split; [exact Hs|].
  unfold Webhook.handler. rewrite Hm, Hs. cbn [String.eqb negb].
  apply present_Some in Hsig as [Hh Ht].
  rewrite Hh. cbn [or_default]. rewrite Ht.
  rewrite bind_emit.
  assert (E : timingSafeEqual (hmac_sha256_hex secret (readRawBody req))
                (hmac_sha256_hex secret (readRawBody req)) = true)
    by now apply timingSafeEqual_true.
  rewrite Ht, E. cbn [negb orb].
  rewrite bind_emit. unfold Webhook.parses_to in Hp. rewrite Hp. reflexivity.
Qed.

Lemma process_ignores env ev :
  normalizeTrigger (trigger_field ev) = unknown ->
  process_event env ev
  = ([], Return {| status := 200; body := IgnoredJson (trigger_field ev) |}).
Proof. intros H. unfold Webhook.process_event. rewrite H. reflexivity. Qed.

Lemma recognized_not_unknown ev :
  recognized ev -> TriggerType_eqb (normalizeTrigger (trigger_field ev)) unknown = false.
Proof. unfold recognized. destruct (normalizeTrigger _); simpl; congruence. Qed.

Lemma process_skips env ev :
  recognized ev -> missing_required_field (booking_of ev) ->
  exists reason,
    In reason skip_reasons /\
    process_event env ev
    = ([], Return {| status := 200; body := SkippedJson reason |}).
Proof.
  intros R M. unfold Webhook.process_event, skip_reasons.
  rewrite (recognized_not_unknown _ R). cbv zeta.
  destruct (present (Payload.startTime (booking_of ev))) as [s|] eqn:Es;
    cbn [option_map].
  2:{ eexists; split; [|reflexivity]. cbn; auto. }
  destruct (present (Payload.endTime (booking_of ev))) as [e|] eqn:Ee;
    cbn [option_map].
  2:{ eexists; split; [|reflexivity]. cbn; auto. }
  destruct (first_attendee (booking_of ev)) as [a|] eqn:Ea.
  2:{ eexists; split; [|reflexivity]. cbn; auto. }
  destruct (present (hostEmail_of (booking_of ev))) as [h|] eqn:Eh.
  2:{ eexists; split; [|reflexivity]. cbn; auto. }
  destruct M as [M|[M|[M|M]]]; congruence.
Qed.

Lemma sendPostmarkEmail_trace env params :
  trace (sendPostmarkEmail env params)
  = match present (POSTMARK_SERVER_API_TOKEN env) with
    | Some token => [FetchCalled postmark_url token (message_of params)]
    | None => []
    end.
Proof.
  unfold Postmark.sendPostmarkEmail.
  destruct (present _) as [token|]; [|reflexivity].
  rewrite bind_emit. cbn [trace fst]. f_equal.
  destruct (fetch _ _ _) as [r|e]; [|reflexivity].
  destruct (negb _); reflexivity.
Qed.

Lemma sendPostmarkEmail_no_token env params :
  present (POSTMARK_SERVER_API_TOKEN env) = None ->
  sendPostmarkEmail env params
  = ([], Throw (mkError "Missing POSTMARK_SERVER_API_TOKEN environment variable")).
Proof. intros H. unfold Postmark.sendPostmarkEmail. now rewrite H. Qed.

(** What a run of the common shape does. *)
Lemma notify_invite_error env params email_of line e :
  Ics.error (createEvent (Ics.event_attributes params)) = Some e ->
  notify env params email_of line
  = ([CreateEventCalled (Ics.event_attributes params)], Throw e).
Proof.
  intros H. unfold Webhook.notify. rewrite buildIcsString_run, H. reflexivity.
Qed.

Lemma notify_no_token env params email_of line :
  present (POSTMARK_SERVER_API_TOKEN env) = None ->
  trace (notify env params email_of line) = [CreateEventCalled (Ics.event_attributes params)]
  /\ exists e, result (notify env params email_of line) = Throw e.
Proof.
  intros H. unfold Webhook.notify. rewrite buildIcsString_run.
  destruct (Ics.error _) as [e|].
  - split; [reflexivity|]. now exists e.
  - rewrite bind_run, (sendPostmarkEmail_no_token _ _ H).
    split; [reflexivity|]. eexists; reflexivity.
Qed.

(** Each handler is an instance of the common shape. *)
Lemma dispatch_shape env trigger payload startTime endTime attendee hostEmail
    hostName location bookingUid sequence from :
  trigger <> unknown ->
  exists params email_of line,
    dispatch env trigger payload startTime endTime attendee hostEmail hostName
      location bookingUid sequence from
    = notify env params email_of line /\
    Ics.uid params = bookingUid /\
    Ics.sequence params
    = Some (match trigger with
            | BOOKING_CREATED => sequence
            | _ => number_add sequence 1
            end) /\
    Ics.start params = startTime /\
    Ics.end_ params = endTime.
Proof.
  intros H. destruct trigger; [| | |congruence];
    (eexists; eexists; eexists; split; [reflexivity|]); repeat split.
Qed.

Lemma notify_trace env params email_of line :
  trace (notify env params email_of line)
  = CreateEventCalled (Ics.event_attributes params)
    :: match Ics.error (createEvent (Ics.event_attributes params)) with
       | Some _ => []
       | None =>
           let ics :=
             or_default (Ics.value (createEvent (Ics.event_attributes params))) "" in
           match present (POSTMARK_SERVER_API_TOKEN env) with
           | None => []
           | Some token =>
               FetchCalled postmark_url token (message_of (email_of ics))
               :: match result (sendPostmarkEmail env (email_of ics)) with
                  | Return _ => [ConsoleLog line]
                  | Throw _ => []
                  end
           end
       end.
Proof.
  unfold Webhook.notify. rewrite trace_bind, buildIcsString_run.
  cbn [trace result fst snd app]. f_equal.
  destruct (Ics.error _); [reflexivity|].
  rewrite trace_bind, sendPostmarkEmail_trace. cbv zeta.
  destruct (present (POSTMARK_SERVER_API_TOKEN env)) eqn:T.
  - cbn [app]. f_equal; destruct (result _); reflexivity.
  - now rewrite (sendPostmarkEmail_no_token _ _ T).
Qed.

Ltac by_cases :=
  cbv zeta;
  repeat match goal with
         | |- context [match ?x with _ => _ end] => destruct x
         end;
  reflexivity.

Lemma notify_invites env params email_of line :
  invites (trace (notify env params email_of line)) = [Ics.event_attributes params].
Proof. rewrite notify_trace. by_cases. Qed.

Lemma notify_never_uuid env params email_of line :
  never is_random_uuid (trace (notify env params email_of line)).
Proof.
  rewrite notify_trace. unfold never. by_cases.
Qed.

Lemma notify_result_no_token env params email_of line :
  present (POSTMARK_SERVER_API_TOKEN env) = None ->
  emails (trace (notify env params email_of line)) = [] /\
  exists e, result (notify env params email_of line) = Throw e.
Proof.
  intros H. split.
  - rewrite notify_trace, H. by_cases.
  - apply (notify_no_token env params email_of line H).
Qed.

(** [process_event] when the four required fields are there. *)
Lemma has_required_fields_inv p :
  has_required_fields p ->
  exists s e a h,
    present (Payload.startTime p) = Some s /\
    present (Payload.endTime p) = Some e /\
    first_attendee p = Some a /\
    present (hostEmail_of p) = Some h.
Proof.
  intros (Hs & He & Ha & Hh).
  destruct (present (Payload.startTime p)) as [s|]; [|congruence].
  destruct (present (Payload.endTime p)) as [e|]; [|congruence].
  destruct (first_attendee p) as [a|]; [|congruence].
  destruct (present (hostEmail_of p)) as [h|]; [|congruence].
  now exists s, e, a, h.
Qed.

Lemma process_dispatches env ev s e a h :
  recognized ev ->
  present (Payload.startTime (booking_of ev)) = Some s ->
  present (Payload.endTime (booking_of ev)) = Some e ->
  first_attendee (booking_of ev) = Some a ->
  present (hostEmail_of (booking_of ev)) = Some h ->
  process_event env ev
  = bind (bookingUid_of randomUUID (booking_of ev))
      (fun bookingUid =>
         match present (POSTMARK_FROM_EMAIL env) with
         | None =>
             bind (emit (ConsoleError "POSTMARK_FROM_EMAIL not configured"))
               (fun _ => respond 500 (ErrorJson "Server configuration error"))
         | Some from =>
             try_catch
               (bind (dispatch env (normalizeTrigger (trigger_field ev))
                        (booking_of ev) (Date_of_string s) (Date_of_string e) a h
                        (hostName_of (booking_of ev)) (location_of (booking_of ev))
                        bookingUid
                        (sequence_or_zero (Payload.iCalSequence (booking_of ev)))
                        from)
                  (fun _ => respond 200 (HandledJson (normalizeTrigger (trigger_field ev)))))
               (fun _ =>
                  bind (emit (ConsoleError "Error processing webhook:"))
                    (fun _ => respond 500 (ErrorJson "Failed to process webhook")))
         end).
Proof.
  intros R Hs He Ha Hh. unfold Webhook.process_event.
  rewrite (recognized_not_unknown _ R). cbv zeta.
  rewrite Hs, He, Ha, Hh. reflexivity.
Qed.

Lemma bookingUid_undefined p :
  Payload.iCalUID p = None -> Payload.bookingUid p = None ->
  Payload.uid p = None -> Payload.bookingId p = None ->
  bookingUid_of randomUUID p = ([], Return "undefined").
Proof.
  intros H1 H2 H3 H4. unfold bookingUid_of. rewrite H1, H2, H3, H4. reflexivity.
Qed.

Lemma bookingUid_never_fetch p :
  emails (trace (bookingUid_of randomUUID p)) = [] /\
  invites (trace (bookingUid_of randomUUID p)) = [].
Proof. unfold bookingUid_of. destruct (str_truthy _); split; reflexivity. Qed.

(** *** What a run of [handler] does after it accepted the signature *)

Lemma handler_unknown env req ev :
  authenticated env req -> parses_to req ev ->
  normalizeTrigger (trigger_field ev) = unknown ->
  result (handler env req)
  = Return {| status := 200; body := IgnoredJson (trigger_field ev) |} /\
  emails (trace (handler env req)) = [] /\
  invites (trace (handler env req)) = [].
Proof.
  intros A P U. destruct (handler_accepts env req ev A P) as (secret & _ & E).
  rewrite E, (process_ignores env ev U). repeat split; reflexivity.
Qed.

Lemma handler_skips env req ev :
  authenticated env req -> parses_to req ev -> recognized ev ->
  missing_required_field (booking_of ev) ->
  (exists reason,
      In reason skip_reasons /\
      result (handler env req)
      = Return {| status := 200; body := SkippedJson reason |}) /\
  emails (trace (handler env req)) = [] /\
  invites (trace (handler env req)) = [].
Proof.
  intros A P R M. destruct (handler_accepts env req ev A P) as (secret & _ & E).
  destruct (process_skips env ev R M) as (reason & I & S).
  rewrite E, S. repeat split; try reflexivity. now exists reason.
Qed.

Lemma dispatch_trace_kinds env trigger payload startTime endTime attendee
    hostEmail hostName location bookingUid sequence from :
  never is_random_uuid
    (trace (dispatch env trigger payload startTime endTime attendee hostEmail
              hostName location bookingUid sequence from)).
Proof.
  destruct trigger; try apply notify_never_uuid. reflexivity.
Qed.

Lemma dispatch_invites env trigger payload startTime endTime attendee
    hostEmail hostName location bookingUid sequence from :
  trigger <> unknown ->
  map Ics.ev_uid
    (invites (trace (dispatch env trigger payload startTime endTime attendee
                       hostEmail hostName location bookingUid sequence from)))
  = [bookingUid].
Proof.
  intros H.
  destruct (dispatch_shape env trigger payload startTime endTime attendee hostEmail
              hostName location bookingUid sequence from H)
    as (params & email_of & line & E & U & _).
  rewrite E, notify_invites. cbn [map Ics.event_attributes Ics.ev_uid]. now rewrite U.
Qed.

Lemma dispatch_no_token env trigger payload startTime endTime attendee
    hostEmail hostName location bookingUid sequence from :
  trigger <> unknown ->
  present (POSTMARK_SERVER_API_TOKEN env) = None ->
  emails (trace (dispatch env trigger payload startTime endTime attendee
                   hostEmail hostName location bookingUid sequence from)) = [] /\
  exists e,
    result (dispatch env trigger payload startTime endTime attendee
              hostEmail hostName location bookingUid sequence from) = Throw e.
Proof.
  intros H T.
  destruct (dispatch_shape env trigger payload startTime endTime attendee hostEmail
              hostName location bookingUid sequence from H)
    as (params & email_of & line & E & _).
  rewrite E. now apply notify_result_no_token.
Qed.

Lemma dispatch_invite_error env trigger payload startTime endTime attendee
    hostEmail hostName location bookingUid sequence from a e :
  In a (invites (trace (dispatch env trigger payload startTime endTime attendee
                          hostEmail hostName location bookingUid sequence from))) ->
  Ics.error (createEvent a) = Some e ->
  result (dispatch env trigger payload startTime endTime attendee
            hostEmail hostName location bookingUid sequence from) = Throw e /\
  emails (trace (dispatch env trigger payload startTime endTime attendee
                   hostEmail hostName location bookingUid sequence from)) = [].
Proof.
  intros I Err.
  assert (H : trigger <> unknown) by (intros ->; exact I).
  destruct (dispatch_shape env trigger payload startTime endTime attendee hostEmail
              hostName location bookingUid sequence from H)
    as (params & email_of & line & E & _).
  rewrite E in *. rewrite notify_invites in I. destruct I as [<-|[]].
  rewrite (notify_invite_error _ _ _ _ _ Err). split; reflexivity.
Qed.

(** The random-UUID call is reached only when the three identifiers are
    falsy and [String(bookingId)] is the empty string. *)
Lemma random_uuid_reached p :
  trace (bookingUid_of randomUUID p) = [RandomUUIDCalled] <->
  or_default
    (or_else (or_else (Payload.iCalUID p) (Payload.bookingUid p)) (Payload.uid p))
    (String_of (Payload.bookingId p)) = "".
Proof.
  unfold bookingUid_of.
  destruct (or_default _ _) as [|c s]; cbn [str_truthy]; split;
    try reflexivity; discriminate.
Qed.

(** A configuration value that is missing where the run needs it. *)
Lemma process_unconfigured env ev :
  recognized ev -> has_required_fields (booking_of ev) ->
  present (POSTMARK_FROM_EMAIL env) = None \/
  present (POSTMARK_SERVER_API_TOKEN env) = None ->
  (exists msg,
      result (process_event env ev)
      = Return {| status := 500; body := ErrorJson msg |}) /\
  emails (trace (process_event env ev)) = [].
Proof.
  intros R F C.
  destruct (has_required_fields_inv _ F) as (s & e & a & h & Hs & He & Ha & Hh).
  rewrite (process_dispatches env ev s e a h R Hs He Ha Hh).
  rewrite result_bind, trace_bind, emails_app.
  destruct (bookingUid_never_fetch (booking_of ev)) as [-> _].
  assert (U : exists uid, result (bookingUid_of randomUUID (booking_of ev)) = Return uid).
  { unfold bookingUid_of. destruct (str_truthy _); eexists; reflexivity. }
  destruct U as [uid ->]. cbn [app].
  destruct (present (POSTMARK_FROM_EMAIL env)) as [from|] eqn:Ef.
  - destruct C as [C|C]; [discriminate|].
    destruct (dispatch_no_token env (normalizeTrigger (trigger_field ev))
                (booking_of ev) (Date_of_string s) (Date_of_string e) a h
                (hostName_of (booking_of ev)) (location_of (booking_of ev)) uid
                (sequence_or_zero (Payload.iCalSequence (booking_of ev))) from R C)
      as [Em [err Er]].
    rewrite result_try_catch, trace_try_catch, result_bind, trace_bind, Er.
    rewrite app_nil_r, emails_app, Em. split; [eexists|]; reflexivity.
  - split; [eexists|]; reflexivity.
Qed.

(* ------------------------------------------------------------------ *)
(** *** The properties of the receiver *)
(* ------------------------------------------------------------------ *)

(** C1, as amended.  On a POST with the shared secret configured, the
    receiver computes the hex HMAC-SHA256 digest of the text that the
    concatenated chunks of the body spell in UTF-8; when the body is
    well-formed UTF-8 that text is the body, byte for byte, and otherwise
    it has U+FFFD where the body is ill-formed (as for the one byte FF).
    When the signature header is absent or differs from this digest the
    receiver answers 401: it does not parse the body, builds no invite and
    sends no email. *)
Theorem signature_gate env req secret :
  method req = "POST" ->
  present (CAL_WEBHOOK_SECRET env) = Some secret ->
  x_cal_signature_256 req
  <> Some (hmac_sha256_hex secret (utf8_text (String.concat "" (chunks req)))) ->
  hd_error (trace (handler env req))
  = Some (HmacComputed secret (utf8_text (String.concat "" (chunks req)))) /\
  (forall s,
      Crypto.isWellFormed s = true -> Forall Crypto.is_code_unit s ->
      String.concat "" (chunks req) = string_of_list_byte (Crypto.utf8_encode s) ->
      utf8_text (String.concat "" (chunks req)) = String.concat "" (chunks req)) /\
  utf8_text Samples.ill_formed_body = Samples.replacement_text /\
  result (handler env req)
  = Return {| status := 401; body := ErrorJson "Invalid signature" |} /\
  never is_json_parse (trace (handler env req)) /\
  invites (trace (handler env req)) = [] /\
  emails (trace (handler env req)) = [].
Proof.
  intros Hm Hs Hsig. rewrite (handler_rejects env req secret Hm Hs Hsig).
  split; [reflexivity|]. split; [|split; [vm_compute; reflexivity|]].
  - intros s W U E. rewrite E. now apply utf8_text_well_formed.
  - repeat split; reflexivity.
Qed.

(** C2, as amended.  The classifier looks for the three keywords in the
    upper-cased trigger whose whitespace runs are underscores, in the order
    CREATED, RESCHEDULED, CANCEL, and the first one found decides;
    a trigger with none of them is unknown.  The class of an ASCII trigger
    does not change when the trigger is upper-cased or its whitespace is
    replaced.  A request whose trigger is unknown is answered 200, with no
    invite and no email. *)
Theorem trigger_classification (t : string) env req ev :
  (occurs_in "CREATED" (normal_form t) ->
   normalizeTrigger (Some t) = BOOKING_CREATED) /\
  (~ occurs_in "CREATED" (normal_form t) ->
   occurs_in "RESCHEDULED" (normal_form t) ->
   normalizeTrigger (Some t) = BOOKING_RESCHEDULED) /\
  (~ occurs_in "CREATED" (normal_form t) ->
   ~ occurs_in "RESCHEDULED" (normal_form t) ->
   occurs_in "CANCEL" (normal_form t) ->
   normalizeTrigger (Some t) = BOOKING_CANCELLED) /\
  (~ occurs_in "CREATED" (normal_form t) ->
   ~ occurs_in "RESCHEDULED" (normal_form t) ->
   ~ occurs_in "CANCEL" (normal_form t) ->
   normalizeTrigger (Some t) = unknown) /\
  normal_form t = replace_ws_runs (toUpperCase t) /\
  (is_ascii t = true ->
   normal_form t = ascii_replace_ws_runs (ascii_toUpperCase t) /\
   normalizeTrigger (Some (toUpperCase t)) = normalizeTrigger (Some t) /\
   normalizeTrigger (Some (replace_ws_runs t)) = normalizeTrigger (Some t)) /\
  (normalizeTrigger (Some "BOOKING_CREATED") = BOOKING_CREATED /\
   normalizeTrigger (Some "Booking Created") = BOOKING_CREATED /\
   normalizeTrigger (Some "created") = BOOKING_CREATED) /\
  (authenticated env req -> parses_to req ev ->
   normalizeTrigger (trigger_field ev) = unknown ->
   result (handler env req)
   = Return {| status := 200; body := IgnoredJson (trigger_field ev) |} /\
   emails (trace (handler env req)) = [] /\
   invites (trace (handler env req)) = []).
Proof.
  assert (Occ : forall kw, includes (normal_form t) kw = false
                           <-> ~ occurs_in kw (normal_form t)).
  { intros kw. rewrite <- StringFacts.includes_occurs.
    destruct (includes _ kw); split; congruence. }
  assert (Emp : str_truthy t = false -> forall kw, kw <> "" ->
                ~ occurs_in kw (normal_form t)).
  { destruct t; [|discriminate]. intros _ kw Hkw (pre & post & E).
    destruct pre; [destruct kw|]; [congruence|discriminate|discriminate]. }
  assert (Eqb : forall kw full, includes (normal_form t) kw = false ->
                  includes full kw = true ->
                  String.eqb (normal_form t) full = false).
  { intros kw full H1 H2. destruct (String.eqb_spec (normal_form t) full); congruence. }
  split; [|split; [|split; [|split; [|split; [|split; [|split]]]]]].
  - intros H. apply StringFacts.includes_occurs in H.
    unfold Trigger.normalizeTrigger, truthy.
    destruct (str_truthy t) eqn:T; cbn [negb].
    + now rewrite H.
    + apply StringFacts.includes_occurs in H. exfalso. revert H. now apply Emp.
  - intros H1 H2. apply Occ in H1. apply StringFacts.includes_occurs in H2.
    unfold Trigger.normalizeTrigger, truthy.
    destruct (str_truthy t) eqn:T; cbn [negb].
    + rewrite H1, H2, (Eqb "CREATED" "BOOKING_CREATED" H1 eq_refl). reflexivity.
    + apply StringFacts.includes_occurs in H2. exfalso. revert H2. now apply Emp.
  - intros H1 H2 H3. apply Occ in H1, H2. apply StringFacts.includes_occurs in H3.
    unfold Trigger.normalizeTrigger, truthy.
    destruct (str_truthy t) eqn:T; cbn [negb].
    + rewrite H1, H2, H3, (Eqb "CREATED" "BOOKING_CREATED" H1 eq_refl),
        (Eqb "RESCHEDULED" "BOOKING_RESCHEDULED" H2 eq_refl). reflexivity.
    + apply StringFacts.includes_occurs in H3. exfalso. revert H3. now apply Emp.
  - intros H1 H2 H3. apply Occ in H1, H2, H3.
    unfold Trigger.normalizeTrigger, truthy.
    destruct (str_truthy t) eqn:T; cbn [negb]; [|reflexivity].
    rewrite H1, H2, H3, (Eqb "CREATED" "BOOKING_CREATED" H1 eq_refl),
      (Eqb "RESCHEDULED" "BOOKING_RESCHEDULED" H2 eq_refl),
      (Eqb "CANCEL" "BOOKING_CANCELLED" H3 eq_refl). reflexivity.
  - reflexivity.
  - intros A. split; [now apply StringFacts.normal_form_ascii|]. split.
    + apply StringFacts.normalizeTrigger_normal_form.
      * now apply StringFacts.toUpperCase_truthy.
      * now apply StringFacts.normal_form_upper.
    + apply StringFacts.normalizeTrigger_normal_form.
      * now apply StringFacts.replace_ws_truthy.
      * now apply StringFacts.normal_form_replace.
  - repeat split; reflexivity.
  - apply handler_unknown.
Qed.

(** Up to 2^53 in magnitude the sum of a number and one is exact. *)
Lemma number_add_one (N : Z) :
  (- 2 ^ 53 <= N < 2 ^ 53)%Z -> number_add N 1 = (N + 1)%Z.
Proof.
  intros H. unfold number_add, round_to_double.
  destruct (Z.ltb_spec (Z.abs (N + 1)) (2 ^ 53)) as [L|L]; [reflexivity|].
  assert (E : (N + 1 = 2 ^ 53)%Z) by lia. rewrite E. reflexivity.
Qed.

(** C3, as amended.  Given a sequence number N, the created handler builds
    its invite with sequence N, the rescheduled and the cancelled handler
    with the sum of N and 1 in double arithmetic; for N from -2^53 to
    2^53 - 1 that sum is exactly N + 1. *)
Theorem handler_sequences env payload startTime endTime attendee hostEmail
    hostName location bookingUid (N : Z) from :
  map Ics.ev_sequence
    (invites (trace (handleBookingCreated env payload startTime endTime attendee
                       hostEmail hostName location bookingUid N from)))
  = [N] /\
  map Ics.ev_sequence
    (invites (trace (handleBookingRescheduled env payload startTime endTime
                       attendee hostEmail hostName location bookingUid N from)))
  = [number_add N 1] /\
  map Ics.ev_sequence
    (invites (trace (handleBookingCancelled env payload startTime endTime
                       attendee hostEmail hostName location bookingUid N from)))
  = [number_add N 1] /\
  ((- 2 ^ 53 <= N < 2 ^ 53)%Z ->
   map Ics.ev_sequence
     (invites (trace (handleBookingRescheduled env payload startTime endTime
                        attendee hostEmail hostName location bookingUid N from)))
   = [(N + 1)%Z] /\
   map Ics.ev_sequence
     (invites (trace (handleBookingCancelled env payload startTime endTime
                        attendee hostEmail hostName location bookingUid N from)))
   = [(N + 1)%Z]).
Proof.
  assert (D : forall trigger, trigger <> unknown ->
            map Ics.ev_sequence
              (invites (trace (dispatch env trigger payload startTime endTime
                                 attendee hostEmail hostName location bookingUid
                                 N from)))
            = [match trigger with
               | BOOKING_CREATED => N
               | _ => number_add N 1
               end]).
  { intros trigger H.
    destruct (dispatch_shape env trigger payload startTime endTime attendee
                hostEmail hostName location bookingUid N from H)
      as (params & email_of & line & E & _ & S & _).
    rewrite E, notify_invites.
    cbn [map Ics.event_attributes Ics.ev_sequence]. now rewrite S. }
  split; [|split; [|split]].
  - apply (D BOOKING_CREATED). discriminate.
  - apply (D BOOKING_RESCHEDULED). discriminate.
  - apply (D BOOKING_CANCELLED). discriminate.
  - intros Safe. rewrite <- (number_add_one N Safe). split.
    + apply (D BOOKING_RESCHEDULED). discriminate.
    + apply (D BOOKING_CANCELLED). discriminate.
Qed.

(** C4. An authenticated request whose body parses and whose trigger is
    recognized, but which lacks a start time, an end time, the email of the
    first attendee or the host email, is answered 200 with a skip reason;
    no invite is built and no email is sent. *)
Theorem missing_field_skips env req ev :
  authenticated env req -> parses_to req ev -> recognized ev ->
  missing_required_field (booking_of ev) ->
  (exists reason,
      In reason skip_reasons /\
      result (handler env req)
      = Return {| status := 200; body := SkippedJson reason |}) /\
  emails (trace (handler env req)) = [] /\
  invites (trace (handler env req)) = [].
Proof. apply handler_skips. Qed.

(* ------------------------------------------------------------------ *)
(** *** Every path of the receiver *)
(* ------------------------------------------------------------------ *)

Lemma handler_not_post env req :
  method req <> "POST" ->
  handler env req
  = ([], Return {| status := 405; body := ErrorJson "Method Not Allowed" |}).
Proof.
  intros H. unfold Webhook.handler.
  destruct (String.eqb_spec (method req) "POST"); [contradiction|reflexivity].
Qed.

Lemma handler_no_secret env req :
  method req = "POST" -> present (CAL_WEBHOOK_SECRET env) = None ->
  handler env req
  = ([ConsoleError "CAL_WEBHOOK_SECRET not configured"],
     Return {| status := 500; body := ErrorJson "Server configuration error" |}).
Proof. intros Hm Hs. unfold Webhook.handler. rewrite Hm, Hs. reflexivity. Qed.

Lemma handler_bad_signature env req secret :
  method req = "POST" ->
  present (CAL_WEBHOOK_SECRET env) = Some secret ->
  present (x_cal_signature_256 req)
  <> Some (hmac_sha256_hex secret (readRawBody req)) ->
  handler env req
  = ([HmacComputed secret (readRawBody req);
      ConsoleError "Invalid webhook signature"],
     Return {| status := 401; body := ErrorJson "Invalid signature" |}).
Proof.
  intros Hm Hs Hsig. unfold Webhook.handler. rewrite Hm, Hs. cbn [String.eqb negb].
  rewrite bind_emit.
  assert (G : negb (str_truthy (or_default (x_cal_signature_256 req) ""))
              || negb (timingSafeEqual (or_default (x_cal_signature_256 req) "")
                         (hmac_sha256_hex secret (readRawBody req))) = true).
  { unfold present, truthy in Hsig.
    destruct (x_cal_signature_256 req) as [sig|]; [|reflexivity].
    unfold or_default. destruct (str_truthy sig) eqn:T; [|reflexivity]. rewrite T.
    destruct (timingSafeEqual sig _) eqn:E; [|reflexivity].
    apply timingSafeEqual_true in E. congruence. }
  rewrite G. reflexivity.
Qed.

Lemma handler_bad_json env req :
  authenticated env req -> JSON_parse (readRawBody req) = None ->
  exists secret,
    present (CAL_WEBHOOK_SECRET env) = Some secret /\
    handler env req
    = ([HmacComputed secret (readRawBody req); JsonParseCalled (readRawBody req)],
       Return {| status := 400; body := ErrorJson "Invalid JSON" |}).
Proof.
  intros (Hm & secret & Hs & Hsig) Hp. exists secret. split; [exact Hs|].
  unfold Webhook.handler. rewrite Hm, Hs. cbn [String.eqb negb].
  apply present_Some in Hsig as [Hh Ht].
  rewrite Hh. cbn [or_default]. rewrite Ht.
  rewrite bind_emit.
  assert (E : timingSafeEqual (hmac_sha256_hex secret (readRawBody req))
                (hmac_sha256_hex secret (readRawBody req)) = true)
    by now apply timingSafeEqual_true.
  rewrite Ht, E. cbn [negb orb].
  rewrite bind_emit, Hp. reflexivity.
Qed.

Lemma handler_untyped env req :
  authenticated env req -> parses_to_untyped req ->
  exists secret,
    present (CAL_WEBHOOK_SECRET env) = Some secret /\
    handler env req
    = ([HmacComputed secret (readRawBody req); JsonParseCalled (readRawBody req)],
       Throw match JSON_parse (readRawBody req) with
             | Some ParsedNonStringTrigger => trigger_not_a_string_error
             | _ => null_event_error
             end).
Proof.
  intros (Hm & secret & Hs & Hsig) Hp. exists secret. split; [exact Hs|].
  unfold Webhook.handler. rewrite Hm, Hs. cbn [String.eqb negb].
  apply present_Some in Hsig as [Hh Ht].
  rewrite Hh. cbn [or_default]. rewrite Ht.
  rewrite bind_emit.
  assert (E : timingSafeEqual (hmac_sha256_hex secret (readRawBody req))
                (hmac_sha256_hex secret (readRawBody req)) = true)
    by now apply timingSafeEqual_true.
  rewrite Ht, E. cbn [negb orb].
  rewrite bind_emit.
  destruct Hp as [Hp|Hp]; unfold Webhook.parses_to_untyped in Hp; rewrite Hp;
    reflexivity.
Qed.

(** The six ways a run of [handler] can go. *)
Lemma handler_paths env req :
  (method req <> "POST" /\
   handler env req
   = ([], Return {| status := 405; body := ErrorJson "Method Not Allowed" |}))
  \/
  (method req = "POST" /\ present (CAL_WEBHOOK_SECRET env) = None /\
   handler env req
   = ([ConsoleError "CAL_WEBHOOK_SECRET not configured"],
      Return {| status := 500; body := ErrorJson "Server configuration error" |}))
  \/
  (exists secret,
      method req = "POST" /\ present (CAL_WEBHOOK_SECRET env) = Some secret /\
      present (x_cal_signature_256 req)
      <> Some (hmac_sha256_hex secret (readRawBody req)) /\
      handler env req
      = ([HmacComputed secret (readRawBody req);
          ConsoleError "Invalid webhook signature"],
         Return {| status := 401; body := ErrorJson "Invalid signature" |}))
  \/
  (exists secret,
      authenticated env req /\ JSON_parse (readRawBody req) = None /\
      handler env req
      = ([HmacComputed secret (readRawBody req);
          JsonParseCalled (readRawBody req)],
         Return {| status := 400; body := ErrorJson "Invalid JSON" |}))
  \/
  (exists secret ev,
      authenticated env req /\ parses_to req ev /\
      handler env req
      = (HmacComputed secret (readRawBody req)
           :: JsonParseCalled (readRawBody req)
           :: trace (process_event env ev),
         result (process_event env ev)))
  \/
  (exists secret e,
      authenticated env req /\ parses_to_untyped req /\
      handler env req
      = ([HmacComputed secret (readRawBody req);
          JsonParseCalled (readRawBody req)],
         Throw e)).
Proof.
  destruct (String.eqb_spec (method req) "POST") as [Hm|Hm].
  2:{ left. split; [exact Hm|now apply handler_not_post]. }
  right.
  destruct (present (CAL_WEBHOOK_SECRET env)) as [secret|] eqn:Hs.
  2:{ left. split; [exact Hm|]. split; [reflexivity|now apply handler_no_secret]. }
  right.
  assert (D : present (x_cal_signature_256 req)
              = Some (hmac_sha256_hex secret (readRawBody req)) \/
              present (x_cal_signature_256 req)
              <> Some (hmac_sha256_hex secret (readRawBody req))).
  { destruct (present (x_cal_signature_256 req)) as [sig|]; [|right; discriminate].
    destruct (String.string_dec sig (hmac_sha256_hex secret (readRawBody req)))
      as [->|N]; [left; reflexivity|right; congruence]. }
  destruct D as [Hsig|Hsig].
  2:{ left. exists secret. split; [exact Hm|]. split; [reflexivity|].
      split; [exact Hsig|]. now apply handler_bad_signature. }
  right.
  assert (A : authenticated env req).
  { split; [exact Hm|]. exists secret. split; assumption. }
  destruct (JSON_parse (readRawBody req)) as [[| |ev]|] eqn:Hp.
  - right. right.
    assert (U : parses_to_untyped req) by (left; exact Hp).
    destruct (handler_untyped env req A U) as (secret' & _ & E).
    eexists secret', _. split; [exact A|]. split; [exact U|exact E].
  - right. right.
    assert (U : parses_to_untyped req) by (right; exact Hp).
    destruct (handler_untyped env req A U) as (secret' & _ & E).
    eexists secret', _. split; [exact A|]. split; [exact U|exact E].
  - right. left. destruct (handler_accepts env req ev A Hp) as (secret' & Hs' & E).
    exists secret', ev. split; [exact A|]. split; [exact Hp|exact E].
  - left. destruct (handler_bad_json env req A Hp) as (secret' & Hs' & E).
    exists secret'. split; [exact A|]. split; [reflexivity|exact E].
Qed.

Lemma process_event_env env env' ev :
  ~ (recognized ev /\ has_required_fields (booking_of ev)) ->
  process_event env' ev = process_event env ev.
Proof.
  intros N.
  destruct (TriggerType_eqb (normalizeTrigger (trigger_field ev)) unknown) eqn:T.
  { unfold Webhook.process_event. now rewrite T. }
  assert (R : recognized ev).
  { unfold Webhook.recognized. intros U. rewrite U in T. discriminate. }
  unfold Webhook.process_event. rewrite T. cbv zeta.
  destruct (present (Payload.startTime (booking_of ev))) as [s|] eqn:Es;
    cbn [option_map]; [|reflexivity].
  destruct (present (Payload.endTime (booking_of ev))) as [e|] eqn:Ee;
    cbn [option_map]; [|reflexivity].
  destruct (first_attendee (booking_of ev)) as [a|] eqn:Ea; [|reflexivity].
  destruct (present (hostEmail_of (booking_of ev))) as [h|] eqn:Eh; [|reflexivity].
  exfalso. apply N. split; [exact R|].
  unfold Webhook.has_required_fields. rewrite Es, Ee, Ea, Eh.
  repeat split; discriminate.
Qed.

(** The sender address and the API token are read only on the way to an
    invite: two environments with the same secret answer alike every request
    that is not an authenticated booking event with a recognized trigger and
    the four required fields. *)
Lemma handler_env env env' req :
  present (CAL_WEBHOOK_SECRET env') = present (CAL_WEBHOOK_SECRET env) ->
  ~ (authenticated env req /\
     exists ev, parses_to req ev /\ recognized ev /\
                has_required_fields (booking_of ev)) ->
  handler env' req = handler env req.
Proof.
  intros S N.
  assert (A' : authenticated env req -> authenticated env' req).
  { intros (Hm & secret & Hs & Hsig). split; [exact Hm|]. exists secret.
    split; [congruence|exact Hsig]. }
  destruct (handler_paths env req)
    as [(Hm & E) | [(Hm & Hs & E) | [(secret & Hm & Hs & Hsig & E)
       | [(secret & A & Hp & E) | [(secret & ev & A & Hp & E)
       | (secret & e & A & Hp & E)]]]]].
  - now rewrite E, (handler_not_post env' req Hm).
  - rewrite E. apply handler_no_secret; congruence.
  - rewrite E. apply handler_bad_signature; congruence.
  - destruct (handler_bad_json env req A Hp) as (s1 & Hs1 & E1).
    destruct (handler_bad_json env' req (A' A) Hp) as (s2 & Hs2 & E2).
    rewrite E1, E2. assert (s2 = s1) by congruence. now subst s2.
  - destruct (handler_accepts env req ev A Hp) as (s1 & Hs1 & E1).
    destruct (handler_accepts env' req ev (A' A) Hp) as (s2 & Hs2 & E2).
    rewrite E1, E2. assert (s2 = s1) by congruence. subst s2.
    rewrite (process_event_env env env' ev); [reflexivity|].
    intros [R F]. apply N. split; [exact A|]. now exists ev.
  - destruct (handler_untyped env req A Hp) as (s1 & Hs1 & E1).
    destruct (handler_untyped env' req (A' A) Hp) as (s2 & Hs2 & E2).
    rewrite E1, E2. assert (s2 = s1) by congruence. now subst s2.
Qed.

(** C6, as amended.  A POST without the webhook secret is answered 500.
    An authenticated request whose body parses, with a recognized trigger
    and the four required fields, is answered 500 when the sender address
    or the API token is missing, and no email is sent.  Every other request
    is answered without these two values being read: a request that is not
    a POST is answered 405 whatever is configured, and two environments with
    the same secret run alike on every request that is not an authenticated
    one with a parsed body, a recognized trigger and the four fields. *)
Theorem missing_configuration env req ev :
  (method req = "POST" -> present (CAL_WEBHOOK_SECRET env) = None ->
   handler env req
   = ([ConsoleError "CAL_WEBHOOK_SECRET not configured"],
      Return {| status := 500; body := ErrorJson "Server configuration error" |}))
  /\
  (authenticated env req -> parses_to req ev -> recognized ev ->
   has_required_fields (booking_of ev) ->
   present (POSTMARK_FROM_EMAIL env) = None \/
   present (POSTMARK_SERVER_API_TOKEN env) = None ->
   (exists msg,
       result (handler env req)
       = Return {| status := 500; body := ErrorJson msg |}) /\
   emails (trace (handler env req)) = [])
  /\
  (method req <> "POST" ->
   handler env req
   = ([], Return {| status := 405; body := ErrorJson "Method Not Allowed" |}))
  /\
  (forall env',
      present (CAL_WEBHOOK_SECRET env') = present (CAL_WEBHOOK_SECRET env) ->
      ~ (authenticated env req /\
         exists ev', parses_to req ev' /\ recognized ev' /\
                     has_required_fields (booking_of ev')) ->
      handler env' req = handler env req).
Proof.
  split; [|split; [|split]].
  - intros Hm Hs. unfold Webhook.handler. rewrite Hm, Hs. reflexivity.
  - intros A P R F C.
    destruct (handler_accepts env req ev A P) as (secret & _ & E).
    destruct (process_unconfigured env ev R F C) as [[msg Hr] He].
    rewrite E. cbn [result trace fst snd]. split.
    + exists msg. exact Hr.
    + cbn [emails flat_map app]. exact He.
  - apply handler_not_post.
  - intros env'. apply handler_env.
Qed.

(** C9. When [iCalUID], [bookingUid], [uid] and [bookingId] are all absent,
    the identifier chain yields the string undefined without reaching the
    random-UUID call, and the invite of an authenticated, processable
    request carries that identifier. *)
Theorem absent_identifiers env req ev from :
  Payload.iCalUID (booking_of ev) = None ->
  Payload.bookingUid (booking_of ev) = None ->
  Payload.uid (booking_of ev) = None ->
  Payload.bookingId (booking_of ev) = None ->
  bookingUid_of randomUUID (booking_of ev) = ([], Return "undefined") /\
  (authenticated env req -> parses_to req ev -> recognized ev ->
   has_required_fields (booking_of ev) ->
   present (POSTMARK_FROM_EMAIL env) = Some from ->
   map Ics.ev_uid (invites (trace (handler env req))) = ["undefined"] /\
   never is_random_uuid (trace (handler env req))).
Proof.
  intros H1 H2 H3 H4.
  pose proof (bookingUid_undefined (booking_of ev) H1 H2 H3 H4) as U.
  split; [exact U|].
  intros A P R F Ef.
  destruct (handler_accepts env req ev A P) as (secret & _ & E).
  destruct (has_required_fields_inv _ F) as (s & e & a & h & Hs & He & Ha & Hh).
  rewrite E, (process_dispatches env ev s e a h R Hs He Ha Hh), U, bind_run, Ef.
  cbn [app trace fst].
  rewrite trace_try_catch, trace_bind.
  pose proof (dispatch_invites env (normalizeTrigger (trigger_field ev))
                (booking_of ev) (Date_of_string s) (Date_of_string e) a h
                (hostName_of (booking_of ev)) (location_of (booking_of ev))
                "undefined"
                (sequence_or_zero (Payload.iCalSequence (booking_of ev))) from R) as I.
  pose proof (dispatch_trace_kinds env (normalizeTrigger (trigger_field ev))
                (booking_of ev) (Date_of_string s) (Date_of_string e) a h
                (hostName_of (booking_of ev)) (location_of (booking_of ev))
                "undefined"
                (sequence_or_zero (Payload.iCalSequence (booking_of ev))) from) as K.
  set (d := dispatch env _ _ _ _ _ _ _ _ _ _ _) in *.
  split.
  - rewrite !invites_cons, !invites_app, result_bind.
    destruct (result d); cbn [trace fst invites flat_map app];
      rewrite ?app_nil_r; exact I.
  - unfold never. cbn [existsb is_random_uuid orb].
    rewrite !existsb_app, K, result_bind.
    destruct (result d); reflexivity.
Qed.

(** C7. When [createEvent] reports an error for the invite of [params], the
    builder throws that error and returns no document; a handler whose
    invite is rejected in this way throws the same error and submits no
    email.  (And an empty document is never attached by the wrapper.) *)
Theorem builder_propagates_errors params e :
  Ics.error (createEvent (Ics.event_attributes params)) = Some e ->
  buildIcsString params
  = ([CreateEventCalled (Ics.event_attributes params)], Throw e) /\
  (forall doc, result (buildIcsString params) <> Return doc) /\
  (forall env trigger payload startTime endTime attendee hostEmail hostName
          location bookingUid sequence from,
      In (Ics.event_attributes params)
         (invites (trace (dispatch env trigger payload startTime endTime attendee
                            hostEmail hostName location bookingUid sequence from))) ->
      result (dispatch env trigger payload startTime endTime attendee hostEmail
                hostName location bookingUid sequence from) = Throw e /\
      emails (trace (dispatch env trigger payload startTime endTime attendee
                       hostEmail hostName location bookingUid sequence from)) = []) /\
  (forall email,
      PostmarkData.icsContent email = Some "" ->
      PostmarkData.Attachments (message_of email) = None).
Proof.
  intros H. rewrite buildIcsString_run, H. split; [reflexivity|].
  split; [discriminate|]. split.
  - intros. now apply (dispatch_invite_error _ _ _ _ _ _ _ _ _ _ _ _
                         (Ics.event_attributes params) e).
  - intros email Hd. unfold message_of, attachments_of. now rewrite Hd.
Qed.

(* ------------------------------------------------------------------ *)
(** *** The answers of the receiver *)
(* ------------------------------------------------------------------ *)

Lemma notify_result env params email_of line :
  result (notify env params email_of line)
  = match Ics.error (createEvent (Ics.event_attributes params)) with
    | Some e => Throw e
    | None =>
        let ics :=
          or_default (Ics.value (createEvent (Ics.event_attributes params))) "" in
        match present (POSTMARK_SERVER_API_TOKEN env) with
        | None =>
            Throw (mkError "Missing POSTMARK_SERVER_API_TOKEN environment variable")
        | Some token =>
            match fetch postmark_url token (message_of (email_of ics)) with
            | Throw e => Throw e
            | Return r =>
                if PostmarkData.ok r then Return tt
                else Throw (mkError
                              (send_failed_message JSON_stringify
                                 (PostmarkData.http_status r)
                                 match PostmarkData.json r with
                                 | Some d => d
                                 | None => empty_response
                                 end))
            end
        end
    end.
Proof.
  unfold Webhook.notify. rewrite result_bind, buildIcsString_run. cbn [result snd].
  destruct (Ics.error _); [reflexivity|]. cbv zeta.
  rewrite result_bind. unfold Postmark.sendPostmarkEmail.
  destruct (present _) as [token|]; [|reflexivity].
  rewrite bind_emit. cbn [result snd].
  destruct (fetch _ _ _) as [r|e]; [|reflexivity].
  destruct (PostmarkData.ok r); reflexivity.
Qed.

Lemma bookingUid_run p :
  exists tr uid,
    bookingUid_of randomUUID p = (tr, Return uid) /\
    invites tr = [] /\ emails tr = [].
Proof.
  unfold bookingUid_of. destruct (str_truthy _).
  - eexists; eexists; split; [reflexivity|split; reflexivity].
  - eexists; eexists; split; [reflexivity|split; reflexivity].
Qed.

Lemma fields_decide p : missing_required_field p \/ has_required_fields p.
Proof.
  unfold missing_required_field, has_required_fields.
  destruct (present (Payload.startTime p)); [|left; left; reflexivity].
  destruct (present (Payload.endTime p)); [|left; right; left; reflexivity].
  destruct (first_attendee p); [|left; right; right; left; reflexivity].
  destruct (present (hostEmail_of p)); [|left; right; right; right; reflexivity].
  right. repeat split; discriminate.
Qed.

Lemma recognized_decide ev :
  normalizeTrigger (trigger_field ev) = unknown \/ recognized ev.
Proof.
  unfold recognized. destruct (normalizeTrigger _);
    first [left; reflexivity | right; discriminate].
Qed.

(** A run of [process_event] that reaches the sender address. *)
Lemma process_unconfigured_sender env ev s e a h tr uid :
  recognized ev ->
  present (Payload.startTime (booking_of ev)) = Some s ->
  present (Payload.endTime (booking_of ev)) = Some e ->
  first_attendee (booking_of ev) = Some a ->
  present (hostEmail_of (booking_of ev)) = Some h ->
  bookingUid_of randomUUID (booking_of ev) = (tr, Return uid) ->
  present (POSTMARK_FROM_EMAIL env) = None ->
  process_event env ev
  = ((tr ++ [ConsoleError "POSTMARK_FROM_EMAIL not configured"])%list,
     Return {| status := 500; body := ErrorJson "Server configuration error" |}).
Proof.
  intros R Hs He Ha Hh U Ef.
  rewrite (process_dispatches env ev s e a h R Hs He Ha Hh), U, bind_run, Ef.
  reflexivity.
Qed.

Lemma process_configured env ev s e a h tr uid from :
  recognized ev ->
  present (Payload.startTime (booking_of ev)) = Some s ->
  present (Payload.endTime (booking_of ev)) = Some e ->
  first_attendee (booking_of ev) = Some a ->
  present (hostEmail_of (booking_of ev)) = Some h ->
  bookingUid_of randomUUID (booking_of ev) = (tr, Return uid) ->
  present (POSTMARK_FROM_EMAIL env) = Some from ->
  process_event env ev
  = ((tr ++ trace (dispatch env (normalizeTrigger (trigger_field ev))
                     (booking_of ev) (Date_of_string s) (Date_of_string e) a h
                     (hostName_of (booking_of ev)) (location_of (booking_of ev))
                     uid (sequence_or_zero (Payload.iCalSequence (booking_of ev)))
                     from)
         ++ match result (dispatch env (normalizeTrigger (trigger_field ev))
                            (booking_of ev) (Date_of_string s) (Date_of_string e)
                            a h (hostName_of (booking_of ev))
                            (location_of (booking_of ev)) uid
                            (sequence_or_zero
                               (Payload.iCalSequence (booking_of ev))) from) with
            | Return _ => []
            | Throw _ => [ConsoleError "Error processing webhook:"]
            end)%list,
     Return
       match result (dispatch env (normalizeTrigger (trigger_field ev))
                       (booking_of ev) (Date_of_string s) (Date_of_string e)
                       a h (hostName_of (booking_of ev))
                       (location_of (booking_of ev)) uid
                       (sequence_or_zero (Payload.iCalSequence (booking_of ev)))
                       from) with
       | Return _ =>
           {| status := 200;
              body := HandledJson (normalizeTrigger (trigger_field ev)) |}
       | Throw _ =>
           {| status := 500; body := ErrorJson "Failed to process webhook" |}
       end).
Proof.
  intros R Hs He Ha Hh U Ef.
  rewrite (process_dispatches env ev s e a h R Hs He Ha Hh), U, bind_run, Ef.
  destruct (dispatch _ _ _ _ _ _ _ _ _ _ _ _) as [trd [[]|err]];
    cbn [trace result fst snd bind try_catch respond ret emit app];
    rewrite ?app_nil_r; reflexivity.
Qed.

(** The three handlers, with every field of what they build. *)
Lemma dispatch_shape_full env trigger payload startTime endTime attendee hostEmail
    hostName location bookingUid sequence from :
  trigger <> unknown ->
  exists email_of line,
    dispatch env trigger payload startTime endTime attendee hostEmail hostName
      location bookingUid sequence from
    = notify env
        {| Ics.uid := bookingUid;
           Ics.title := title_or_meeting payload;
           Ics.description := Payload.description payload;
           Ics.start := startTime;
           Ics.end_ := endTime;
           Ics.organizer := {| Ics.name := hostName; Ics.email := hostEmail |};
           Ics.attendee :=
             {| Ics.name := Ics.name attendee; Ics.email := Ics.email attendee |};
           Ics.location := Some location;
           Ics.sequence :=
             Some match trigger with
                  | BOOKING_CREATED => sequence
                  | _ => number_add sequence 1
                  end;
           Ics.status :=
             match trigger with
             | BOOKING_CANCELLED => Ics.CANCELLED
             | _ => Ics.CONFIRMED
             end;
           Ics.method :=
             match trigger with
             | BOOKING_CANCELLED => Ics.CANCEL
             | _ => Ics.REQUEST
             end |}
        email_of line /\
    forall ics,
      PostmarkData.from (email_of ics) = from /\
      PostmarkData.to (email_of ics) = Ics.email attendee /\
      PostmarkData.subject (email_of ics)
      = match trigger with
        | BOOKING_CREATED => "Confirmed: "
        | BOOKING_RESCHEDULED => "Rescheduled: "
        | _ => "Cancelled: "
        end ++ title_or_meeting payload /\
      PostmarkData.textBody (email_of ics) = None /\
      PostmarkData.icsContent (email_of ics) = Some ics /\
      PostmarkData.icsMethod (email_of ics)
      = Some match trigger with
             | BOOKING_CANCELLED => Ics.CANCEL
             | _ => Ics.REQUEST
             end.
Proof.
  intros H. destruct trigger; [| | |congruence];
    (eexists; eexists; split; [reflexivity|]); intros ics; repeat split.
Qed.

Lemma process_status env ev :
  exists r,
    result (process_event env ev) = Return r /\
    (status r = 200%Z \/ status r = 500%Z).
Proof.
  destruct (recognized_decide ev) as [U|R].
  { rewrite (process_ignores env ev U). eexists; split; [reflexivity|now left]. }
  destruct (fields_decide (booking_of ev)) as [M|F].
  { destruct (process_skips env ev R M) as (reason & _ & E). rewrite E.
    eexists; split; [reflexivity|now left]. }
  destruct (has_required_fields_inv _ F) as (s & e & a & h & Hs & He & Ha & Hh).
  destruct (bookingUid_run (booking_of ev)) as (tr & uid & U & _).
  destruct (present (POSTMARK_FROM_EMAIL env)) as [from|] eqn:Ef.
  - rewrite (process_configured env ev s e a h tr uid from R Hs He Ha Hh U Ef).
    eexists; split; [reflexivity|]. destruct (result _); [now left|now right].
  - rewrite (process_unconfigured_sender env ev s e a h tr uid R Hs He Ha Hh U Ef).
    eexists; split; [reflexivity|now right].
Qed.

(* ------------------------------------------------------------------ *)
(** *** Further properties of the receiver *)
(* ------------------------------------------------------------------ *)

Lemma untyped_not_rejected req :
  parses_to_untyped req -> JSON_parse (readRawBody req) <> None.
Proof. intros [H|H]; congruence. Qed.

Lemma untyped_not_typed req ev : parses_to_untyped req -> ~ parses_to req ev.
Proof. unfold Webhook.parses_to. intros [H|H]; congruence. Qed.

Lemma authenticated_inv env req :
  authenticated env req ->
  method req = "POST" /\
  forall secret,
    present (CAL_WEBHOOK_SECRET env) = Some secret ->
    present (x_cal_signature_256 req)
    = Some (hmac_sha256_hex secret (readRawBody req)).
Proof.
  intros (Hm & secret & Hs & Hsig). split; [exact Hm|].
  intros secret' Hs'. congruence.
Qed.

(** X1. A response of the receiver has one of the statuses 200, 400, 401,
    405 and 500, and 405 exactly when the method is not POST; a request
    that is not a POST is answered 405 with nothing read, computed or
    logged.  A correctly signed body that parses to [null] or to a value
    whose trigger is not a string gets no response: the receiver raises a
    [TypeError] outside its [try] block, after the digest and the parse and
    before any invite or email.  Every request that is not correctly signed,
    or whose body does not parse, or parses to a value of the declared
    type, gets a response. *)
Theorem handler_status_codes env req :
  (forall r,
      result (handler env req) = Return r ->
      In (status r) [200; 400; 401; 405; 500]%Z /\
      (status r = 405%Z <-> method req <> "POST")) /\
  (method req <> "POST" ->
   handler env req
   = ([], Return {| status := 405; body := ErrorJson "Method Not Allowed" |})) /\
  (authenticated env req -> parses_to_untyped req ->
   exists secret,
     present (CAL_WEBHOOK_SECRET env) = Some secret /\
     handler env req
     = ([HmacComputed secret (readRawBody req); JsonParseCalled (readRawBody req)],
        Throw match JSON_parse (readRawBody req) with
              | Some ParsedNonStringTrigger => trigger_not_a_string_error
              | _ => null_event_error
              end)) /\
  (~ authenticated env req \/ JSON_parse (readRawBody req) = None \/
   (exists ev, parses_to req ev) ->
   exists r, result (handler env req) = Return r).
Proof.
  split; [|split; [apply handler_not_post|split; [apply handler_untyped|]]].
  - intros r Hr.
    destruct (handler_paths env req)
      as [(Hm & E) | [(Hm & Hs & E) | [(secret & Hm & Hs & Hsig & E)
         | [(secret & A & Hp & E) | [(secret & ev & A & Hp & E)
         | (secret & e & A & Hp & E)]]]]]; rewrite E in Hr; cbn [result snd] in Hr.
    + injection Hr as <-. cbn. intuition congruence.
    + injection Hr as <-. cbn. intuition congruence.
    + injection Hr as <-. cbn. intuition congruence.
    + injection Hr as <-. cbn. destruct A as [Hm _]. intuition congruence.
    + destruct (process_status env ev) as (r' & Hr' & S).
      assert (r' = r) by congruence. subst r'.
      destruct A as [Hm _]. cbn. intuition congruence.
    + discriminate.
  - intros T.
    destruct (handler_paths env req)
      as [(Hm & E) | [(Hm & Hs & E) | [(secret & Hm & Hs & Hsig & E)
         | [(secret & A & Hp & E) | [(secret & ev & A & Hp & E)
         | (secret & e & A & Hp & E)]]]]]; rewrite E; cbn [result snd];
      try (eexists; reflexivity).
    + destruct (process_status env ev) as (r & Hr & _). now exists r.
    + exfalso. destruct T as [T | [T | [ev T]]].
      * now apply T.
      * now apply untyped_not_rejected in Hp.
      * now apply untyped_not_typed with (ev := ev) in Hp.
Qed.

(** X2. The answer is 401 exactly for a POST, received with the secret
    configured, whose signature header is missing, empty or different from
    the digest of the text that the bytes of the body spell in UTF-8: a
    correctly signed request is never answered 401, and nothing but a bad
    signature is. *)
Theorem unauthorized_iff_bad_signature env req :
  (exists r, result (handler env req) = Return r /\ status r = 401%Z) <->
  method req = "POST" /\
  exists secret,
    present (CAL_WEBHOOK_SECRET env) = Some secret /\
    present (x_cal_signature_256 req)
    <> Some (hmac_sha256_hex secret (utf8_text (String.concat "" (chunks req)))).
Proof.
  change (utf8_text (String.concat "" (chunks req))) with (readRawBody req).
  destruct (handler_paths env req)
    as [(Hm & E) | [(Hm & Hs & E) | [(secret & Hm & Hs & Hsig & E)
       | [(secret & A & Hp & E) | [(secret & ev & A & Hp & E)
       | (secret & e & A & Hp & E)]]]]]; rewrite E; cbn [result snd].
  - split; [intros (r & Hr & S); injection Hr as <-; discriminate|].
    intros [Hp _]. contradiction.
  - split; [intros (r & Hr & S); injection Hr as <-; discriminate|].
    intros (_ & secret & Hs' & _). congruence.
  - split; [|intros _; eexists; split; reflexivity].
    intros _. split; [exact Hm|]. now exists secret.
  - split; [intros (r & Hr & S); injection Hr as <-; discriminate|].
    apply authenticated_inv in A as [_ A].
    intros (_ & s2 & Hs2 & Hsig2). exfalso. exact (Hsig2 (A _ Hs2)).
  - split.
    + intros (r & Hr & S). destruct (process_status env ev) as (r' & Hr' & S').
      assert (r' = r) by congruence. subst r'. lia.
    + apply authenticated_inv in A as [_ A].
      intros (_ & s2 & Hs2 & Hsig2). exfalso. exact (Hsig2 (A _ Hs2)).
  - split; [intros (r & Hr & S); discriminate|].
    apply authenticated_inv in A as [_ A].
    intros (_ & s2 & Hs2 & Hsig2). exfalso. exact (Hsig2 (A _ Hs2)).
Qed.

(** X3. The answer is 400 exactly for an authenticated request whose body,
    read as UTF-8 text, [JSON.parse] rejects; a run answered 400 builds no
    invite and sends no email. *)
Theorem bad_request_iff_invalid_json env req :
  ((exists r, result (handler env req) = Return r /\ status r = 400%Z) <->
   authenticated env req /\
   JSON_parse (utf8_text (String.concat "" (chunks req))) = None) /\
  (forall r,
      result (handler env req) = Return r -> status r = 400%Z ->
      invites (trace (handler env req)) = [] /\
      emails (trace (handler env req)) = []).
Proof.
  change (utf8_text (String.concat "" (chunks req))) with (readRawBody req).
  destruct (handler_paths env req)
    as [(Hm & E) | [(Hm & Hs & E) | [(secret & Hm & Hs & Hsig & E)
       | [(secret & A & Hp & E) | [(secret & ev & A & Hp & E)
       | (secret & e & A & Hp & E)]]]]]; rewrite E; cbn [result snd].
  - split; [|intros r Hr; injection Hr as <-; discriminate].
    split; [intros (r & Hr & S); injection Hr as <-; discriminate|].
    intros [[Hp _] _]. contradiction.
  - split; [|intros r Hr; injection Hr as <-; discriminate].
    split; [intros (r & Hr & S); injection Hr as <-; discriminate|].
    intros [(_ & secret & Hs' & _) _]. congruence.
  - split; [|intros r Hr; injection Hr as <-; discriminate].
    split; [intros (r & Hr & S); injection Hr as <-; discriminate|].
    intros [A _]. apply authenticated_inv in A as [_ A]. exfalso; exact (Hsig (A _ Hs)).
  - split; [|intros r _ _; split; reflexivity].
    split; [intros _; now split|]. intros _. eexists; split; reflexivity.
  - destruct (process_status env ev) as (r' & Hr' & S').
    split; [|intros r Hr; assert (r' = r) by congruence; subst r'; lia].
    split.
    + intros (r & Hr & S). assert (r' = r) by congruence. subst r'. lia.
    + intros [_ N]. unfold Webhook.parses_to in Hp. congruence.
  - split; [|intros r Hr; discriminate].
    split; [intros (r & Hr & S); discriminate|].
    intros [_ N]. now apply untyped_not_rejected in Hp.
Qed.

Lemma notify_emails env params email_of line :
  emails (trace (notify env params email_of line))
  = match Ics.error (createEvent (Ics.event_attributes params)) with
    | Some _ => []
    | None =>
        match present (POSTMARK_SERVER_API_TOKEN env) with
        | None => []
        | Some _ =>
            [message_of
               (email_of
                  (or_default
                     (Ics.value (createEvent (Ics.event_attributes params))) ""))]
        end
    end.
Proof. rewrite notify_trace. by_cases. Qed.

(** What a run of [process_event] built and sent: nothing, or one invite
    and at most one email. *)
Lemma process_effects env ev :
  (invites (trace (process_event env ev)) = [] /\
   emails (trace (process_event env ev)) = []) \/
  (recognized ev /\ has_required_fields (booking_of ev) /\
   present (POSTMARK_FROM_EMAIL env) <> None /\
   exists a,
     invites (trace (process_event env ev)) = [a] /\
     (emails (trace (process_event env ev)) = [] \/
      exists m,
        emails (trace (process_event env ev)) = [m] /\
        Ics.error (createEvent a) = None /\
        present (POSTMARK_SERVER_API_TOKEN env) <> None)).
Proof.
  destruct (recognized_decide ev) as [U|R].
  { left. rewrite (process_ignores env ev U). split; reflexivity. }
  destruct (fields_decide (booking_of ev)) as [M|F].
  { left. destruct (process_skips env ev R M) as (reason & _ & E). rewrite E.
    split; reflexivity. }
  destruct (has_required_fields_inv _ F) as (s & e & a & h & Hs & He & Ha & Hh).
  destruct (bookingUid_run (booking_of ev)) as (tr & uid & U & Iu & Eu).
  destruct (present (POSTMARK_FROM_EMAIL env)) as [from|] eqn:Ef.
  2:{ left.
      rewrite (process_unconfigured_sender env ev s e a h tr uid R Hs He Ha Hh U Ef).
      cbn [trace fst]. rewrite invites_app, emails_app, Iu, Eu. split; reflexivity. }
  right. split; [exact R|]. split; [exact F|]. split; [discriminate|].
  rewrite (process_configured env ev s e a h tr uid from R Hs He Ha Hh U Ef).
  cbn [trace fst].
  destruct (dispatch_shape_full env (normalizeTrigger (trigger_field ev))
              (booking_of ev) (Date_of_string s) (Date_of_string e) a h
              (hostName_of (booking_of ev)) (location_of (booking_of ev)) uid
              (sequence_or_zero (Payload.iCalSequence (booking_of ev))) from R)
    as (email_of & line & D & _).
  rewrite D. set (params := Ics.mkParams _ _ _ _ _ _ _ _ _ _ _).
  exists (Ics.event_attributes params).
  rewrite !invites_app, !emails_app, Iu, Eu, notify_invites, notify_emails.
  cbn [app]. split.
  - destruct (result _); reflexivity.
  - destruct (Ics.error (createEvent (Ics.event_attributes params))) eqn:Er.
    + left. destruct (result _); reflexivity.
    + destruct (present (POSTMARK_SERVER_API_TOKEN env)) eqn:Et.
      * right. eexists. split; [|split; [reflexivity|discriminate]].
        destruct (result _); reflexivity.
      * left. destruct (result _); reflexivity.
Qed.

Lemma handler_effects env req :
  (invites (trace (handler env req)) = [] /\
   emails (trace (handler env req)) = []) \/
  (exists ev,
      authenticated env req /\ parses_to req ev /\
      invites (trace (handler env req)) = invites (trace (process_event env ev)) /\
      emails (trace (handler env req)) = emails (trace (process_event env ev))).
Proof.
  destruct (handler_paths env req)
    as [(Hm & E) | [(Hm & Hs & E) | [(secret & Hm & Hs & Hsig & E)
       | [(secret & A & Hp & E) | [(secret & ev & A & Hp & E)
       | (secret & e & A & Hp & E)]]]]];
    try (left; rewrite E; split; reflexivity).
  right. exists ev. rewrite E.
  split; [exact A|]. split; [exact Hp|]. split; reflexivity.
Qed.

(** X4. The receiver calls [createEvent] only for an authenticated request
    whose body parses, whose trigger is recognized and whose four required
    fields are present, and only with the sender address configured.  It
    calls the email provider only after it has built an invite that
    [createEvent] accepted, and only with the API token configured. *)
Theorem effects_require_acceptance env req :
  (invites (trace (handler env req)) <> [] ->
   authenticated env req /\
   exists ev,
     parses_to req ev /\ recognized ev /\
     has_required_fields (booking_of ev) /\
     present (POSTMARK_FROM_EMAIL env) <> None) /\
  (emails (trace (handler env req)) <> [] ->
   invites (trace (handler env req)) <> [] /\
   present (POSTMARK_SERVER_API_TOKEN env) <> None /\
   forall a, In a (invites (trace (handler env req))) ->
             Ics.error (createEvent a) = None).
Proof.
  destruct (handler_effects env req) as [[I E] | (ev & A & P & I & E)].
  { rewrite I, E. split; intros H; congruence. }
  rewrite I, E.
  destruct (process_effects env ev) as [[I' E'] | (R & F & Ef & a & I' & Em)].
  { rewrite I', E'. split; intros H; congruence. }
  rewrite I'. split.
  - intros _. split; [exact A|]. now exists ev.
  - destruct Em as [-> | (m & -> & Er & Et)]; [congruence|].
    intros _. split; [discriminate|]. split; [exact Et|].
    intros a' [<-|[]]. exact Er.
Qed.

(** X5. A run of the receiver builds at most one invite and submits at most
    one message to the email provider: nothing is retried. *)
Theorem at_most_one_invite_and_email env req :
  (List.length (invites (trace (handler env req))) <= 1)%nat /\
  (List.length (emails (trace (handler env req))) <= 1)%nat.
Proof.
  destruct (handler_effects env req) as [[I E] | (ev & A & P & I & E)].
  { rewrite I, E. cbn. lia. }
  rewrite I, E.
  destruct (process_effects env ev) as [[I' E'] | (R & F & Ef & a & I' & Em)].
  { rewrite I', E'. cbn. lia. }
  rewrite I'. destruct Em as [-> | (m & -> & _)]; cbn; lia.
Qed.

Lemma trace_pair {A} (tr : list Event) (r : outcome A) : trace (tr, r) = tr.
Proof. reflexivity. Qed.

Lemma result_pair {A} (tr : list Event) (r : outcome A) : result (tr, r) = r.
Proof. reflexivity. Qed.

(** A run that reaches one of the three handlers, in full. *)
Lemma handler_processable env req ev s e a h tr uid from :
  authenticated env req -> parses_to req ev -> recognized ev ->
  present (Payload.startTime (booking_of ev)) = Some s ->
  present (Payload.endTime (booking_of ev)) = Some e ->
  first_attendee (booking_of ev) = Some a ->
  present (hostEmail_of (booking_of ev)) = Some h ->
  bookingUid_of randomUUID (booking_of ev) = (tr, Return uid) ->
  present (POSTMARK_FROM_EMAIL env) = Some from ->
  exists email_of,
    (forall ics,
        PostmarkData.from (email_of ics) = from /\
        PostmarkData.to (email_of ics) = Ics.email a /\
        PostmarkData.subject (email_of ics)
        = match normalizeTrigger (trigger_field ev) with
          | BOOKING_CREATED => "Confirmed: "
          | BOOKING_RESCHEDULED => "Rescheduled: "
          | _ => "Cancelled: "
          end ++ title_or_meeting (booking_of ev) /\
        PostmarkData.textBody (email_of ics) = None /\
        PostmarkData.icsContent (email_of ics) = Some ics /\
        PostmarkData.icsMethod (email_of ics)
        = Some match normalizeTrigger (trigger_field ev) with
               | BOOKING_CANCELLED => Ics.CANCEL
               | _ => Ics.REQUEST
               end) /\
    invites (trace (handler env req))
    = [Ics.event_attributes
         {| Ics.uid := uid;
            Ics.title := title_or_meeting (booking_of ev);
            Ics.description := Payload.description (booking_of ev);
            Ics.start := Date_of_string s;
            Ics.end_ := Date_of_string e;
            Ics.organizer :=
              {| Ics.name := hostName_of (booking_of ev); Ics.email := h |};
            Ics.attendee := {| Ics.name := Ics.name a; Ics.email := Ics.email a |};
            Ics.location := Some (location_of (booking_of ev));
            Ics.sequence :=
              Some match normalizeTrigger (trigger_field ev) with
                   | BOOKING_CREATED =>
                       sequence_or_zero (Payload.iCalSequence (booking_of ev))
                   | _ =>
                       number_add
                         (sequence_or_zero (Payload.iCalSequence (booking_of ev))) 1
                   end;
            Ics.status :=
              match normalizeTrigger (trigger_field ev) with
              | BOOKING_CANCELLED => Ics.CANCELLED
              | _ => Ics.CONFIRMED
              end;
            Ics.method :=
              match normalizeTrigger (trigger_field ev) with
              | BOOKING_CANCELLED => Ics.CANCEL
              | _ => Ics.REQUEST
              end |}] /\
    (forall a',
        invites (trace (handler env req)) = [a'] ->
        emails (trace (handler env req))
        = match Ics.error (createEvent a') with
          | Some _ => []
          | None =>
              match present (POSTMARK_SERVER_API_TOKEN env) with
              | None => []
              | Some _ =>
                  [message_of (email_of (or_default (Ics.value (createEvent a')) ""))]
              end
          end /\
        result (handler env req)
        = Return
            match Ics.error (createEvent a') with
            | Some _ =>
                {| status := 500; body := ErrorJson "Failed to process webhook" |}
            | None =>
                match present (POSTMARK_SERVER_API_TOKEN env) with
                | None =>
                    {| status := 500; body := ErrorJson "Failed to process webhook" |}
                | Some token =>
                    match fetch postmark_url token
                            (message_of
                               (email_of
                                  (or_default (Ics.value (createEvent a')) ""))) with
                    | Throw _ =>
                        {| status := 500;
                           body := ErrorJson "Failed to process webhook" |}
                    | Return r =>
                        if PostmarkData.ok r
                        then {| status := 200;
                                body := HandledJson
                                          (normalizeTrigger (trigger_field ev)) |}
                        else {| status := 500;
                                body := ErrorJson "Failed to process webhook" |}
                    end
                end
            end).
Proof.
  intros A P R Hs He Ha Hh U Ef.
  destruct (handler_accepts env req ev A P) as (secret & _ & E).
  destruct (dispatch_shape_full env (normalizeTrigger (trigger_field ev))
              (booking_of ev) (Date_of_string s) (Date_of_string e) a h
              (hostName_of (booking_of ev)) (location_of (booking_of ev)) uid
              (sequence_or_zero (Payload.iCalSequence (booking_of ev))) from R)
    as (email_of & line & D & Em).
  exists email_of. split; [exact Em|].
  rewrite E, (process_configured env ev s e a h tr uid from R Hs He Ha Hh U Ef), D.
  set (params := Ics.mkParams _ _ _ _ _ _ _ _ _ _ _).
  rewrite !trace_pair, !result_pair.
  assert (Iu : invites tr = [] /\ emails tr = []).
  { unfold bookingUid_of in U. destruct (str_truthy _); inversion U; split; reflexivity. }
  destruct Iu as [Iu Eu].
  assert (I : invites (HmacComputed secret (readRawBody req)
                         :: JsonParseCalled (readRawBody req)
                         :: (tr ++ trace (notify env params email_of line)
                               ++ match result (notify env params email_of line) with
                                  | Return _ => []
                                  | Throw _ => [ConsoleError "Error processing webhook:"]
                                  end)%list)
              = [Ics.event_attributes params]).
  { rewrite !invites_cons, !invites_app, Iu, notify_invites. cbn [app].
    destruct (result (notify env params email_of line)); reflexivity. }
  split; [exact I|].
  intros a' Ha'. rewrite I in Ha'. injection Ha' as <-. split.
  - change (emails (?x :: ?y :: ?l)) with (emails l).
    rewrite !emails_app, Eu, notify_emails. cbn [app].
    destruct (result (notify env params email_of line));
      cbn [emails flat_map]; now rewrite app_nil_r.
  - rewrite notify_result. cbv zeta.
    destruct (Ics.error _); [reflexivity|].
    destruct (present (POSTMARK_SERVER_API_TOKEN env)); [|reflexivity].
    destruct (fetch _ _ _) as [r|err]; [|reflexivity].
    destruct (PostmarkData.ok r); reflexivity.
Qed.

(** X6. The message submitted for an authenticated, processable request
    goes from the configured sender to the first attendee, on the stream
    outbound, with the subject of its trigger and no text body.  Its
    attachment carries the document [createEvent] returned, base64-encoded,
    under the method of the invite; when [createEvent] returned no document
    (or an empty one) the message has no attachment at all. *)
Theorem email_envelope env req ev a from :
  authenticated env req -> parses_to req ev -> recognized ev ->
  has_required_fields (booking_of ev) ->
  first_attendee (booking_of ev) = Some a ->
  present (POSTMARK_FROM_EMAIL env) = Some from ->
  forall m, In m (emails (trace (handler env req))) ->
    PostmarkData.From m = from /\
    PostmarkData.To m = Ics.email a /\
    PostmarkData.Subject m
    = match normalizeTrigger (trigger_field ev) with
      | BOOKING_CREATED => "Confirmed: "
      | BOOKING_RESCHEDULED => "Rescheduled: "
      | _ => "Cancelled: "
      end ++ or_default (Payload.title (booking_of ev)) "Meeting" /\
    PostmarkData.MessageStream m = "outbound" /\
    PostmarkData.TextBody m = None /\
    exists invite,
      invites (trace (handler env req)) = [invite] /\
      PostmarkData.Attachments m
      = match present (Ics.value (createEvent invite)) with
        | None => None
        | Some doc =>
            Some [ {| PostmarkData.Name := "invite.ics";
                      PostmarkData.Content := PostmarkData.base64_encode doc;
                      PostmarkData.ContentType :=
                        PostmarkData.calendar_content_type
                          (Ics.Method_to_string (Ics.ev_method invite)) |} ]
        end.
Proof.
  intros A P R F Ha Ef m Hm.
  destruct (has_required_fields_inv _ F) as (s & e & a0 & h & Hs & He & Ha0 & Hh).
  assert (a0 = a) by congruence. subst a0.
  destruct (bookingUid_run (booking_of ev)) as (tr & uid & U & _).
  destruct (handler_processable env req ev s e a h tr uid from A P R Hs He Ha Hh U Ef)
    as (email_of & Em & I & K).
  destruct (K _ I) as [E _]. rewrite E in Hm. clear K E.
  set (invite := Ics.event_attributes _) in *.
  destruct (Ics.error (createEvent invite)); [destruct Hm|].
  destruct (present (POSTMARK_SERVER_API_TOKEN env)); [|destruct Hm].
  destruct Hm as [<-|[]].
  set (ics := or_default (Ics.value (createEvent invite)) "").
  destruct (Em ics) as (E1 & E2 & E3 & E4 & E5 & E6).
  unfold message_of, attachments_of.
  cbn [PostmarkData.From PostmarkData.To PostmarkData.Subject
       PostmarkData.MessageStream PostmarkData.TextBody PostmarkData.Attachments].
  rewrite E1, E2, E3, E4, E5, E6.
  repeat (split; [reflexivity|]).
  exists invite. split; [exact I|].
  unfold ics, present, truthy, or_default.
  destruct (Ics.value (createEvent invite)) as [doc|]; [|reflexivity].
  destruct (str_truthy doc) eqn:T; [|reflexivity].
  cbn [truthy]. rewrite T. cbn [List.length Nat.ltb Nat.leb].
  unfold invite. cbn [Ics.event_attributes Ics.ev_method Ics.method].
  now destruct (normalizeTrigger (trigger_field ev)).
Qed.

(** X7. For an authenticated, processable request with the sender address
    configured, the answer is 200 (naming the trigger) exactly when the
    provider call was made and resolved to a success response; in every
    other case (the invite rejected, the API token missing, the call
    rejected, a non-success status) it is 500, failed to process. *)
Theorem processed_status env req ev from :
  authenticated env req -> parses_to req ev -> recognized ev ->
  has_required_fields (booking_of ev) ->
  present (POSTMARK_FROM_EMAIL env) = Some from ->
  exists r,
    result (handler env req) = Return r /\
    (r = {| status := 200; body := HandledJson (normalizeTrigger (trigger_field ev)) |}
     \/ r = {| status := 500; body := ErrorJson "Failed to process webhook" |}) /\
    (status r = 200%Z <->
     exists token m response,
       present (POSTMARK_SERVER_API_TOKEN env) = Some token /\
       emails (trace (handler env req)) = [m] /\
       fetch postmark_url token m = Return response /\
       PostmarkData.ok response = true).
Proof.
  intros A P R F Ef.
  destruct (has_required_fields_inv _ F) as (s & e & a & h & Hs & He & Ha & Hh).
  destruct (bookingUid_run (booking_of ev)) as (tr & uid & U & _).
  destruct (handler_processable env req ev s e a h tr uid from A P R Hs He Ha Hh U Ef)
    as (email_of & Em & I & K).
  destruct (K _ I) as [E Hr]. rewrite E, Hr. clear K E Hr.
  set (invite := Ics.event_attributes _) in *.
  eexists. split; [reflexivity|].
  destruct (Ics.error (createEvent invite)).
  { split; [now right|]. cbn. split; [discriminate|].
    intros (? & ? & ? & _ & N & _). discriminate. }
  destruct (present (POSTMARK_SERVER_API_TOKEN env)) as [token|].
  2:{ split; [now right|]. cbn. split; [discriminate|].
      intros (? & ? & ? & N & _). discriminate. }
  destruct (fetch _ _ _) as [response|err] eqn:Ff.
  2:{ split; [now right|]. cbn. split; [discriminate|].
      intros (t' & m' & r' & Ht & Hm & Hf & _).
      injection Ht as <-. injection Hm as <-. congruence. }
  destruct (PostmarkData.ok response) eqn:Ok.
  - split; [now left|]. cbn. split; [|reflexivity].
    intros _. exists token. eexists. exists response.
    split; [reflexivity|]. split; [reflexivity|]. split; [exact Ff|exact Ok].
  - split; [now right|]. cbn. split; [discriminate|].
    intros (t' & m' & r' & Ht & Hm & Hf & Ok').
    injection Ht as <-. injection Hm as <-. congruence.
Qed.

Lemma sequence_or_zero_eq x :
  sequence_or_zero x = match x with Some n => n | None => 0%Z end.
Proof.
  unfold sequence_or_zero. destruct x as [n|]; [|reflexivity].
  destruct (Z.eqb_spec n 0); congruence.
Qed.

(** X8. The invite of an authenticated, processable request follows its
    trigger: a cancellation is built with status CANCELLED, method CANCEL,
    the attendee DECLINED and the time FREE; a creation or a reschedule
    with CONFIRMED, REQUEST, ACCEPTED and BUSY.  Its sequence is the
    payload's [iCalSequence] (0 when absent) for a creation and, for a
    reschedule or a cancellation, that number plus one in double
    arithmetic: exactly one more when it lies between -2^53 and 2^53 - 1. *)
Theorem invite_follows_trigger env req ev from :
  authenticated env req -> parses_to req ev -> recognized ev ->
  has_required_fields (booking_of ev) ->
  present (POSTMARK_FROM_EMAIL env) = Some from ->
  exists invite,
    invites (trace (handler env req)) = [invite] /\
    (Ics.ev_status invite, Ics.ev_method invite, Ics.ev_busyStatus invite,
     map Ics.att_partstat (Ics.ev_attendees invite))
    = match normalizeTrigger (trigger_field ev) with
      | BOOKING_CANCELLED => (Ics.CANCELLED, Ics.CANCEL, Ics.FREE, [Ics.DECLINED])
      | _ => (Ics.CONFIRMED, Ics.REQUEST, Ics.BUSY, [Ics.ACCEPTED])
      end /\
    Ics.ev_sequence invite
    = match normalizeTrigger (trigger_field ev) with
      | BOOKING_CREATED =>
          match Payload.iCalSequence (booking_of ev) with
          | Some n => n
          | None => 0%Z
          end
      | _ =>
          number_add match Payload.iCalSequence (booking_of ev) with
                     | Some n => n
                     | None => 0%Z
                     end 1
      end /\
    (forall n,
        match Payload.iCalSequence (booking_of ev) with
        | Some n => n
        | None => 0%Z
        end = n ->
        (- 2 ^ 53 <= n < 2 ^ 53)%Z ->
        Ics.ev_sequence invite
        = (n + match normalizeTrigger (trigger_field ev) with
               | BOOKING_CREATED => 0
               | _ => 1
               end)%Z).
Proof.
  intros A P R F Ef.
  destruct (has_required_fields_inv _ F) as (s & e & a & h & Hs & He & Ha & Hh).
  destruct (bookingUid_run (booking_of ev)) as (tr & uid & U & _).
  destruct (handler_processable env req ev s e a h tr uid from A P R Hs He Ha Hh U Ef)
    as (email_of & _ & I & _).
  eexists. split; [exact I|].
  cbn [Ics.event_attributes Ics.ev_status Ics.ev_method Ics.ev_busyStatus
       Ics.ev_attendees Ics.ev_sequence Ics.att_partstat map
       Ics.status Ics.method Ics.sequence].
  rewrite sequence_or_zero_eq. split; [|split].
  - now destruct (normalizeTrigger (trigger_field ev)).
  - now destruct (normalizeTrigger (trigger_field ev)).
  - intros n -> B.
    destruct (normalizeTrigger (trigger_field ev));
      rewrite ?(number_add_one n B); lia.
Qed.

Lemma Number_toString_safe n :
  (0 < n < 2 ^ 53)%Z -> Number_toString n = decimal n.
Proof.
  intros B. unfold Number_toString.
  destruct (Z.eqb_spec n 0) as [E|_]; [lia|].
  destruct (Z.ltb_spec n 0) as [E|_]; [lia|].
  rewrite Z.abs_eq by lia.
  destruct (Z.ltb_spec n (2 ^ 53)) as [_|E]; [reflexivity|lia].
Qed.

(** X9. The identifier of the invite does not depend on the trigger: it is
    the first non-empty one of [iCalUID], [bookingUid] and [uid]; failing
    these, [String(bookingId)] when that is not empty, and a random UUID
    when it is.  So the created, rescheduled and cancelled invites of one
    booking carry one identifier, unless it had to be drawn at random.
    [String] leaves a string as it is, turns an absent [bookingId] into
    undefined and a number into its decimal digits: all of them below 2^53,
    the shortest ones that read back as the number from there on, in
    exponent notation from 10^21. *)
Theorem invite_identifier env req ev from :
  authenticated env req -> parses_to req ev -> recognized ev ->
  has_required_fields (booking_of ev) ->
  present (POSTMARK_FROM_EMAIL env) = Some from ->
  (exists invite,
      invites (trace (handler env req)) = [invite] /\
      Ics.ev_uid invite
      = match present (Payload.iCalUID (booking_of ev)),
              present (Payload.bookingUid (booking_of ev)),
              present (Payload.uid (booking_of ev)) with
        | Some u, _, _ => u
        | None, Some u, _ => u
        | None, None, Some u => u
        | None, None, None =>
            if str_truthy (String_of (Payload.bookingId (booking_of ev)))
            then String_of (Payload.bookingId (booking_of ev))
            else randomUUID
        end) /\
  String_of None = "undefined" /\
  (forall s, String_of (Some (inl s)) = s) /\
  (forall n, (0 < n < 2 ^ 53)%Z -> String_of (Some (inr n)) = decimal n) /\
  String_of (Some (inr 0%Z)) = "0" /\
  String_of (Some (inr 1042%Z)) = "1042" /\
  String_of (Some (inr (-17)%Z)) = "-17" /\
  String_of (Some (inr (2 ^ 53 - 1)%Z)) = "9007199254740991" /\
  String_of (Some (inr (2 ^ 60)%Z)) = "1152921504606847000" /\
  String_of (Some (inr (10 ^ 21)%Z)) = "1e+21" /\
  String_of (Some (inr (2 ^ 70)%Z)) = "1.1805916207174113e+21".
Proof.
  intros A P R F Ef. split.
  2:{ split; [reflexivity|]. split; [reflexivity|].
      split; [exact Number_toString_safe|].
      repeat split; vm_compute; reflexivity. }
  destruct (has_required_fields_inv _ F) as (s & e & a & h & Hs & He & Ha & Hh).
  destruct (bookingUid_run (booking_of ev)) as (tr & uid & U & _).
  destruct (handler_processable env req ev s e a h tr uid from A P R Hs He Ha Hh U Ef)
    as (email_of & _ & I & _).
  eexists. split; [exact I|].
  cbn [Ics.event_attributes Ics.ev_uid Ics.uid].
  unfold bookingUid_of in U. unfold present, or_default, or_else, truthy in *.
  destruct (Payload.iCalUID (booking_of ev)) as [u1|];
    [destruct (str_truthy u1) eqn:T1|];
    (destruct (Payload.bookingUid (booking_of ev)) as [u2|];
     [destruct (str_truthy u2) eqn:T2|]);
    (destruct (Payload.uid (booking_of ev)) as [u3|];
     [destruct (str_truthy u3) eqn:T3|]);
    cbn [truthy] in U; rewrite ?T1, ?T2, ?T3 in U; cbn [truthy] in U;
    rewrite ?T1, ?T2, ?T3 in U;
    try (injection U as _ <-; reflexivity);
    destruct (str_truthy (String_of (Payload.bookingId (booking_of ev))));
    injection U as _ <-; reflexivity.
Qed.

(** X10. The invite of an authenticated, processable request names the
    host as organizer ([hostEmail], else [organizer.email]) and the first
    attendee as its only attendee, with role REQ-PARTICIPANT and RSVP.  A
    missing or empty name becomes Organizer or Attendee, a missing or empty
    title Meeting.  Start and end are the UTC date arrays of the payload's
    [startTime] and [endTime]. *)
Theorem invite_reflects_payload env req ev s e a h from :
  authenticated env req -> parses_to req ev -> recognized ev ->
  present (Payload.startTime (booking_of ev)) = Some s ->
  present (Payload.endTime (booking_of ev)) = Some e ->
  first_attendee (booking_of ev) = Some a ->
  present (hostEmail_of (booking_of ev)) = Some h ->
  present (POSTMARK_FROM_EMAIL env) = Some from ->
  exists invite,
    invites (trace (handler env req)) = [invite] /\
    Ics.ev_organizer_email invite = h /\
    Ics.ev_organizer_name invite
    = or_default (hostName_of (booking_of ev)) "Organizer" /\
    Ics.ev_attendees invite
    = [ {| Ics.att_name := or_default (Ics.name a) "Attendee";
           Ics.att_email := Ics.email a;
           Ics.att_partstat :=
             match normalizeTrigger (trigger_field ev) with
             | BOOKING_CANCELLED => Ics.DECLINED
             | _ => Ics.ACCEPTED
             end;
           Ics.att_role := "REQ-PARTICIPANT";
           Ics.att_rsvp := true |} ] /\
    Ics.ev_title invite = or_default (Payload.title (booking_of ev)) "Meeting" /\
    Ics.ev_start invite = Ics.toDateArray (Date_of_string s) /\
    Ics.ev_end invite = Ics.toDateArray (Date_of_string e) /\
    Ics.ev_startInputType invite = "utc".
Proof.
  intros A P R Hs He Ha Hh Ef.
  destruct (bookingUid_run (booking_of ev)) as (tr & uid & U & _).
  destruct (handler_processable env req ev s e a h tr uid from A P R Hs He Ha Hh U Ef)
    as (email_of & _ & I & _).
  eexists. split; [exact I|].
  cbn [Ics.event_attributes Ics.ev_organizer_email Ics.ev_organizer_name
       Ics.ev_attendees Ics.ev_title Ics.ev_start Ics.ev_end Ics.ev_startInputType
       Ics.organizer Ics.attendee Ics.name Ics.email Ics.title Ics.start Ics.end_
       Ics.status].
  repeat split.
  now destruct (normalizeTrigger (trigger_field ev)).
Qed.

(** X11. The skip reason names the first check that fails, in the order
    times, attendee, host: missing start/end time when either time is
    missing, else no attendee email, else no host email.  The attendee is
    the first element of [attendees] when that key is present, even as an
    empty array: [attendeesList] is read only when [attendees] is absent,
    and no later element is ever looked at. *)
Theorem skip_reason_order env req ev :
  authenticated env req -> parses_to req ev -> recognized ev ->
  (present (Payload.startTime (booking_of ev)) = None \/
   present (Payload.endTime (booking_of ev)) = None ->
   result (handler env req)
   = Return {| status := 200; body := SkippedJson "missing start/end time" |}) /\
  (present (Payload.startTime (booking_of ev)) <> None ->
   present (Payload.endTime (booking_of ev)) <> None ->
   (first_attendee (booking_of ev) = None ->
    result (handler env req)
    = Return {| status := 200; body := SkippedJson "no attendee email" |}) /\
   (first_attendee (booking_of ev) <> None ->
    present (hostEmail_of (booking_of ev)) = None ->
    result (handler env req)
    = Return {| status := 200; body := SkippedJson "no host email" |})) /\
  (first_attendee (booking_of ev)
   = match Payload.attendees (booking_of ev), Payload.attendeesList (booking_of ev) with
     | Some (first :: _), _ | None, Some (first :: _) =>
         if str_truthy (Ics.email first) then Some first else None
     | _, _ => None
     end).
Proof.
  intros A P R. destruct (handler_accepts env req ev A P) as (secret & _ & E).
  rewrite E, result_pair. unfold Webhook.process_event.
  rewrite (recognized_not_unknown _ R). cbv zeta.
  split; [|split].
  - intros [H|H]; rewrite H; cbn [option_map]; [reflexivity|].
    now destruct (option_map _ _).
  - intros Hs He.
    destruct (present (Payload.startTime (booking_of ev))); [|congruence].
    destruct (present (Payload.endTime (booking_of ev))); [|congruence].
    cbn [option_map]. split.
    + intros ->. reflexivity.
    + intros Ha Hh. destruct (first_attendee (booking_of ev)); [|congruence].
      now rewrite Hh.
  - unfold first_attendee, attendees_of.
    destruct (Payload.attendees (booking_of ev)) as [[|x l]|];
      [destruct (Payload.attendeesList (booking_of ev)) as [[|y k]|]| |];
      try reflexivity.
    destruct (Payload.attendeesList (booking_of ev)) as [[|y k]|]; reflexivity.
Qed.

End ReceiverFacts.

(* ------------------------------------------------------------------ *)
(** *** The properties on the sample requests *)
(* ------------------------------------------------------------------ *)

Section OnSamples.
Import Samples.

Local Abbreviation on_stubs thm :=
  (thm upper_stub stub_hmac parse date_of_string toLocaleString randomUUID
       createEvent_ok fetch_ok stringify render).
Local Abbreviation normalizeTrigger := (Trigger.normalizeTrigger upper_stub).
Local Abbreviation normal_form := (Trigger.normal_form upper_stub).

Lemma sample_authenticated body env :
  Webhook.utf8_text body = body ->
  env = env_full \/ env = env_secret_only ->
  Webhook.authenticated stub_hmac env (signed body).
Proof.
  intros T E. split; [reflexivity|]. exists secret.
  destruct E as [-> | ->]; (split; [reflexivity|]);
    unfold Webhook.readRawBody; cbn [Webhook.chunks signed String.concat];
    rewrite T; reflexivity.
Defined.

Lemma created_body_text : Webhook.utf8_text created_body = created_body.
Proof. vm_compute. reflexivity. Defined.

(** C1 as stated fails on a body that is not UTF-8: the digest is taken
    over the text read from the body, which is then not the body.  A request
    whose one byte is FF is rejected under the digest of that byte, and
    accepted (its body then handed to the parser) under the digest of the
    three bytes of U+FFFD, a header that differs from the digest of the
    body. *)
Lemma digest_is_of_the_decoded_body :
  Webhook.x_cal_signature_256 (signed_as replacement_text ill_formed_body)
  <> Some (stub_hmac secret
             (String.concat "" (Webhook.chunks
                                  (signed_as replacement_text ill_formed_body)))) /\
  Samples.handler env_full (signed_as replacement_text ill_formed_body)
  = ([HmacComputed secret replacement_text; JsonParseCalled replacement_text],
     Return {| status := 400; body := ErrorJson "Invalid JSON" |}) /\
  replacement_text <> ill_formed_body /\
  Samples.handler env_full (signed ill_formed_body)
  = ([HmacComputed secret replacement_text;
      ConsoleError "Invalid webhook signature"],
     Return {| status := 401; body := ErrorJson "Invalid signature" |}).
Proof.
  split; [vm_compute; discriminate|].
  split; [vm_compute; reflexivity|].
  split; [vm_compute; discriminate|].
  vm_compute; reflexivity.
Qed.

(** C1, amended, on a forged and on an unsigned request. *)
Lemma signature_gate_witness :
  hd_error (trace (Samples.handler env_full (forged created_body)))
  = Some (HmacComputed secret created_body) /\
  result (Samples.handler env_full (forged created_body))
  = Return {| status := 401; body := ErrorJson "Invalid signature" |} /\
  invites (trace (Samples.handler env_full (forged created_body))) = [] /\
  result (Samples.handler env_full (unsigned created_body))
  = Return {| status := 401; body := ErrorJson "Invalid signature" |}.
Proof.
  destruct (on_stubs signature_gate env_full (forged created_body) secret)
    as (H & _ & _ & R & _ & I & _);
    [reflexivity | reflexivity | vm_compute; discriminate |].
  destruct (on_stubs signature_gate env_full (unsigned created_body) secret)
    as (_ & _ & _ & R' & _); [reflexivity | reflexivity | discriminate |].
  cbn [Webhook.chunks forged String.concat] in H.
  rewrite created_body_text in H.
  exact (conj H (conj R (conj I R'))).
Defined.

(** C2 as stated fails: a trigger that contains RESCHEDULED, and CREATED
    as well, classifies as created.  (The trigger is ASCII: the case mapping
    outside ASCII plays no part.) *)
Lemma rescheduled_keyword_not_decisive :
  occurs_in "RESCHEDULED" (normal_form "rescheduled booking created") /\
  normalizeTrigger (Some "rescheduled booking created") = BOOKING_CREATED /\
  normalizeTrigger (Some "rescheduled booking created") <> BOOKING_RESCHEDULED.
Proof.
  split; [|split].
  - exists "", "_BOOKING_CREATED". reflexivity.
  - reflexivity.
  - discriminate.
Qed.

(** C2, amended, on two triggers, on the sample ping, and on a trigger
    spelled with the long s under a case mapping that knows this letter. *)
Lemma trigger_classification_witness :
  normalizeTrigger (Some "Team booking   rescheduled") = BOOKING_RESCHEDULED /\
  normalizeTrigger (Some "booking.cancelled") = BOOKING_CANCELLED /\
  result (Samples.handler env_full (signed ping_body))
  = Return {| status := 200; body := IgnoredJson (Some "PING") |} /\
  Trigger.normalizeTrigger upper_long_s (Some ("re" ++ long_s ++ "cheduled"))
  = BOOKING_RESCHEDULED.
Proof.
  assert (No : forall kw s, includes s kw = false -> ~ occurs_in kw s).
  { intros kw s H O. apply StringFacts.includes_occurs in O. congruence. }
  destruct (on_stubs trigger_classification "Team booking   rescheduled"
              env_full (signed ping_body) ping_event) as (_ & R & _).
  destruct (on_stubs trigger_classification "booking.cancelled"
              env_full (signed ping_body) ping_event) as (_ & _ & C & _).
  destruct (on_stubs trigger_classification "PING"
              env_full (signed ping_body) ping_event)
    as (_ & _ & _ & _ & _ & _ & _ & U).
  destruct (trigger_classification upper_long_s stub_hmac parse date_of_string
              toLocaleString randomUUID createEvent_ok fetch_ok stringify render
              ("re" ++ long_s ++ "cheduled") env_full (signed ping_body) ping_event)
    as (_ & L & _).
  split; [|split; [|split]].
  - apply R.
    + apply No. reflexivity.
    + apply StringFacts.includes_occurs. reflexivity.
  - apply C.
    + apply No. reflexivity.
    + apply No. reflexivity.
    + apply StringFacts.includes_occurs. reflexivity.
  - apply U.
    + apply sample_authenticated; [vm_compute; reflexivity|now left].
    + reflexivity.
    + reflexivity.
  - apply L.
    + apply No. vm_compute. reflexivity.
    + apply StringFacts.includes_occurs. vm_compute. reflexivity.
Defined.

(** C3 as stated fails from 2^53 on, where the successor of a number need
    not be a number: the rescheduled and the cancelled invite of a booking
    at sequence 2^53 carry 2^53 again. *)
Lemma sequence_not_incremented_at_2_53 :
  map Ics.ev_sequence (invites (trace (rescheduled_at (2 ^ 53))))
  = [(2 ^ 53)%Z] /\
  map Ics.ev_sequence (invites (trace (cancelled_at (2 ^ 53))))
  = [(2 ^ 53)%Z] /\
  map Ics.ev_sequence (invites (trace (rescheduled_at (2 ^ 53))))
  <> [(2 ^ 53 + 1)%Z] /\
  map Ics.ev_sequence (invites (trace (cancelled_at (2 ^ 53))))
  <> [(2 ^ 53 + 1)%Z].
Proof.
  split; [vm_compute; reflexivity|].
  split; [vm_compute; reflexivity|].
  split; vm_compute; discriminate.
Qed.

(** C3, amended, on the sample booking at sequence 3. *)
Lemma handler_sequences_witness :
  map Ics.ev_sequence (invites (trace (created_at 3))) = [3%Z] /\
  map Ics.ev_sequence (invites (trace (rescheduled_at 3))) = [4%Z] /\
  map Ics.ev_sequence (invites (trace (cancelled_at 3))) = [4%Z].
Proof.
  destruct (handler_sequences toLocaleString createEvent_ok fetch_ok stringify
              render env_full booking (date_of_string "2024-01-01T15:00:00Z")
              (date_of_string "2024-01-01T15:30:00Z") guest "host@example.com"
              None "" "booking-1" 3 "bookings@example.com")
    as (C & _ & _ & S).
  destruct S as [R X]; [vm_compute; split; [discriminate|reflexivity]|].
  exact (conj C (conj R X)).
Defined.

(** C4 on the sample booking without attendees. *)
Lemma missing_field_skips_witness :
  (exists reason,
      In reason skip_reasons /\
      result (Samples.handler env_full (signed no_attendee_body))
      = Return {| status := 200; body := SkippedJson reason |}) /\
  emails (trace (Samples.handler env_full (signed no_attendee_body))) = [] /\
  invites (trace (Samples.handler env_full (signed no_attendee_body))) = [].
Proof.
  apply (on_stubs missing_field_skips env_full (signed no_attendee_body)
           (event_of "BOOKING_CREATED" booking_without_attendee)).
  - apply sample_authenticated; [vm_compute; reflexivity|now left].
  - reflexivity.
  - discriminate.
  - right. right. left. reflexivity.
Defined.

(** C6 as stated fails: with neither the sender address nor the API token
    configured, a signed request with an unrecognized trigger is answered
    200, and so is one that lacks the attendee; without even the secret, a
    GET is answered 405. *)
Lemma missing_configuration_not_always_500 :
  present (POSTMARK_FROM_EMAIL env_secret_only) = None /\
  present (POSTMARK_SERVER_API_TOKEN env_secret_only) = None /\
  Samples.handler env_secret_only (signed ping_body)
  = ([HmacComputed secret ping_body; JsonParseCalled ping_body],
     Return {| status := 200; body := IgnoredJson (Some "PING") |}) /\
  result (Samples.handler env_secret_only (signed no_attendee_body))
  = Return {| status := 200; body := SkippedJson "no attendee email" |} /\
  Samples.handler env_none get_request
  = ([], Return {| status := 405; body := ErrorJson "Method Not Allowed" |}).
Proof. repeat split; vm_compute; reflexivity. Qed.

(** C6, amended, on the sample requests. *)
Lemma missing_configuration_witness :
  result (Samples.handler env_none (signed created_body))
  = Return {| status := 500; body := ErrorJson "Server configuration error" |} /\
  (exists msg,
      result (Samples.handler env_secret_only (signed created_body))
      = Return {| status := 500; body := ErrorJson msg |}) /\
  emails (trace (Samples.handler env_secret_only (signed created_body))) = [] /\
  Samples.handler env_secret_only (signed ping_body)
  = Samples.handler env_full (signed ping_body).
Proof.
  destruct (on_stubs missing_configuration env_none (signed created_body)
              (event_of "BOOKING_CREATED" booking)) as [H _].
  destruct (on_stubs missing_configuration env_secret_only (signed created_body)
              (event_of "BOOKING_CREATED" booking)) as (_ & H' & _).
  destruct (on_stubs missing_configuration env_full (signed ping_body) ping_event)
    as (_ & _ & _ & H'').
  split; [|apply and_assoc; split].
  - unfold Samples.handler. rewrite H; reflexivity.
  - apply H'.
    + apply sample_authenticated; [vm_compute; reflexivity|now right].
    + reflexivity.
    + discriminate.
    + repeat split; discriminate.
    + left. reflexivity.
  - apply (H'' env_secret_only); [reflexivity|].
    intros (_ & ev' & P & R & _). apply R.
    assert (E : ev' = ping_event).
    { unfold Webhook.parses_to in P. vm_compute in P. now injection P. }
    rewrite E. reflexivity.
Defined.

(** C7 on an invite that [createEvent] rejects. *)
Lemma builder_propagates_errors_witness :
  IcsBuilder.buildIcsString createEvent_invalid
    (invite_params Ics.CONFIRMED Ics.REQUEST)
  = ([CreateEventCalled (Ics.event_attributes (invite_params Ics.CONFIRMED Ics.REQUEST))],
     Throw (mkError "ValidationError")).
Proof.
  apply (builder_propagates_errors toLocaleString createEvent_invalid fetch_ok
           stringify render (invite_params Ics.CONFIRMED Ics.REQUEST)
           (mkError "ValidationError")).
  reflexivity.
Defined.

(** C9 on the sample booking, which has no identifier of any kind. *)
Lemma absent_identifiers_witness :
  map Ics.ev_uid (invites (trace (Samples.handler env_full (signed created_body))))
  = ["undefined"] /\
  never is_random_uuid (trace (Samples.handler env_full (signed created_body))).
Proof.
  apply (on_stubs absent_identifiers env_full (signed created_body)
           (event_of "BOOKING_CREATED" booking) "bookings@example.com");
    try reflexivity.
  - apply sample_authenticated; [vm_compute; reflexivity|now left].
  - discriminate.
  - repeat split; discriminate.
Defined.

(* ------------------------------------------------------------------ *)
(** *** The further properties on the sample requests *)
(* ------------------------------------------------------------------ *)

Lemma sample_parses : Webhook.parses_to parse (signed created_body)
                        (event_of "BOOKING_CREATED" booking).
Proof. reflexivity. Defined.

Lemma sample_recognized :
  Webhook.recognized upper_stub (event_of "BOOKING_CREATED" booking).
Proof. discriminate. Defined.

Lemma sample_fields :
  Webhook.has_required_fields
    (Webhook.booking_of (event_of "BOOKING_CREATED" booking)).
Proof. repeat split; discriminate. Defined.

(** X1 on the signed bodies [null] and [{(q)triggerEvent(q):5}]: both runs
    end in a [TypeError], after the digest and the parse. *)
Lemma handler_status_codes_witness :
  Samples.handler env_full (signed null_body)
  = ([HmacComputed secret null_body; JsonParseCalled null_body],
     Throw Webhook.null_event_error) /\
  Samples.handler env_full (signed numeric_trigger_body)
  = ([HmacComputed secret numeric_trigger_body;
      JsonParseCalled numeric_trigger_body],
     Throw Webhook.trigger_not_a_string_error).
Proof.
  destruct (on_stubs handler_status_codes env_full (signed null_body))
    as (_ & _ & T & _).
  destruct (on_stubs handler_status_codes env_full (signed numeric_trigger_body))
    as (_ & _ & T' & _).
  destruct T as (s & Hs & E).
  { apply sample_authenticated; [vm_compute; reflexivity|now left]. }
  { left. vm_compute. reflexivity. }
  destruct T' as (s' & Hs' & E').
  { apply sample_authenticated; [vm_compute; reflexivity|now left]. }
  { right. vm_compute. reflexivity. }
  cbn in Hs, Hs'. injection Hs as <-. injection Hs' as <-.
  unfold Samples.handler. rewrite E, E'. split; vm_compute; reflexivity.
Defined.

(** X4 on the sample booking: its run builds an invite and sends an email,
    and the request is an authenticated one. *)
Lemma effects_require_acceptance_witness :
  Webhook.authenticated stub_hmac env_full (signed created_body) /\
  present (POSTMARK_SERVER_API_TOKEN env_full) <> None.
Proof.
  destruct (on_stubs effects_require_acceptance env_full (signed created_body))
    as [I E].
  split.
  - apply I. discriminate.
  - apply E. discriminate.
Defined.

(** X6 on the sample booking. *)
Lemma email_envelope_witness :
  exists m,
    emails (trace (Samples.handler env_full (signed created_body))) = [m] /\
    PostmarkData.From m = "bookings@example.com" /\
    PostmarkData.To m = "guest@example.com" /\
    PostmarkData.Subject m = "Confirmed: Intro call".
Proof.
  eexists. split; [reflexivity|].
  destruct (on_stubs email_envelope env_full (signed created_body)
              (event_of "BOOKING_CREATED" booking) guest "bookings@example.com"
              (sample_authenticated created_body env_full created_body_text
                 (or_introl eq_refl))
              sample_parses sample_recognized sample_fields eq_refl eq_refl
              _ (or_introl eq_refl)) as (F & T & S & _).
  exact (conj F (conj T S)).
Defined.

(** X7 on the sample booking, with and without the API token. *)
Lemma processed_status_witness :
  (exists r,
      result (Samples.handler env_full (signed created_body)) = Return r /\
      status r = 200%Z) /\
  (exists r,
      result (Samples.handler
                {| CAL_WEBHOOK_SECRET := Some secret;
                   POSTMARK_SERVER_API_TOKEN := None;
                   POSTMARK_FROM_EMAIL := Some "bookings@example.com" |}
                (signed created_body)) = Return r /\
      status r = 500%Z).
Proof.
  split.
  - destruct (on_stubs processed_status env_full (signed created_body)
                (event_of "BOOKING_CREATED" booking) "bookings@example.com"
                (sample_authenticated created_body env_full created_body_text
                 (or_introl eq_refl))
                sample_parses sample_recognized sample_fields eq_refl)
      as (r & Hr & _ & S).
    exists r. split; [exact Hr|]. apply S.
    exists "pm-token". eexists. eexists.
    split; [reflexivity|]. split; [reflexivity|]. split; reflexivity.
  - eexists. split; reflexivity.
Defined.

(** X8 on the sample booking, whose [iCalSequence] is 3. *)
Lemma invite_follows_trigger_witness :
  exists invite,
    invites (trace (Samples.handler env_full (signed created_body))) = [invite] /\
    Ics.ev_method invite = Ics.REQUEST /\
    Ics.ev_sequence invite = 3%Z.
Proof.
  destruct (on_stubs invite_follows_trigger env_full (signed created_body)
              (event_of "BOOKING_CREATED" booking) "bookings@example.com"
              (sample_authenticated created_body env_full created_body_text
                 (or_introl eq_refl))
              sample_parses sample_recognized sample_fields eq_refl)
    as (invite & I & M & _ & S).
  exists invite. split; [exact I|]. split.
  - now injection M.
  - apply (S 3%Z); [reflexivity|vm_compute; split; [discriminate|reflexivity]].
Defined.

(** X9 on the sample booking, which has no identifier of any kind. *)
Lemma invite_identifier_witness :
  exists invite,
    invites (trace (Samples.handler env_full (signed created_body))) = [invite] /\
    Ics.ev_uid invite = "undefined".
Proof.
  destruct (on_stubs invite_identifier env_full (signed created_body)
              (event_of "BOOKING_CREATED" booking) "bookings@example.com"
              (sample_authenticated created_body env_full created_body_text
                 (or_introl eq_refl))
              sample_parses sample_recognized sample_fields eq_refl)
    as ((invite & I & U) & _).
  exists invite. split; [exact I|exact U].
Defined.

(** X10 on the sample booking. *)
Lemma invite_reflects_payload_witness :
  exists invite,
    invites (trace (Samples.handler env_full (signed created_body))) = [invite] /\
    Ics.ev_organizer_email invite = "host@example.com" /\
    Ics.ev_organizer_name invite = "Organizer" /\
    Ics.ev_title invite = "Intro call".
Proof.
  destruct (on_stubs invite_reflects_payload env_full (signed created_body)
              (event_of "BOOKING_CREATED" booking)
              "2024-01-01T15:00:00Z" "2024-01-01T15:30:00Z" guest
              "host@example.com" "bookings@example.com"
              (sample_authenticated created_body env_full created_body_text
                 (or_introl eq_refl))
              sample_parses sample_recognized eq_refl eq_refl eq_refl eq_refl
              eq_refl)
    as (invite & I & E & N & _ & T & _).
  exists invite. exact (conj I (conj E (conj N T))).
Defined.

(** X11 on the sample booking without attendees. *)
Lemma skip_reason_order_witness :
  result (Samples.handler env_full (signed no_attendee_body))
  = Return {| status := 200; body := SkippedJson "no attendee email" |}.
Proof.
  destruct (on_stubs skip_reason_order env_full (signed no_attendee_body)
              (event_of "BOOKING_CREATED" booking_without_attendee))
    as (_ & H & _).
  - apply sample_authenticated; [vm_compute; reflexivity|now left].
  - reflexivity.
  - discriminate.
  - apply H; [discriminate|discriminate|reflexivity].
Defined.

End OnSamples.

End WebhookFacts.

(** ** The encryption helper, continued *)

Module CryptoFacts.
Import JS Eff Crypto.
Local Open Scope list_scope.

Section HelperFacts.

Variable base64_decode : ustring -> Buffer.
Variable randomBytes : nat -> Buffer.
Variable aes256_encrypt : Buffer -> Buffer -> Buffer -> outcome Buffer.
Variable aes256_decrypt : Buffer -> Buffer -> Buffer -> outcome Buffer.

Local Abbreviation symmetricEncrypt :=
  (Crypto.symmetricEncrypt base64_decode randomBytes aes256_encrypt).
Local Abbreviation symmetricDecrypt :=
  (Crypto.symmetricDecrypt base64_decode aes256_decrypt).

Local Abbreviation random_source := (Crypto.random_source randomBytes).
Local Abbreviation cipher_inverts :=
  (Crypto.cipher_inverts aes256_encrypt aes256_decrypt).

(** Under a valid key, decrypting what was encrypted yields the text as it
    comes back from UTF-8. *)
Lemma decrypt_encrypt text key :
  random_source -> cipher_inverts ->
  List.length (base64_decode key) = 32%nat ->
  exists c,
    symmetricEncrypt text key = Return c /\
    symmetricDecrypt c key = Return (utf8_decode (utf8_encode text)).
Proof.
  intros Hr Hc Hk.
  destruct (Hc (base64_decode key) (randomBytes IV_LENGTH) (utf8_encode text) Hk
              (Hr IV_LENGTH)) as (ct & He & Hd).
  exists (hex_encode (randomBytes IV_LENGTH) ++ colon :: hex_encode ct). split.
  - unfold Crypto.symmetricEncrypt. rewrite Hk, He. reflexivity.
  - unfold Crypto.symmetricDecrypt. rewrite Hk, BufferFacts.split_ciphertext.
    cbn [Nat.eqb negb hd tl join_colon].
    rewrite BufferFacts.hex_encode_even, Bool.andb_false_r.
    rewrite !BufferFacts.hex_decode_encode, Hd. reflexivity.
Qed.

(** Whatever the cipher, the string that is one unpaired high surrogate
    comes back as U+FFFD. *)
Lemma lone_surrogate_under_any_cipher key :
  random_source -> cipher_inverts ->
  List.length (base64_decode key) = 32%nat ->
  exists c,
    symmetricEncrypt [0xD800%Z] key = Return c /\
    symmetricDecrypt c key = Return [0xFFFD%Z].
Proof.
  intros Hr Hc Hk.
  destruct (decrypt_encrypt [0xD800%Z] key Hr Hc Hk) as (c & He & Hd).
  exists c. split; [exact He|]. rewrite Hd.
  now destruct Utf8Facts.lone_surrogate_encoding as [_ ->].
Qed.

(** C10, as amended.  Under a key whose base64 decoding is 32 bytes,
    encrypting a well-formed string (one without unpaired surrogates) and
    decrypting the result returns the string.  Under a key whose decoding
    has another length, both functions throw the invalid-key-length error,
    on every input. *)
Theorem symmetric_round_trip text key :
  random_source -> cipher_inverts ->
  Forall is_code_unit text ->
  (List.length (base64_decode key) = 32%nat ->
   isWellFormed text = true ->
   exists c,
     symmetricEncrypt text key = Return c /\
     symmetricDecrypt c key = Return text) /\
  (List.length (base64_decode key) <> 32%nat ->
   symmetricEncrypt text key
   = Throw (invalid_key_length (List.length (base64_decode key))) /\
   symmetricDecrypt text key
   = Throw (invalid_key_length (List.length (base64_decode key)))).
Proof.
  intros Hr Hc U. split.
  - intros Hk W. destruct (decrypt_encrypt text key Hr Hc Hk) as (c & He & Hd).
    exists c. split; [exact He|].
    now rewrite Hd, Utf8Facts.utf8_round_trip.
  - intros Hk. apply Nat.eqb_neq in Hk.
    unfold Crypto.symmetricEncrypt, Crypto.symmetricDecrypt. rewrite Hk.
    split; reflexivity.
Qed.

End HelperFacts.

Section OnSamples.
Import CryptoSamples.

Lemma sample_random_source : random_source random.
Proof. intros n. apply repeat_length. Defined.

Lemma sample_cipher_inverts : cipher_inverts cipher decipher.
Proof.
  intros k iv plaintext _ _. exists (rev plaintext). split; [reflexivity|].
  unfold decipher. now rewrite rev_involutive.
Defined.

(** C10 as stated fails: under a valid key, the string that is one unpaired
    surrogate comes back as U+FFFD. *)
Lemma lone_surrogate_does_not_round_trip :
  List.length (base64 key) = 32%nat /\
  exists c,
    encrypt lone_surrogate key = Return c /\
    decrypt c key = Return [0xFFFD%Z] /\
    [0xFFFD%Z] <> lone_surrogate.
Proof.
  split; [reflexivity|].
  destruct (decrypt_encrypt base64 random cipher decipher lone_surrogate key
              sample_random_source sample_cipher_inverts eq_refl)
    as (c & He & Hd).
  exists c. split; [exact He|]. split; [exact Hd|]. discriminate.
Qed.

(** C10, amended, on the text hello, under the valid key and under the
    empty one. *)
Lemma symmetric_round_trip_witness :
  (exists c, encrypt hello key = Return c /\ decrypt c key = Return hello) /\
  encrypt hello short_key = Throw (invalid_key_length 0) /\
  decrypt hello short_key = Throw (invalid_key_length 0).
Proof.
  assert (U : Forall is_code_unit hello)
    by (repeat constructor; unfold is_code_unit; lia).
  destruct (symmetric_round_trip base64 random cipher decipher hello key
              sample_random_source sample_cipher_inverts U) as [R _].
  destruct (symmetric_round_trip base64 random cipher decipher hello short_key
              sample_random_source sample_cipher_inverts U) as [_ T].
  split.
  - apply R; reflexivity.
  - apply T. discriminate.
Defined.

End OnSamples.

End CryptoFacts.

(* ================================================================== *)
(** * Further properties *)
(* ================================================================== *)

(** ** The email wrapper, continued *)

Module WrapperFacts.
Import JS Ics PostmarkData Eff Postmark EffFacts.

Section Outcomes.

Variable fetch : string -> string -> PostmarkMessage -> outcome FetchResponse.
Variable JSON_stringify : PostmarkResponse -> string.

Local Abbreviation sendPostmarkEmail := (Postmark.sendPostmarkEmail fetch JSON_stringify).

(** X12. The wrapper calls the provider once when the API token is
    configured, whatever the provider answers, and not at all when it is
    missing or empty, in which case it throws the error that names the
    variable.  It never calls twice: nothing is retried. *)
Theorem one_provider_call env params :
  (present (POSTMARK_SERVER_API_TOKEN env) = None ->
   sendPostmarkEmail env params
   = ([], Throw (mkError "Missing POSTMARK_SERVER_API_TOKEN environment variable")))
  /\
  (forall token,
      present (POSTMARK_SERVER_API_TOKEN env) = Some token ->
      trace (sendPostmarkEmail env params)
      = [FetchCalled postmark_url token (message_of params)]) /\
  (List.length (trace (sendPostmarkEmail env params)) <= 1)%nat.
Proof.
  assert (T : forall token,
             present (POSTMARK_SERVER_API_TOKEN env) = Some token ->
             trace (sendPostmarkEmail env params)
             = [FetchCalled postmark_url token (message_of params)]).
  { intros token H. unfold Postmark.sendPostmarkEmail. rewrite H, bind_emit.
    cbn [trace fst]. f_equal.
    destruct (fetch _ _ _) as [r|e]; [|reflexivity].
    destruct (negb _); reflexivity. }
  split; [|split].
  - intros H. unfold Postmark.sendPostmarkEmail. now rewrite H.
  - exact T.
  - destruct (present (POSTMARK_SERVER_API_TOKEN env)) as [token|] eqn:H.
    + rewrite (T token eq_refl). cbn. lia.
    + unfold Postmark.sendPostmarkEmail. rewrite H. cbn. lia.
Qed.

(** X13. With the token configured, the wrapper returns exactly when the
    provider call resolved to a success response, and returns the parsed
    body, or the empty object when the body is not JSON.  A call that
    rejects is rethrown; a non-success response is thrown as an error whose
    message holds the status code and the provider's message, or the whole
    body when it has none. *)
Theorem provider_result env params token :
  present (POSTMARK_SERVER_API_TOKEN env) = Some token ->
  (forall response,
      fetch postmark_url token (message_of params) = Return response ->
      ok response = true ->
      result (sendPostmarkEmail env params)
      = Return match json response with
               | Some data => data
               | None => {| MessageID := None; ErrorCode := None; Message := None |}
               end) /\
  (forall response,
      fetch postmark_url token (message_of params) = Return response ->
      ok response = false ->
      exists data,
        data = match json response with
               | Some d => d
               | None => {| MessageID := None; ErrorCode := None; Message := None |}
               end /\
        result (sendPostmarkEmail env params)
        = Throw (mkError
                   ("Postmark send failed: "
                    ++ NilZero.string_of_int (Z.to_int (http_status response))
                    ++ " - "
                    ++ match present (Message data) with
                       | Some msg => msg
                       | None => JSON_stringify data
                       end))) /\
  (forall e,
      fetch postmark_url token (message_of params) = Throw e ->
      result (sendPostmarkEmail env params) = Throw e) /\
  ((exists data, result (sendPostmarkEmail env params) = Return data) <->
   exists response,
     fetch postmark_url token (message_of params) = Return response /\
     ok response = true).
Proof.
  intros H. unfold Postmark.sendPostmarkEmail. rewrite H, bind_emit.
  cbn [result snd].
  split; [|split; [|split]].
  - intros response F Ok. rewrite F, Ok. reflexivity.
  - intros response F Ok. rewrite F, Ok. eexists. split; [reflexivity|].
    cbn [negb result snd throw]. unfold send_failed_message, or_default, present, truthy.
    destruct (Message _) as [msg|]; [|reflexivity].
    destruct (str_truthy msg); reflexivity.
  - intros e F. rewrite F. reflexivity.
  - destruct (fetch _ _ _) as [response|e].
    + destruct (ok response) eqn:Ok; cbn [negb result snd throw ret].
      * split; [|eexists; reflexivity]. intros _. now exists response.
      * split; [intros [? N]; discriminate|].
        intros (r' & [= <-] & Ok'). congruence.
    + cbn [result snd throw]. split; [intros [? N]; discriminate|].
      intros (r' & N & _). discriminate.
Qed.

End Outcomes.

(** X12 and X13 on the sample email. *)
Lemma one_provider_call_witness :
  trace (Postmark.sendPostmarkEmail Samples.fetch_ok Samples.stringify
           Samples.env_full Samples.email_with_invite)
  = [FetchCalled postmark_url "pm-token" (message_of Samples.email_with_invite)] /\
  Postmark.sendPostmarkEmail Samples.fetch_ok Samples.stringify
    Samples.env_secret_only Samples.email_with_invite
  = ([], Throw (mkError "Missing POSTMARK_SERVER_API_TOKEN environment variable")).
Proof.
  destruct (one_provider_call Samples.fetch_ok Samples.stringify Samples.env_full
              Samples.email_with_invite) as (_ & T & _).
  destruct (one_provider_call Samples.fetch_ok Samples.stringify
              Samples.env_secret_only Samples.email_with_invite) as (N & _).
  split; [exact (T "pm-token" eq_refl)|exact (N eq_refl)].
Defined.

Lemma provider_result_witness :
  exists data,
    result (Postmark.sendPostmarkEmail Samples.fetch_ok Samples.stringify
              Samples.env_full Samples.email_with_invite) = Return data.
Proof.
  destruct (provider_result Samples.fetch_ok Samples.stringify Samples.env_full
              Samples.email_with_invite "pm-token" eq_refl) as (_ & _ & _ & I).
  apply I. eexists. split; reflexivity.
Defined.

End WrapperFacts.

(** ** Base64 *)

From Stdlib Require Import ZifyNat.

Module Base64Facts.
Import JS PostmarkData Base64Inverse.
Import ListNotations.
Local Open Scope list_scope.











End Base64Facts.

(** ** The date array *)

Module CalendarFacts.
Import DateTime DateFacts.
Local Open Scope Z_scope.

Lemma YearFromDay_bracket d :
  DayFromYear (YearFromDay d) <= d < DayFromYear (YearFromDay d + 1).
Proof.
  unfold YearFromDay. set (y := d * 10000 / 3652425 + 1970).
  assert (B : DayFromYear (y - 1) <= d < DayFromYear (y + 1 + 1)).
  { unfold DayFromYear. subst y. Z.div_mod_to_equations. lia. }
  pose proof (DayFromYear_succ y) as S1.
  pose proof (DayFromYear_succ (y - 1)) as S0.
  replace (y - 1 + 1) with y in * by lia.
  destruct (Z.ltb_spec d (DayFromYear y)).
  - replace (y - 1 + 1) with y by lia. lia.
  - destruct (Z.leb_spec (DayFromYear y + DaysInYear y) d); lia.
Qed.

Lemma DayWithinYear_range t :
  0 <= DayWithinYear t < DaysInYear (YearFromTime t).
Proof.
  unfold DayWithinYear, YearFromTime.
  pose proof (YearFromDay_bracket (Day t)) as B.
  rewrite DayFromYear_succ in B. lia.
Qed.

Lemma MonthFromTime_range t : 0 <= MonthFromTime t <= 11.
Proof.
  unfold MonthFromTime.
  repeat match goal with
         | |- context [?a <? ?b] => destruct (Z.ltb_spec a b); try lia
         end.
Qed.

(** The day of the year splits into the days before the month and the day
    of the month. *)
Lemma DayWithinYear_split t :
  DayWithinYear t =
  days_before_month (YearFromTime t) (MonthFromTime t) + DateFromTime t - 1.
Proof.
  unfold DateFromTime, MonthFromTime, InLeapYear, days_before_month.
  destruct (is_leap (YearFromTime t));
    repeat match goal with
           | |- context [?a <? ?b] => destruct (Z.ltb_spec a b); try lia
           end.
Qed.

Lemma DateFromTime_range t :
  1 <= DateFromTime t <= days_in_month (YearFromTime t) (MonthFromTime t).
Proof.
  pose proof (DayWithinYear_range t) as R.
  unfold DateFromTime, MonthFromTime, InLeapYear, days_in_month, DaysInYear in *.
  destruct (is_leap (YearFromTime t));
    repeat match goal with
           | |- context [?a <? ?b] => destruct (Z.ltb_spec a b); try lia
           end.
Qed.

Lemma getters_rebuild t :
  MakeDate (MakeDay (YearFromTime t) (MonthFromTime t) (DateFromTime t))
           (MakeTime (HourFromTime t) (MinFromTime t) 0 0)
  = t - t mod msPerMinute.
Proof.
  pose proof (DayWithinYear_split t) as S.
  unfold MakeDay. unfold DayWithinYear in S.
  replace (DayFromYear (YearFromTime t) +
           days_before_month (YearFromTime t) (MonthFromTime t) +
           DateFromTime t - 1) with (Day t) by lia.
  unfold MakeDate, MakeTime, Day, HourFromTime, MinFromTime, msPerDay, msPerHour,
    msPerMinute, msPerSecond.
  Z.div_mod_to_equations. lia.
Qed.

Lemma Day_minute t : Day t = t / msPerMinute / 1440.
Proof. unfold Day, msPerDay, msPerMinute. Z.div_mod_to_equations. lia. Qed.

Lemma HourFromTime_minute t : HourFromTime t = t / msPerMinute / 60 mod 24.
Proof.
  unfold HourFromTime, msPerHour, msPerMinute. Z.div_mod_to_equations. lia.
Qed.

Lemma toDateArray_minute t :
  Ics.toDateArray (ValidDate t) =
  Ics.toDateArray (ValidDate (t / msPerMinute * msPerMinute)).
Proof.
  assert (Q : t / msPerMinute * msPerMinute / msPerMinute = t / msPerMinute)
    by (unfold msPerMinute; Z.div_mod_to_equations; lia).
  assert (D : Day (t / msPerMinute * msPerMinute) = Day t)
    by now rewrite !Day_minute, Q.
  assert (Y : YearFromTime (t / msPerMinute * msPerMinute) = YearFromTime t)
    by (unfold YearFromTime; now rewrite D).
  assert (W : DayWithinYear (t / msPerMinute * msPerMinute) = DayWithinYear t)
    by (unfold DayWithinYear; now rewrite D, Y).
  assert (L : InLeapYear (t / msPerMinute * msPerMinute) = InLeapYear t)
    by (unfold InLeapYear; now rewrite Y).
  assert (M : MonthFromTime (t / msPerMinute * msPerMinute) = MonthFromTime t)
    by (unfold MonthFromTime; now rewrite W, L).
  unfold Ics.toDateArray, getUTCFullYear, getUTCMonth, getUTCDate, getUTCHours,
    getUTCMinutes, getter, succ_num.
  rewrite Y, M. unfold DateFromTime. rewrite M, W, L.
  rewrite !HourFromTime_minute, Q. unfold MinFromTime. now rewrite Q.
Qed.

(** X15.  Whatever the instant, the date array spells a valid calendar date
    and time of day in UTC: the month is 1 to 12, the day exists in that month
    of that year, the hour is 0 to 23 and the minute 0 to 59.  Read back as a
    UTC time it is the instant with its seconds and milliseconds dropped, so
    two instants have the same array exactly when they lie in the same minute.
    An invalid date never has the array of an instant. *)
Theorem date_array_names_the_minute (t : Z) :
  let c := mkCivil (YearFromTime t) (MonthFromTime t + 1) (DateFromTime t)
                   (HourFromTime t) (MinFromTime t) 0 0 in
  Ics.toDateArray (ValidDate t) = Ics.fields_of c /\
  valid_civil c /\
  instant_of c 0 = t - t mod msPerMinute /\
  (forall t', Ics.toDateArray (ValidDate t') = Ics.toDateArray (ValidDate t) <->
              t' / msPerMinute = t / msPerMinute) /\
  Ics.toDateArray InvalidDate <> Ics.toDateArray (ValidDate t).
Proof.
  assert (R : forall u,
             instant_of (mkCivil (YearFromTime u) (MonthFromTime u + 1)
                           (DateFromTime u) (HourFromTime u) (MinFromTime u) 0 0) 0
             = u - u mod msPerMinute).
  { intros u. unfold instant_of. cbn [c_year c_month c_day c_hour c_minute c_second c_ms].
    replace (MonthFromTime u + 1 - 1) with (MonthFromTime u) by lia.
    rewrite getters_rebuild. lia. }
  cbv zeta. split; [reflexivity|]. split; [|split; [apply R|split]].
  - pose proof (MonthFromTime_range t). pose proof (DateFromTime_range t).
    unfold valid_civil. cbn [c_year c_month c_day c_hour c_minute c_second c_ms].
    replace (MonthFromTime t + 1 - 1) with (MonthFromTime t) by lia.
    unfold HourFromTime, MinFromTime.
    repeat split; try lia; try (apply Z.mod_pos_bound; lia).
  - intros t'. split.
    + intros E.
      assert (E' : t' - t' mod msPerMinute = t - t mod msPerMinute).
      { rewrite <- (R t'), <- (R t).
        unfold Ics.toDateArray, getUTCFullYear, getUTCMonth, getUTCDate,
          getUTCHours, getUTCMinutes, getter, succ_num in E.
        injection E as E1 E2 E3 E4 E5. now rewrite E1, E2, E3, E4, E5. }
      unfold msPerMinute in *. Z.div_mod_to_equations. lia.
    + intros E. rewrite (toDateArray_minute t'), (toDateArray_minute t).
      now rewrite E.
  - discriminate.
Qed.

End CalendarFacts.

(** ** The encryption helper on any text *)

Module WellFormedFacts.
Import JS Eff Crypto CodeUnits Utf8Facts.
Local Open Scope Z_scope.
Local Open Scope list_scope.

(** Induction that follows the way the functions on code units read a
    string: after the first unit they continue with the rest, or, after a
    surrogate pair, with what follows the pair. *)
Lemma units_ind (P : ustring -> Prop) :
  P [] ->
  (forall u, P [u]) ->
  (forall u l rest, P rest -> P (l :: rest) -> P (u :: l :: rest)) ->
  forall s, P s.
Proof.
  intros H0 H1 H2 s.
  assert (G : P s /\ forall u, P (u :: s)).
  { induction s as [|l rest [IH1 IH2]]; split; auto. }
  apply G.
Qed.

Lemma toWellFormed_cons u l rest :
  toWellFormed (u :: l :: rest) =
  if is_high_surrogate u then
    if is_low_surrogate l then u :: l :: toWellFormed rest
    else 0xFFFD :: toWellFormed (l :: rest)
  else if is_low_surrogate u then 0xFFFD :: toWellFormed (l :: rest)
  else u :: toWellFormed (l :: rest).
Proof. reflexivity. Qed.

Lemma code_points_cons u l rest :
  code_points (u :: l :: rest) =
  if is_high_surrogate u then
    if is_low_surrogate l
    then (0x10000 + (u - 0xD800) * 0x400 + (l - 0xDC00)) :: code_points rest
    else 0xFFFD :: code_points (l :: rest)
  else if is_low_surrogate u then 0xFFFD :: code_points (l :: rest)
  else u :: code_points (l :: rest).
Proof. reflexivity. Qed.

Lemma isWellFormed_cons u l rest :
  isWellFormed (u :: l :: rest) =
  if is_high_surrogate u then is_low_surrogate l && isWellFormed rest
  else if is_low_surrogate u then false
  else isWellFormed (l :: rest).
Proof. reflexivity. Qed.

Lemma high_not_low u : is_high_surrogate u = true -> is_low_surrogate u = false.
Proof. unfold is_high_surrogate, is_low_surrogate. lia. Qed.

(** A string and its well-formed version have the same code points, hence
    the same UTF-8 bytes. *)
Lemma code_points_toWellFormed s : code_points (toWellFormed s) = code_points s.
Proof.
  induction s as [|u|u l rest IH1 IH2] using units_ind.
  - reflexivity.
  - cbn [toWellFormed code_points].
    destruct (is_high_surrogate u) eqn:Hu; [reflexivity|].
    destruct (is_low_surrogate u) eqn:Hu'; [reflexivity|].
    cbn [code_points]. now rewrite Hu, Hu'.
  - rewrite toWellFormed_cons, code_points_cons.
    destruct (is_high_surrogate u) eqn:Hu.
    + destruct (is_low_surrogate l) eqn:Hl.
      * rewrite code_points_cons, Hu, Hl. now rewrite IH1.
      * change (code_points (0xFFFD :: toWellFormed (l :: rest)))
          with (0xFFFD :: code_points (toWellFormed (l :: rest))).
        now rewrite IH2.
    + destruct (is_low_surrogate u) eqn:Hu'.
      * change (code_points (0xFFFD :: toWellFormed (l :: rest)))
          with (0xFFFD :: code_points (toWellFormed (l :: rest))).
        now rewrite IH2.
      * transitivity (u :: code_points (toWellFormed (l :: rest))).
        { cbn [code_points]. now rewrite Hu, Hu'. }
        now rewrite IH2.
Qed.

Lemma toWellFormed_isWellFormed s : isWellFormed (toWellFormed s) = true.
Proof.
  induction s as [|u|u l rest IH1 IH2] using units_ind.
  - reflexivity.
  - cbn. destruct (is_high_surrogate u) eqn:Hu; [reflexivity|].
    destruct (is_low_surrogate u) eqn:Hu'; [reflexivity|].
    cbn. now rewrite Hu, Hu'.
  - rewrite toWellFormed_cons.
    destruct (is_high_surrogate u) eqn:Hu.
    + destruct (is_low_surrogate l) eqn:Hl.
      * rewrite isWellFormed_cons, Hu, Hl. exact IH1.
      * change (isWellFormed (0xFFFD :: toWellFormed (l :: rest)))
          with (isWellFormed (toWellFormed (l :: rest))). exact IH2.
    + destruct (is_low_surrogate u) eqn:Hu'.
      * change (isWellFormed (0xFFFD :: toWellFormed (l :: rest)))
          with (isWellFormed (toWellFormed (l :: rest))). exact IH2.
      * transitivity (isWellFormed (toWellFormed (l :: rest))); [|exact IH2].
        cbn [isWellFormed]. now rewrite Hu, Hu'.
Qed.

Lemma toWellFormed_units s :
  Forall is_code_unit s -> Forall is_code_unit (toWellFormed s).
Proof.
  assert (R : is_code_unit 0xFFFD) by (unfold is_code_unit; lia).
  revert s.
  apply (units_ind (fun s => Forall is_code_unit s ->
                             Forall is_code_unit (toWellFormed s)));
    [|intros u|intros u l rest IH1 IH2]; intros U.
  - constructor.
  - cbn. destruct (is_high_surrogate u); [now repeat constructor|].
    destruct (is_low_surrogate u); [now repeat constructor|exact U].
  - rewrite toWellFormed_cons.
    inversion U as [|? ? Uu U']; subst. inversion U' as [|? ? Ul U'']; subst.
    destruct (is_high_surrogate u).
    + destruct (is_low_surrogate l).
      * constructor; [exact Uu|]. constructor; [exact Ul|]. now apply IH1.
      * constructor; [exact R|]. now apply IH2.
    + destruct (is_low_surrogate u).
      * constructor; [exact R|]. now apply IH2.
      * constructor; [exact Uu|]. now apply IH2.
Qed.

(** The well-formed strings are the ones [toWellFormed] leaves alone. *)
Lemma toWellFormed_fixes s : isWellFormed s = true <-> toWellFormed s = s.
Proof.
  split.
  - intros W. apply (well_formed_ind (fun s => toWellFormed s = s)); [| | |exact W].
    + reflexivity.
    + intros u rest Hu Hu' _ IH. cbn [toWellFormed]. rewrite Hu, Hu'.
      now rewrite IH.
    + intros h l rest Hh Hl _ IH. rewrite toWellFormed_cons, Hh, Hl.
      now rewrite IH.
  - intros E. rewrite <- E. apply toWellFormed_isWellFormed.
Qed.

(** What comes back from UTF-8 is the well-formed version of the string. *)
Lemma utf8_decode_encode s :
  Forall is_code_unit s -> utf8_decode (utf8_encode s) = toWellFormed s.
Proof.
  intros U.
  rewrite <- (utf8_round_trip (toWellFormed s)).
  - unfold utf8_encode. now rewrite code_points_toWellFormed.
  - apply toWellFormed_isWellFormed.
  - now apply toWellFormed_units.
Qed.

End WellFormedFacts.

Module CiphertextFacts.
Import JS Eff Crypto CodeUnits WellFormedFacts.
Local Open Scope list_scope.

Lemma Z_of_byte_range b : (0 <= Z_of_byte b < 256)%Z.
Proof.
  unfold Z_of_byte. pose proof (Byte.to_N_bounded b). lia.
Qed.

Lemma hex_digit_unit n : (0 <= n < 16)%Z -> is_hex_unit (hex_digit n).
Proof.
  intros H. unfold is_hex_unit, hex_digit.
  destruct (Z.ltb_spec n 10); lia.
Qed.

Lemma hex_encode_units buf : Forall is_hex_unit (hex_encode buf).
Proof.
  induction buf as [|b buf IH]; [constructor|].
  pose proof (Z_of_byte_range b).
  cbn [hex_encode flat_map app].
  constructor; [apply hex_digit_unit; Z.div_mod_to_equations; lia|].
  constructor; [apply hex_digit_unit; Z.div_mod_to_equations; lia|].
  exact IH.
Qed.

Lemma hex_encode_length buf : List.length (hex_encode buf) = (2 * List.length buf)%nat.
Proof.
  induction buf as [|b buf IH]; [reflexivity|].
  cbn [hex_encode flat_map app List.length]. unfold hex_encode in IH. lia.
Qed.

Section Format.

Variable base64_decode : ustring -> Buffer.
Variable randomBytes : nat -> Buffer.
Variable aes256_encrypt : Buffer -> Buffer -> Buffer -> outcome Buffer.

Local Abbreviation symmetricEncrypt :=
  (Crypto.symmetricEncrypt base64_decode randomBytes aes256_encrypt).
Local Abbreviation random_source := (Crypto.random_source randomBytes).

(** X16.  A ciphertext is plain text made of the initialization vector and
    the encrypted bytes, both in lower-case hexadecimal, with one colon
    between them: 32 digits, the colon, and two digits for every encrypted
    byte.  The initialization vector is the 16 bytes drawn from the random
    source, and encryption returns only under a key of 32 bytes. *)
Theorem ciphertext_format text key c :
  random_source ->
  symmetricEncrypt text key = Return c ->
  exists ciphered,
    List.length (base64_decode key) = 32%nat /\
    aes256_encrypt (base64_decode key) (randomBytes 16) (utf8_encode text)
    = Return ciphered /\
    c = hex_encode (randomBytes 16) ++ colon :: hex_encode ciphered /\
    split_colon c = [hex_encode (randomBytes 16); hex_encode ciphered] /\
    List.length c = (33 + 2 * List.length ciphered)%nat /\
    Forall (fun u => is_hex_unit u \/ u = colon) c /\
    isWellFormed c = true.
Proof.
  intros Hr E. unfold Crypto.symmetricEncrypt in E.
  destruct (Nat.eqb_spec (List.length (base64_decode key)) 32) as [Hk|Hk];
    cbn [negb] in E; [|discriminate].
  change IV_LENGTH with 16%nat in E.
  destruct (aes256_encrypt (base64_decode key) (randomBytes 16) (utf8_encode text))
    as [ciphered|e] eqn:Ec; [|discriminate].
  injection E as <-. exists ciphered.
  split; [exact Hk|]. split; [reflexivity|]. split; [reflexivity|].
  split; [apply BufferFacts.split_ciphertext|].
  assert (F : Forall (fun u => is_hex_unit u \/ u = colon)
                (hex_encode (randomBytes 16) ++ colon :: hex_encode ciphered)).
  { apply Forall_app. split.
    - eapply Forall_impl; [|apply hex_encode_units]. now left.
    - constructor; [now right|].
      eapply Forall_impl; [|apply hex_encode_units]. now left. }
  split; [|split; [exact F|]].
  - rewrite length_app. cbn [List.length]. rewrite !hex_encode_length, Hr. lia.
  - clear -F. induction F as [|u l Hu _ IH]; [reflexivity|].
    cbn [isWellFormed].
    assert (is_high_surrogate u = false /\ is_low_surrogate u = false) as [-> ->].
    { unfold is_high_surrogate, is_low_surrogate, is_hex_unit, colon in *. lia. }
    exact IH.
Qed.

Variable aes256_decrypt : Buffer -> Buffer -> Buffer -> outcome Buffer.

Local Abbreviation symmetricDecrypt :=
  (Crypto.symmetricDecrypt base64_decode aes256_decrypt).
Local Abbreviation cipher_inverts :=
  (Crypto.cipher_inverts aes256_encrypt aes256_decrypt).

(** X17.  Under a valid key, decrypting what was encrypted returns the
    well-formed version of the text: the text with every unpaired surrogate
    replaced by U+FFFD.  So the text itself comes back exactly when it has no
    unpaired surrogate. *)
Theorem round_trip_normalizes text key :
  random_source -> cipher_inverts ->
  Forall is_code_unit text ->
  List.length (base64_decode key) = 32%nat ->
  exists c,
    symmetricEncrypt text key = Return c /\
    symmetricDecrypt c key = Return (toWellFormed text) /\
    (symmetricDecrypt c key = Return text <-> isWellFormed text = true).
Proof.
  intros Hr Hc U Hk.
  destruct (CryptoFacts.decrypt_encrypt base64_decode randomBytes aes256_encrypt
              aes256_decrypt text key Hr Hc Hk) as (c & He & Hd).
  rewrite utf8_decode_encode in Hd by exact U.
  exists c. split; [exact He|]. split; [exact Hd|].
  rewrite Hd, toWellFormed_fixes. split.
  - now intros [= ->].
  - now intros ->.
Qed.

End Format.

Section OnSamples.
Import CryptoSamples.

(** The letter h, an unpaired high surrogate, and the letter i. *)
Local Abbreviation broken := [104; 0xD800; 105]%Z.

(** X17 on a text with an unpaired surrogate. *)
Lemma round_trip_normalizes_witness :
  exists c,
    encrypt broken key = Return c /\
    decrypt c key = Return [104; 0xFFFD; 105]%Z /\
    decrypt c key <> Return broken.
Proof.
  assert (U : Forall is_code_unit broken)
    by (repeat constructor; unfold is_code_unit; lia).
  destruct (round_trip_normalizes base64 random cipher decipher broken key
              CryptoFacts.sample_random_source CryptoFacts.sample_cipher_inverts
              U eq_refl) as (c & E & D & W).
  exists c. split; [exact E|]. split; [exact D|].
  intros N. apply W in N. discriminate.
Defined.

(** X16 on the text hello. *)
Lemma ciphertext_format_witness :
  exists c ciphered,
    encrypt hello key = Return c /\
    c = hex_encode (random 16) ++ colon :: hex_encode ciphered /\
    List.length c = 43%nat.
Proof.
  destruct (encrypt hello key) as [c|e] eqn:E; [|vm_compute in E; discriminate].
  destruct (ciphertext_format base64 random cipher hello key c
              CryptoFacts.sample_random_source E)
    as (ciphered & _ & A & F & _ & L & _).
  exists c, ciphered. split; [reflexivity|]. split; [exact F|].
  rewrite L. injection A as <-. reflexivity.
Defined.

End OnSamples.

End CiphertextFacts.

(** ** The two-factor setup route *)

Module TotpFacts.
Import JS Eff Crypto CodeUnits CiphertextFacts TotpSetup.
Local Open Scope list_scope.

(** One step of a run: the monad operations applied to known results. *)
Ltac run :=
  cbn [bind await emit console_log console_error ret throw try_catch app
       effects outcome_of fst snd negb].

Section RouteFacts.

Variable CALENDSO_ENCRYPTION_KEY : option ustring.
Variable parseRequestData : outcome RequestBody.
Variable getServerSession : outcome (option Session).
Variable checkRateLimitAndThrowError : string -> outcome unit.
Variable findUnique : Z -> outcome (option User).
Variable verifyPassword : option ustring -> ustring -> outcome bool.
Variable generateSecret : nat -> ustring.
Variable keyuri : ustring -> ustring -> ustring -> ustring.
Variable randomBytes : nat -> nat -> Buffer.
Variable JSON_stringify : list ustring -> ustring.
Variable base64_decode : ustring -> Buffer.
Variable aes256_encrypt : Buffer -> Buffer -> Buffer -> outcome Buffer.
Variable update : Z -> UpdateData -> outcome unit.
Variable toDataURL : ustring -> outcome ustring.

Local Abbreviation postHandler :=
  (TotpSetup.postHandler CALENDSO_ENCRYPTION_KEY parseRequestData getServerSession
     checkRateLimitAndThrowError findUnique verifyPassword generateSecret keyuri
     randomBytes JSON_stringify base64_decode aes256_encrypt update toDataURL).
Local Abbreviation encrypt_at :=
  (TotpSetup.encrypt_at randomBytes base64_decode aes256_encrypt).
Local Abbreviation backup_codes := (TotpSetup.generate_backup_codes randomBytes).
Local Abbreviation secret := (generateSecret 20).

(** The response, the database updates and the rate-limit checks of a run,
    by the results of the calls it makes, in the order it makes them. *)
Lemma postHandler_summary :
  (outcome_of postHandler, updates (effects postHandler),
   rate_limit_checks (effects postHandler)) =
  match parseRequestData with
  | Throw e => (Throw e, [], [])
  | Return requestBody =>
  match getServerSession with
  | Throw e => (Throw e, [], [])
  | Return None => (Return (json (MessageBody "Not authenticated") 401), [], [])
  | Return (Some session) =>
  match session_id session with
  | None => (Return (json (ErrorBody InternalServerError) 500), [], [])
  | Some id =>
  let checked := [rate_limit_identifier id] in
  match checkRateLimitAndThrowError (rate_limit_identifier id) with
  | Throw e => (Throw e, [], checked)
  | Return _ =>
  match findUnique id with
  | Throw e => (Throw e, [], checked)
  | Return None => (Return (json (MessageBody "Not authenticated") 401), [], checked)
  | Return (Some user) =>
  match password_hash user with
  | None =>
      (Return (json (ErrorBody (if is_CAL (identityProvider user)
                                then UserMissingPassword
                                else ThirdPartyIdentityProviderEnabled)) 400),
       [], checked)
  | Some passwordHash =>
  if twoFactorEnabled user
  then (Return (json (ErrorBody TwoFactorAlreadyEnabled) 400), [], checked)
  else
  match present_units CALENDSO_ENCRYPTION_KEY with
  | None => (Return (json (ErrorBody InternalServerError) 500), [], checked)
  | Some key =>
  match verifyPassword (body_password requestBody) passwordHash with
  | Throw e => (Throw e, [], checked)
  | Return false => (Return (json (ErrorBody IncorrectPassword) 400), [], checked)
  | Return true =>
  match encrypt_at 10 (JSON_stringify backup_codes) key with
  | Throw e => (Throw e, [], checked)
  | Return encryptedBackupCodes =>
  match encrypt_at 11 secret key with
  | Throw e => (Throw e, [], checked)
  | Return encryptedSecret =>
  let data := {| data_backupCodes := encryptedBackupCodes;
                 data_twoFactorEnabled := false;
                 data_twoFactorSecret := encryptedSecret |} in
  match update id data with
  | Throw e => (Throw e, [(id, data)], checked)
  | Return _ =>
  let keyUri := keyuri (account_name user) (units "Cal") secret in
  match toDataURL keyUri with
  | Throw e => (Throw e, [(id, data)], checked)
  | Return dataUri =>
      (Return (json (SetupBody secret keyUri dataUri backup_codes) 200),
       [(id, data)], checked)
  end end end end end end end end end end end end.
Proof.
  unfold TotpSetup.postHandler, setup, check_user, generate_and_respond,
    encrypt_and_save, has_password_hash, TotpSetup.encrypt_at.
  destruct parseRequestData as [requestBody|e]; [|reflexivity]. run.
  destruct getServerSession as [[session|]|e]; [|reflexivity|reflexivity]. run.
  destruct (session_id session) as [id|]; [|reflexivity]. run.
  destruct (checkRateLimitAndThrowError (rate_limit_identifier id)) as [[]|e];
    [|reflexivity]. run.
  destruct (findUnique id) as [[user|]|e]; [|reflexivity|reflexivity]. run.
  destruct (password_hash user) as [passwordHash|];
    [|destruct (is_CAL (identityProvider user)); reflexivity].
  rewrite andb_false_r.
  destruct (twoFactorEnabled user); [reflexivity|]. run.
  destruct (present_units CALENDSO_ENCRYPTION_KEY) as [key|]; [|reflexivity]. run.
  destruct (verifyPassword (body_password requestBody) passwordHash) as [[|]|e];
    [|reflexivity|reflexivity]. run.
  destruct (symmetricEncrypt base64_decode (randomBytes 10) aes256_encrypt
              (JSON_stringify backup_codes) key) as [c1|e]; [|reflexivity].
  run.
  destruct (symmetricEncrypt base64_decode (randomBytes 11) aes256_encrypt
              secret key) as [c2|e]; [|reflexivity].
  run.
  destruct (update id _) as [[]|e]; [|reflexivity]. run.
  destruct (toDataURL _) as [dataUri|e]; reflexivity.
Qed.

(** Case analysis on a run, along [postHandler_summary]. *)
Ltac summary R :=
  pose proof postHandler_summary as R; cbv zeta in R;
  match type of R with
  | (?o, ?u, ?c) = _ =>
      let vo := fresh "o" in
      let vu := fresh "u" in
      let vc := fresh "c" in
      set (vo := o) in *; set (vu := u) in *; set (vc := c) in *;
      clearbody vo vu vc
  end.

Ltac by_run :=
  let R := fresh "R" in
  summary R;
  repeat match type of R with
         | context [match ?x with _ => _ end] => destruct x eqn:?
         end;
  injection R as Hout Hupd Hchk;
  repeat match goal with u : unit |- _ => destruct u end.

(** A run that got past the first encryption, under a key for which
    encryption throws. *)
Ltac wrong_key E :=
  repeat match goal with
         | H : Some _ = Some _ |- _ => injection H as H; try subst
         end;
  match goal with
  | H : TotpSetup.encrypt_at _ _ _ 10 _ _ = Return _ |- _ =>
      rewrite E in H; discriminate
  end.

Ltac found := repeat split; first [eassumption | reflexivity].

(** X18.  A database update is issued only after every check has passed:
    the body parsed, the session names a user, the rate limit let the request
    through, the user row exists, has a password hash and has two-factor
    authentication off, the encryption key is configured, and the password
    was verified.  The update is then the only one of the request, it is for
    the user of the session, it stores the two ciphertexts, and it leaves
    two-factor authentication off. *)
Theorem update_follows_every_check id data :
  In (id, data) (updates (effects postHandler)) ->
  exists requestBody session user passwordHash key,
    parseRequestData = Return requestBody /\
    getServerSession = Return (Some session) /\
    session_id session = Some id /\
    checkRateLimitAndThrowError (rate_limit_identifier id) = Return tt /\
    findUnique id = Return (Some user) /\
    password_hash user = Some passwordHash /\
    twoFactorEnabled user = false /\
    present_units CALENDSO_ENCRYPTION_KEY = Some key /\
    verifyPassword (body_password requestBody) passwordHash = Return true /\
    encrypt_at 10 (JSON_stringify backup_codes) key = Return (data_backupCodes data) /\
    encrypt_at 11 secret key = Return (data_twoFactorSecret data) /\
    data_twoFactorEnabled data = false /\
    updates (effects postHandler) = [(id, data)].
Proof.
  intros H. by_run; rewrite Hupd in *; cbn [In] in H;
    try contradiction; destruct H as [[= <- <-]|[]].
  all: do 5 eexists; repeat split; try eassumption; reflexivity.
Qed.

(** X19.  A response with status 200 carries the generated secret, the key
    URI made from the account name (the email, else the user name, else the
    decimal user id), the issuer Cal and the secret, the QR code of that URI,
    and the generated backup codes.  It is sent only after the one database
    update of the request has been issued and has resolved. *)
Theorem successful_setup r :
  outcome_of postHandler = Return r -> status r = 200%Z ->
  exists id user data dataUri,
    findUnique id = Return (Some user) /\
    toDataURL (keyuri (account_name user) (units "Cal") secret) = Return dataUri /\
    body r = SetupBody secret (keyuri (account_name user) (units "Cal") secret)
               dataUri backup_codes /\
    updates (effects postHandler) = [(id, data)] /\
    update id data = Return tt.
Proof.
  intros H St. by_run; rewrite Hout in H; try discriminate; injection H as <-;
    cbn [status json] in St; try discriminate.
  do 4 eexists. repeat split; try eassumption; reflexivity.
Qed.

(** X20.  Every response that is not a 200 has status 400, 401 or 500 and
    comes from a run that issued no database update.  A run that throws after
    issuing an update throws either the error of the update itself, or, the
    update having resolved, the error of the QR-code generation: the secret
    is then stored although no response carries it. *)
Theorem failures_and_the_database :
  (forall r, outcome_of postHandler = Return r -> status r <> 200%Z ->
             updates (effects postHandler) = [] /\
             In (status r) [400; 401; 500]%Z) /\
  (forall e id data,
      outcome_of postHandler = Throw e ->
      In (id, data) (updates (effects postHandler)) ->
      update id data = Throw e \/
      (update id data = Return tt /\
       exists user,
         findUnique id = Return (Some user) /\
         toDataURL (keyuri (account_name user) (units "Cal") secret) = Throw e)).
Proof.
  split.
  - intros r H St. by_run; rewrite Hout in H; try discriminate; injection H as <-;
      cbn [status json] in *; try contradiction; rewrite Hupd;
      (split; [reflexivity|cbn [In]; auto 6]).
  - intros e id data H I. by_run; rewrite Hout in H; try discriminate;
      injection H as <-; rewrite Hupd in I; cbn [In] in I; try contradiction;
      destruct I as [[= <- <-]|[]].
    + right. split; [assumption|]. eexists. split; eassumption.
    + left. assumption.
Qed.

(** X21.  What each error code in a response says about the request.  The
    two codes about a missing password are decided by the user row alone,
    the third-party one for a user of another identity provider; the code for
    two-factor authentication already enabled is given only to a user with a
    password hash; the code for an incorrect password means that every earlier
    check passed, the key is configured, and the password check answered no.
    An internal server error is a session without a user id, or a missing
    encryption key met after all checks on the user row. *)
Theorem rejection_reasons r code :
  outcome_of postHandler = Return r -> body r = ErrorBody code ->
  match code with
  | InternalServerError =>
      status r = 500%Z /\
      ((exists session, getServerSession = Return (Some session) /\
                        session_id session = None) \/
       (exists id user passwordHash,
           findUnique id = Return (Some user) /\
           password_hash user = Some passwordHash /\
           twoFactorEnabled user = false /\
           present_units CALENDSO_ENCRYPTION_KEY = None))
  | ThirdPartyIdentityProviderEnabled =>
      status r = 400%Z /\
      exists id user,
        findUnique id = Return (Some user) /\
        password_hash user = None /\ is_CAL (identityProvider user) = false
  | UserMissingPassword =>
      status r = 400%Z /\
      exists id user,
        findUnique id = Return (Some user) /\
        password_hash user = None /\ is_CAL (identityProvider user) = true
  | TwoFactorAlreadyEnabled =>
      status r = 400%Z /\
      exists id user passwordHash,
        findUnique id = Return (Some user) /\
        password_hash user = Some passwordHash /\ twoFactorEnabled user = true
  | IncorrectPassword =>
      status r = 400%Z /\
      exists requestBody id user passwordHash key,
        parseRequestData = Return requestBody /\
        findUnique id = Return (Some user) /\
        password_hash user = Some passwordHash /\
        twoFactorEnabled user = false /\
        present_units CALENDSO_ENCRYPTION_KEY = Some key /\
        verifyPassword (body_password requestBody) passwordHash = Return false
  end.
Proof.
  intros H B. by_run; rewrite Hout in H; try discriminate; injection H as <-;
    cbn [body json] in B; try discriminate; injection B as <-.
  all: split; [reflexivity|].
  all: first [ right; do 3 eexists; solve [found]
             | left; eexists; solve [found]
             | do 5 eexists; solve [found]
             | do 3 eexists; solve [found]
             | do 2 eexists; solve [found] ].
Qed.

(** X22.  The rate limit is consulted once for every request whose body
    parsed and whose session names a user, under the identifier made of
    api:totp-setup: and the decimal user id, and for no other request.  A
    request the limiter refuses ends in the limiter's error and issues no
    database update. *)
Theorem rate_limit_scope :
  rate_limit_checks (effects postHandler) =
  match parseRequestData, getServerSession with
  | Return _, Return (Some session) =>
      match session_id session with
      | Some id => [rate_limit_identifier id]
      | None => []
      end
  | _, _ => []
  end /\
  (forall id e,
      In (rate_limit_identifier id) (rate_limit_checks (effects postHandler)) ->
      checkRateLimitAndThrowError (rate_limit_identifier id) = Throw e ->
      outcome_of postHandler = Throw e /\ updates (effects postHandler) = []).
Proof.
  split.
  - by_run; rewrite Hchk; reflexivity.
  - intros id e I T. by_run; rewrite Hchk in I; cbn [In] in I; try contradiction;
      destruct I as [I|[]]; rewrite <- I in *; try congruence.
    rewrite Hout, Hupd. split; congruence.
Qed.

(** X23.  When the configured key does not decode to 32 bytes, no request
    stores anything and none is answered with a 200: a request that passes
    every check ends in the error about the key length. *)
Theorem invalid_key_stores_nothing key :
  present_units CALENDSO_ENCRYPTION_KEY = Some key ->
  List.length (base64_decode key) <> 32%nat ->
  updates (effects postHandler) = [] /\
  (forall r, outcome_of postHandler = Return r -> status r <> 200%Z) /\
  (forall requestBody session id user passwordHash,
      parseRequestData = Return requestBody ->
      getServerSession = Return (Some session) ->
      session_id session = Some id ->
      checkRateLimitAndThrowError (rate_limit_identifier id) = Return tt ->
      findUnique id = Return (Some user) ->
      password_hash user = Some passwordHash ->
      twoFactorEnabled user = false ->
      verifyPassword (body_password requestBody) passwordHash = Return true ->
      outcome_of postHandler
      = Throw (invalid_key_length (List.length (base64_decode key)))).
Proof.
  intros K L.
  assert (E : forall n text,
             encrypt_at n text key
             = Throw (invalid_key_length (List.length (base64_decode key)))).
  { intros n text. unfold TotpSetup.encrypt_at, symmetricEncrypt.
    apply Nat.eqb_neq in L. now rewrite L. }
  split; [|split].
  - by_run; rewrite Hupd; try reflexivity; exfalso; wrong_key E.
  - intros r H. by_run; rewrite Hout in H; try discriminate; injection H as <-;
      cbn [status json]; try discriminate; exfalso; wrong_key E.
  - intros requestBody session id user passwordHash H1 H2 H3 H4 H5 H6 H7 H8.
    summary R. rewrite H1, H2, H3, H4, H5, H6, H7, K, H8, E in R.
    now injection R as -> _ _.
Qed.

(** X24.  The response of a successful setup carries the secret of
    [generateSecret(20)] and ten backup codes, each of ten lower-case
    hexadecimal digits, given that the random source returns as many bytes
    as it is asked for. *)
Theorem backup_codes_shape r s k d codes :
  (forall n, List.length (randomBytes n 5) = 5%nat) ->
  outcome_of postHandler = Return r ->
  body r = SetupBody s k d codes ->
  status r = 200%Z /\
  s = secret /\
  List.length codes = 10%nat /\
  Forall (fun code => List.length code = 10%nat /\ Forall is_hex_unit code) codes.
Proof.
  intros Hr H B. by_run; rewrite Hout in H; try discriminate; injection H as <-;
    cbn [body json] in B; try discriminate.
  injection B as <- _ _ <-. split; [reflexivity|]. split; [reflexivity|].
  unfold generate_backup_codes. split; [reflexivity|].
  apply Forall_map, Forall_forall. intros n _. split.
  - rewrite CiphertextFacts.hex_encode_length, Hr. reflexivity.
  - apply CiphertextFacts.hex_encode_units.
Qed.

Variable aes256_decrypt : Buffer -> Buffer -> Buffer -> outcome Buffer.

Local Abbreviation decrypt := (symmetricDecrypt base64_decode aes256_decrypt).

(** An encryption that returned ran under a key of 32 bytes. *)
Lemma encrypt_at_key n text key c :
  encrypt_at n text key = Return c -> List.length (base64_decode key) = 32%nat.
Proof.
  unfold TotpSetup.encrypt_at, symmetricEncrypt.
  destruct (Nat.eqb_spec (List.length (base64_decode key)) 32) as [Hk|Hk];
    cbn [negb]; [trivial|discriminate].
Qed.

(** What was stored by [encrypt_at] decrypts to the well-formed version of
    the text. *)
Lemma decrypt_encrypt_at n text key c :
  cipher_inverts aes256_encrypt aes256_decrypt ->
  random_source (randomBytes n) ->
  Forall is_code_unit text ->
  encrypt_at n text key = Return c ->
  decrypt c key = Return (toWellFormed text).
Proof.
  intros Hc Hr U E. pose proof (encrypt_at_key _ _ _ _ E) as Hk.
  destruct (CryptoFacts.decrypt_encrypt base64_decode (randomBytes n)
              aes256_encrypt aes256_decrypt text key Hr Hc Hk) as (c' & E' & D).
  unfold TotpSetup.encrypt_at in E. rewrite E in E'. injection E' as <-.
  now rewrite D, WellFormedFacts.utf8_decode_encode.
Qed.

(** X25.  After a successful setup the database holds what the response
    shows: under a cipher that the decipher inverts, the stored secret
    decrypts, with the configured key, to the secret of the response, and the
    stored backup codes decrypt to the JSON text of the codes of the response
    (each up to the replacement of unpaired surrogates, of which a secret and
    a JSON text have none).  Two-factor authentication is stored as off. *)
Theorem stored_values_decrypt r :
  cipher_inverts aes256_encrypt aes256_decrypt ->
  (forall n m, List.length (randomBytes n m) = m) ->
  Forall is_code_unit secret ->
  Forall is_code_unit (JSON_stringify backup_codes) ->
  outcome_of postHandler = Return r -> status r = 200%Z ->
  exists id data key k d,
    body r = SetupBody secret k d backup_codes /\
    updates (effects postHandler) = [(id, data)] /\
    present_units CALENDSO_ENCRYPTION_KEY = Some key /\
    decrypt (data_twoFactorSecret data) key = Return (toWellFormed secret) /\
    decrypt (data_backupCodes data) key
    = Return (toWellFormed (JSON_stringify backup_codes)) /\
    data_twoFactorEnabled data = false.
Proof.
  intros Hc Hr Us Uc H St. by_run; rewrite Hout in H; try discriminate;
    injection H as <-; cbn [status json] in St; try discriminate.
  do 5 eexists. split; [reflexivity|]. split; [exact Hupd|].
  split; [reflexivity|]. cbn [data_twoFactorSecret data_backupCodes
                                data_twoFactorEnabled].
  split; [|split; [|reflexivity]].
  - eapply decrypt_encrypt_at; [exact Hc|exact (Hr 11%nat)|exact Us|eassumption].
  - eapply decrypt_encrypt_at; [exact Hc|exact (Hr 10%nat)|exact Uc|eassumption].
Qed.

End RouteFacts.

End TotpFacts.

Module TotpWitnesses.
Import JS Eff Crypto CodeUnits TotpSetup TotpSamples TotpFacts.
Local Open Scope list_scope.

Local Abbreviation on_run key session verify thm :=
  (thm key request_body session no_limit find_alice verify secret_of uri_of
     random_at stringify CryptoSamples.base64 CryptoSamples.cipher saved qr).

(** Code units, by computation. *)
Lemma code_units_check (s : ustring) :
  forallb (fun u => (0 <=? u)%Z && (u <? 65536)%Z) s = true ->
  Forall is_code_unit s.
Proof.
  intros H. apply Forall_forall. intros u I.
  rewrite forallb_forall in H. specialize (H u I). unfold is_code_unit. lia.
Qed.

Lemma successful_run :
  exists r data,
    outcome_of successful = Return r /\ status r = 200%Z /\
    updates (effects successful) = [(7%Z, data)].
Proof.
  destruct (outcome_of successful) as [r|e] eqn:E; [|vm_compute in E; discriminate].
  destruct (updates (effects successful)) as [|[id data] [|]] eqn:U;
    try (vm_compute in U; discriminate).
  exists r, data. split; [reflexivity|].
  split; [vm_compute in E; injection E as <-; reflexivity|].
  vm_compute in U. injection U as <- _. reflexivity.
Defined.

(** X18 on the request that succeeds. *)
Lemma update_follows_every_check_witness :
  exists data,
    In (7%Z, data) (updates (effects successful)) /\
    updates (effects successful) = [(7%Z, data)] /\
    data_twoFactorEnabled data = false.
Proof.
  destruct successful_run as (r & data & _ & _ & U). exists data.
  assert (I : In (7%Z, data) (updates (effects successful)))
    by (rewrite U; left; reflexivity).
  split; [exact I|].
  destruct (on_run valid_key session_of_alice accept update_follows_every_check
              7%Z data I)
    as (_ & _ & _ & _ & _ & _ & _ & _ & _ & _ & _ & _ & _ & _ & _ & _ & F & U').
  split; [exact U'|exact F].
Defined.

(** X19 on the request that succeeds. *)
Lemma successful_setup_witness :
  exists r data dataUri,
    outcome_of successful = Return r /\ status r = 200%Z /\
    body r = SetupBody (secret_of 20)
               (uri_of (account_name alice) (units "Cal") (secret_of 20)) dataUri
               (generate_backup_codes random_at) /\
    updates (effects successful) = [(7%Z, data)].
Proof.
  destruct successful_run as (r & data & E & St & U).
  destruct (on_run valid_key session_of_alice accept successful_setup r E St)
    as (id & user & data' & dataUri & F & _ & B & U' & _).
  exists r, data, dataUri. split; [exact E|]. split; [exact St|].
  split; [|exact U].
  unfold successful, run in U. rewrite U in U'. injection U' as <- _.
  vm_compute in F. injection F as <-. exact B.
Defined.

(** X21 on the request with a wrong password. *)
Lemma rejection_reasons_witness :
  exists r,
    outcome_of wrong_password = Return r /\
    body r = ErrorBody IncorrectPassword /\ status r = 400%Z.
Proof.
  destruct (outcome_of wrong_password) as [r|e] eqn:E;
    [|vm_compute in E; discriminate].
  assert (B : body r = ErrorBody IncorrectPassword)
    by (vm_compute in E; injection E as <-; reflexivity).
  exists r. split; [reflexivity|]. split; [exact B|].
  exact (proj1 (on_run valid_key session_of_alice refuse rejection_reasons
                  r IncorrectPassword E B)).
Defined.

(** X23 on the request under the key that decodes to no bytes. *)
Lemma invalid_key_stores_nothing_witness :
  updates (effects under_invalid_key) = [] /\
  outcome_of under_invalid_key = Throw (invalid_key_length 0).
Proof.
  assert (K : present_units invalid_key = Some [65%Z]) by reflexivity.
  assert (L : List.length (CryptoSamples.base64 [65%Z]) <> 32%nat)
    by (vm_compute; discriminate).
  destruct (on_run invalid_key session_of_alice accept invalid_key_stores_nothing
              [65%Z] K L) as (U & _ & T).
  split; [exact U|].
  now apply (T {| body_password := Some (units "secret") |}
               {| session_user := Some {| session_user_id := Some 7%Z |} |}
               7%Z alice (units "$2a$12$hash")).
Defined.

(** X24 on the request that succeeds. *)
Lemma backup_codes_shape_witness :
  exists r s k d codes,
    outcome_of successful = Return r /\ body r = SetupBody s k d codes /\
    List.length codes = 10%nat /\
    Forall (fun code => List.length code = 10%nat /\ Forall is_hex_unit code) codes.
Proof.
  destruct successful_run as (r & data & E & St & U).
  destruct (body r) as [m|c|s k d codes] eqn:B;
    try (vm_compute in E; injection E as <-; discriminate).
  exists r, s, k, d, codes. split; [exact E|]. split; [exact B|].
  assert (R : forall n, List.length (random_at n 5) = 5%nat) by reflexivity.
  destruct (on_run valid_key session_of_alice accept backup_codes_shape
              r s k d codes R E B) as (_ & _ & L & F).
  split; [exact L|exact F].
Defined.

(** X25 on the request that succeeds, under the sample cipher. *)
Lemma stored_values_decrypt_witness :
  exists data,
    updates (effects successful) = [(7%Z, data)] /\
    CryptoSamples.decrypt (data_twoFactorSecret data) CryptoSamples.key
    = Return (secret_of 20) /\
    CryptoSamples.decrypt (data_backupCodes data) CryptoSamples.key
    = Return (stringify (generate_backup_codes random_at)).
Proof.
  destruct successful_run as (r & data & E & St & U).
  assert (R : forall n m, List.length (random_at n m) = m)
    by (intros n m; apply repeat_length).
  assert (Us : Forall is_code_unit (secret_of 20))
    by (apply Forall_forall; intros x I; apply repeat_spec in I; subst;
        unfold is_code_unit; lia).
  assert (Uc : Forall is_code_unit (stringify (generate_backup_codes random_at)))
    by (apply code_units_check; vm_compute; reflexivity).
  destruct (on_run valid_key session_of_alice accept stored_values_decrypt
              CryptoSamples.decipher r CryptoFacts.sample_cipher_inverts R Us Uc E St)
    as (id & data' & key & k & d & _ & U' & K & Ds & Dc & _).
  unfold successful, run in U. rewrite U in U'. injection U' as _ <-.
  injection K as <-. exists data. split; [exact U|].
  split; [exact Ds|exact Dc].
Defined.

End TotpWitnesses.
